(** * claro_invoice: the invoice scraper of [main.py], embedded in Rocq

    The development follows the layout of [main.py]:

    - [PyStr]: the string primitives the program calls ([str.split],
      [str.replace], [str.endswith], [str.lower], ...), on ASCII strings;
    - [Calendar]: [datetime] values, [datetime.strptime] for the two format
      strings of the program and [strftime] for its two output formats;
    - [extract_and_parse_dates], line 22;
    - [retry_on_stale_element], line 42;
    - [OsPath] and [Os]: [os.path.join], [os.path.basename],
      [os.path.dirname], [os.path.splitext], and the file system with
      [os.listdir], [os.unlink], [os.makedirs], [shutil.move];
    - the methods of
      [ClaroInvoiceScraper] that touch the file system ([__init__], [clear_tmp_directory],
      [wait_for_download_complete], [move_and_rename_file]);
    - [process_accounts], line 298, over an abstract driven browser;
    - [rename_latest_download], line 372, with [os.path.getctime] and
      [os.rename] as parameters;
    - [setup_logging], [__init__] in full, [login], [handle_popup],
      [navigate_to_invoices], [close] and [main], line 400, in the process:
      the world of the scraper with the handlers of its logger, its standard
      output and a journal of the calls that start, steer and quit the
      browser.

    Python exceptions are values of [exn]; a computation that can raise
    returns [result A]. *)

From Stdlib Require Import ZArith Ascii Lia.
From stdpp Require Import gmap strings list pretty.

Local Open Scope Z_scope.

(** ** Exceptions *)

Inductive exn_class : Type :=
| StaleElementReferenceException
| TimeoutException
| NoSuchElementException
| WebDriverException
| ValueError
| IndexError
| AttributeError
| FileNotFoundError
| FileExistsError
| NotADirectoryError
| IsADirectoryError
| ShutilError.

Global Instance exn_class_eq_dec : EqDecision exn_class.
Proof. solve_decision. Defined.

(** An exception object: its class and [str(e)]. *)
Record exn : Type := Exn { exn_cls : exn_class; exn_str : string }.

Global Instance exn_eq_dec : EqDecision exn.
Proof. solve_decision. Defined.

(** [inl e]: the call raised [e]; [inr v]: it returned [v]. *)
Definition result (A : Type) : Type := (exn + A)%type.

Definition is_instance (c : exn_class) (e : exn) : bool :=
  bool_decide (exn_cls e = c).

(** ** Python strings (ASCII) *)

Module PyStr.

Fixpoint mem (c : ascii) (s : string) : bool :=
  match s with
  | EmptyString => false
  | String a s' => if Ascii.eqb a c then true else mem c s'
  end.

(** [s.split(sep)] for a one-character separator: never empty. *)
Fixpoint split (sep : ascii) (s : string) : list string :=
  match s with
  | EmptyString => [EmptyString]
  | String a s' =>
      if Ascii.eqb a sep then EmptyString :: split sep s'
      else match split sep s' with
           | seg :: segs => String a seg :: segs
           | [] => [String a EmptyString]
           end
  end.

(** [s.replace(a, b)] for one-character [a] and [b]. *)
Fixpoint replace (a b : ascii) (s : string) : string :=
  match s with
  | EmptyString => EmptyString
  | String c s' => String (if Ascii.eqb c a then b else c) (replace a b s')
  end.

Definition lower_char (c : ascii) : ascii :=
  let n := nat_of_ascii c in
  if ((65 <=? n)%nat && (n <=? 90)%nat)%bool then ascii_of_nat (n + 32) else c.

(** [s.lower()]. *)
Fixpoint lower (s : string) : string :=
  match s with
  | EmptyString => EmptyString
  | String c s' => String (lower_char c) (lower s')
  end.

Fixpoint startswith (s p : string) : bool :=
  match p, s with
  | EmptyString, _ => true
  | String a p', String b s' => if Ascii.eqb a b then startswith s' p' else false
  | String _ _, EmptyString => false
  end.

(** [s.endswith(suffix)]. *)
Definition endswith (s suffix : string) : bool :=
  startswith (String.rev s) (String.rev suffix).

(** Truth value of a string: [if s:]. *)
Definition truthy (s : string) : bool :=
  match s with EmptyString => false | String _ _ => true end.

(** A decimal digit as a character, and back. *)
Definition digit_char (n : N) : ascii :=
  match n with
  | 0 => "0" | 1 => "1" | 2 => "2" | 3 => "3" | 4 => "4"
  | 5 => "5" | 6 => "6" | 7 => "7" | 8 => "8" | _ => "9"
  end%N%char.

Definition digit (c : ascii) : option N :=
  let code := N_of_ascii c in
  if ((48 <=? code) && (code <=? 57))%N%bool then Some (code - 48)%N else None.

(** [f"{n:02d}"] and [f"{n:04d}"] for [n] below 100 and 10000. *)
Definition dec2 (n : N) : string :=
  String (digit_char (n / 10)) (String (digit_char (n mod 10)) EmptyString).

Definition dec4 (n : N) : string :=
  String (digit_char (n / 1000))
    (String (digit_char (n / 100 mod 10))
       (String (digit_char (n / 10 mod 10))
          (String (digit_char (n mod 10)) EmptyString))).

(** [repr(s)], as the text of an [OSError] shows a path: in single quotes,
    or in double quotes when the string holds a single quote and no double
    one; the quote and the backslash escaped, and what is not printable
    written as [\t], [\n], [\r] or [\xhh]. *)
Definition double_quote : ascii := "034"%char.

Definition hex_digit (n : N) : ascii :=
  if (n <? 10)%N then ascii_of_N (48 + n) else ascii_of_N (87 + n).

Definition escape (quote c : ascii) : string :=
  let code := N_of_ascii c in
  if (Ascii.eqb c quote || Ascii.eqb c "\")%bool then String "\" (String c EmptyString)
  else if (code =? 9)%N then "\t"
  else if (code =? 10)%N then "\n"
  else if (code =? 13)%N then "\r"
  else if ((code <? 32) || (127 <=? code))%N%bool
  then String "\" (String "x" (String (hex_digit (code / 16))
                                 (String (hex_digit (code mod 16)) EmptyString)))
  else String c EmptyString.

Fixpoint escaped (quote : ascii) (s : string) : string :=
  match s with
  | EmptyString => EmptyString
  | String c s' => escape quote c +:+ escaped quote s'
  end.

Definition repr (s : string) : string :=
  let quote := if (mem "'" s && negb (mem double_quote s))%bool then double_quote else "'"%char in
  String quote (escaped quote s) +:+ String quote EmptyString.

End PyStr.

(** ** [datetime] *)

Module Calendar.

(** A [datetime] at midnight, which is all [strptime] builds from the
    formats of this program. *)
Record datetime : Type := Datetime { year : N; month : N; day : N }.

Global Instance datetime_eq_dec : EqDecision datetime.
Proof. solve_decision. Defined.

Definition is_leap (y : N) : bool :=
  ((y mod 4 =? 0) && (negb (y mod 100 =? 0) || (y mod 400 =? 0)))%N%bool.

Definition days_in_month (y m : N) : N :=
  match m with
  | 2 => if is_leap y then 29 else 28
  | 4 | 6 | 9 | 11 => 30
  | _ => 31
  end%N.

(** The constructor [datetime(year, month, day)]: [ValueError] outside
    [MINYEAR..MAXYEAR], [1..12] and the days of the month. *)
Definition make_datetime (y m d : N) : result datetime :=
  if ((1 <=? y) && (y <=? 9999) && (1 <=? m) && (m <=? 12)
      && (1 <=? d) && (d <=? days_in_month y m))%N%bool
  then inr (Datetime y m d)
  else inl (Exn ValueError "day is out of range for month").

(** *** The regular expressions of [_strptime]

    [strptime] turns the format into a regular expression, matches it at the
    start of the input with backtracking, and then demands that the match
    consumed the whole input.  A directive is modelled by the list of its
    possible matches in the order the regex engine tries them: the value
    read and the rest of the input. *)

Definition matcher (A : Type) : Type := string → list (A * string).

(** [[1-9]] *)
Definition nonzero_digit (c : ascii) : list N :=
  match PyStr.digit c with
  | Some a => if (1 <=? a)%N then [a] else []
  | None => []
  end.

(** [%d]: [3[0-1]|[1-2]\d|0[1-9]|[1-9]| [1-9]]. *)
Definition re_d : matcher N := λ s,
  match s with
  | String c1 rest1 =>
      let two :=
        match rest1 with
        | String c2 rest2 =>
            match PyStr.digit c1, PyStr.digit c2 with
            | Some 3%N, Some b => if (b <=? 1)%N then [((30 + b)%N, rest2)] else []
            | Some 1%N, Some b => [((10 + b)%N, rest2)]
            | Some 2%N, Some b => [((20 + b)%N, rest2)]
            | Some 0%N, Some b => if (1 <=? b)%N then [(b, rest2)] else []
            | _, _ => []
            end
        | EmptyString => []
        end in
      let one := (λ a, (a, rest1)) <$> nonzero_digit c1 in
      let spaced :=
        match rest1 with
        | String c2 rest2 =>
            if Ascii.eqb c1 " "%char
            then (λ b, (b, rest2)) <$> nonzero_digit c2 else []
        | EmptyString => []
        end in
      two ++ one ++ spaced
  | EmptyString => []
  end.

(** [%m]: [1[0-2]|0[1-9]|[1-9]]. *)
Definition re_m : matcher N := λ s,
  match s with
  | String c1 rest1 =>
      let two :=
        match rest1 with
        | String c2 rest2 =>
            match PyStr.digit c1, PyStr.digit c2 with
            | Some 1%N, Some b => if (b <=? 2)%N then [((10 + b)%N, rest2)] else []
            | Some 0%N, Some b => if (1 <=? b)%N then [(b, rest2)] else []
            | _, _ => []
            end
        | EmptyString => []
        end in
      let one := (λ a, (a, rest1)) <$> nonzero_digit c1 in
      two ++ one
  | EmptyString => []
  end.

(** [%Y]: [\d\d\d\d]. *)
Definition re_Y : matcher N := λ s,
  match s with
  | String c1 (String c2 (String c3 (String c4 rest))) =>
      match PyStr.digit c1, PyStr.digit c2, PyStr.digit c3, PyStr.digit c4 with
      | Some a, Some b, Some c, Some d =>
          [((1000 * a + 100 * b + 10 * c + d)%N, rest)]
      | _, _, _, _ => []
      end
  | _ => []
  end.

(** A literal character of the format. *)
Definition re_lit (c : ascii) : matcher unit := λ s,
  match s with
  | String a rest => if Ascii.eqb a c then [(tt, rest)] else []
  | EmptyString => []
  end.

(** Concatenation: every match of [p], each followed by every match of
    [q], in the engine's order. *)
Definition re_seq {A B : Type} (p : matcher A) (q : matcher B) : matcher (A * B) :=
  λ s, '(a, r) ← p s; '(b, r') ← q r; [((a, b), r')].

Definition no_match : exn :=
  Exn ValueError "time data does not match format".
Definition unconverted : exn :=
  Exn ValueError "unconverted data remains".

(** [re.match] takes the first match; [_strptime] then checks that nothing
    of the input is left. *)
Definition full_match {A : Type} (p : matcher A) (s : string) : result A :=
  match p s with
  | [] => inl no_match
  | (a, EmptyString) :: _ => inr a
  | (_, String _ _) :: _ => inl unconverted
  end.

(** [datetime.strptime(s, '%d/%m/%Y')]. *)
Definition strptime_dmY (s : string) : result datetime :=
  match full_match
          (re_seq re_d (re_seq (re_lit "/") (re_seq re_m (re_seq (re_lit "/") re_Y)))) s
  with
  | inl e => inl e
  | inr (d, (_, (m, (_, y)))) => make_datetime y m d
  end.

(** [datetime.strptime(s, '%m/%Y')]: the day defaults to 1. *)
Definition strptime_mY (s : string) : result datetime :=
  match full_match (re_seq re_m (re_seq (re_lit "/") re_Y)) s with
  | inl e => inl e
  | inr (m, (_, y)) => make_datetime y m 1
  end.

(** [dt.strftime('%Y-%m-%d')] and [dt.strftime('%Y-%m')], as CPython 3.11
    has them on Linux: [%Y] is the year as the C library writes it, which
    does not pad a year below 1000 ([5-03] for March of the year 5); month
    and day are on two digits. *)
Definition strftime_Ymd (dt : datetime) : string :=
  pretty (year dt) +:+ "-" +:+ PyStr.dec2 (month dt) +:+ "-" +:+ PyStr.dec2 (day dt).

Definition strftime_Ym (dt : datetime) : string :=
  pretty (year dt) +:+ "-" +:+ PyStr.dec2 (month dt).

(** [str(dt)] for a [datetime] at midnight: the ISO form, the year on four
    digits. *)
Definition str_datetime (dt : datetime) : string :=
  PyStr.dec4 (year dt) +:+ "-" +:+ PyStr.dec2 (month dt) +:+ "-" +:+ PyStr.dec2 (day dt)
    +:+ " 00:00:00".

End Calendar.

Import Calendar.

(** ** [extract_and_parse_dates] (line 22) *)

(** [parts[i]]: [IndexError] past the end. *)
Definition index (parts : list string) (i : nat) : result string :=
  match parts !! i with
  | Some p => inr p
  | None => inl (Exn IndexError "list index out of range")
  end.

(** The body of the [try] block, lines 31 to 37. *)
Definition parse_dates_body (parts : list string) : result (datetime * datetime) :=
  match strptime_dmY (default EmptyString (parts !! 0%nat)) with
  | inl e => inl e
  | inr first_date =>
      match index parts 1 with
      | inl e => inl e
      | inr p1 =>
          match index parts 2 with
          | inl e => inl e
          | inr p2 =>
              let second_date_str := p1 +:+ "|" +:+ p2 in
              match strptime_mY (PyStr.replace "|" "/" second_date_str) with
              | inl e => inl e
              | inr second_date => inr (first_date, second_date)
              end
          end
      end
  end.

(** The pair the function returns: two dates, or [(None, None)] from the
    [except ValueError] clause; any other exception leaves the function. *)
Definition extract_and_parse_dates (date_string : string)
  : result (option datetime * option datetime) :=
  let parts := PyStr.split "|" date_string in
  match parse_dates_body parts with
  | inr (first_date, second_date) => inr (Some first_date, Some second_date)
  | inl e => if is_instance ValueError e then inr (None, None) else inl e
  end.

(** ** [retry_on_stale_element] (line 42) *)

(** What the wrapper gives back: the value of the wrapped call, or the
    [return None] of line 59 after the [for] loop. *)
Inductive wrapped (A : Type) : Type :=
| Returned (v : A)
| FellThrough.
Arguments Returned {A} v.
Arguments FellThrough {A}.

(** [range(n)]: empty for [n <= 0]. *)
Definition range (n : Z) : list Z := Z.of_nat <$> seq 0 (Z.to_nat n).

Section RetryGuard.
(** The wrapped callable is a method: [args[0]] is the instance, whose
    logger takes the warning.  [St] is the state the call runs in;
    [warning] is [instance.logger.warning] and [sleep] is [time.sleep],
    in seconds. *)
Context {St A : Type}.
Variable warning : string → St → St.
Variable sleep : N → St → St.

Definition retry_message (attempt retries : Z) (delay : N) : string :=
  "StaleElementReferenceException occurred. Attempt " +:+ pretty (attempt + 1)
    +:+ "/" +:+ pretty retries +:+ ". Retrying in " +:+ pretty delay +:+ " seconds...".

(** The [for attempt in range(retries)] loop, lines 47 to 59. *)
Fixpoint retry_loop (retries : Z) (delay : N) (func : St → result A * St)
    (attempts : list Z) (s : St) : result (wrapped A) * St :=
  match attempts with
  | [] => (inr FellThrough, s)
  | attempt :: rest =>
      match func s with
      | (inr v, s1) => (inr (Returned v), s1)
      | (inl e, s1) =>
          if is_instance StaleElementReferenceException e then
            if attempt =? retries - 1 then (inl e, s1)
            else retry_loop retries delay func rest
                   (sleep delay (warning (retry_message attempt retries delay) s1))
          else (inl e, s1)
      end
  end.

Definition retry_on_stale_element (retries : Z) (delay : N)
    (func : St → result A * St) : St → result (wrapped A) * St :=
  retry_loop retries delay func (range retries).
End RetryGuard.

(** ** Paths: [os.path] on POSIX *)

Module OsPath.

(** [os.path.join(a, b)]. *)
Definition join (a b : string) : string :=
  if PyStr.startswith b "/" then b
  else if (negb (PyStr.truthy a) || PyStr.endswith a "/")%bool then a +:+ b
  else a +:+ "/" +:+ b.

(** [p[:i]] and [p[i:]] for [i = p.rfind('/') + 1]. *)
Fixpoint head (p : string) : string :=
  match p with
  | EmptyString => EmptyString
  | String c p' =>
      if PyStr.mem "/" p' then String c (head p')
      else if Ascii.eqb c "/" then "/" else EmptyString
  end.

(** [os.path.basename(p)]. *)
Fixpoint basename (p : string) : string :=
  match p with
  | EmptyString => EmptyString
  | String c p' =>
      if PyStr.mem "/" p' then basename p'
      else if Ascii.eqb c "/" then p' else p
  end.

(** The split at the last dot: what is before it, and the rest with its dot. *)
Fixpoint rsplit_dot (s : string) : option (string * string) :=
  match s with
  | EmptyString => None
  | String c s' =>
      match rsplit_dot s' with
      | Some (pre, ext) => Some (String c pre, ext)
      | None => if Ascii.eqb c "." then Some (EmptyString, s) else None
      end
  end.

Fixpoint all_dots (s : string) : bool :=
  match s with
  | EmptyString => true
  | String c s' => if Ascii.eqb c "." then all_dots s' else false
  end.

(** [os.path.splitext(p)]: the extension starts at the last dot of the last
    component, unless only dots come before it there. *)
Definition splitext (p : string) : string * string :=
  match rsplit_dot (basename p) with
  | Some (pre, ext) =>
      if all_dots pre then (p, EmptyString) else (head p +:+ pre, ext)
  | None => (p, EmptyString)
  end.

(** [s.rstrip('/')]. *)
Fixpoint rstrip_slash (s : string) : string :=
  match s with
  | EmptyString => EmptyString
  | String c s' =>
      match rstrip_slash s' with
      | EmptyString => if Ascii.eqb c "/" then EmptyString else String c EmptyString
      | String c' r => String c (String c' r)
      end
  end.

Fixpoint all_slashes (s : string) : bool :=
  match s with
  | EmptyString => true
  | String c s' => if Ascii.eqb c "/" then all_slashes s' else false
  end.

(** [os.path.dirname(p)]: the head without its trailing slashes, unless it
    is made of slashes only. *)
Definition dirname (p : string) : string :=
  let h := head p in
  if (PyStr.truthy h && negb (all_slashes h))%bool then rstrip_slash h else h.

(** [p] with a separator at its end, as [shutil._destinsrc] makes it. *)
Definition add_sep (p : string) : string :=
  if PyStr.endswith p "/" then p else p +:+ "/".

Fixpoint strip_prefix (pre s : string) : option string :=
  match pre, s with
  | EmptyString, _ => Some s
  | String a pre', String b s' => if Ascii.eqb a b then strip_prefix pre' s' else None
  | String _ _, EmptyString => None
  end.

End OsPath.

(** ** The file system *)

(** A path names a regular file with its content, or a directory.  The map is
    flat: keys are the path strings the program builds with [os.path.join],
    and a path that is not a key names nothing. *)
Inductive node : Type :=
| File (content : string)
| Dir.

Global Instance node_eq_dec : EqDecision node.
Proof. solve_decision. Defined.

Module Os.

Definition path_exists (p : string) (fs : gmap string node) : bool :=
  bool_decide (is_Some (fs !! p)).

Definition isfile (p : string) (fs : gmap string node) : bool :=
  match fs !! p with Some (File _) => true | _ => false end.

Definition isdir (p : string) (fs : gmap string node) : bool :=
  match fs !! p with Some Dir => true | _ => false end.

(** The name under which [k] is an entry of directory [d], if it is one. *)
Definition entry_name (d k : string) : option string :=
  match OsPath.strip_prefix (OsPath.join d EmptyString) k with
  | Some n => if (PyStr.truthy n && negb (PyStr.mem "/" n))%bool then Some n else None
  | None => None
  end.

(** The text of an [OSError] on a path: [str(e)] is
    [[Errno n] message: 'path']. *)
Definition os_error (c : exn_class) (text path : string) : exn :=
  Exn c (text +:+ ": " +:+ PyStr.repr path).

Definition enoent : string → exn :=
  os_error FileNotFoundError "[Errno 2] No such file or directory".
Definition eexist : string → exn := os_error FileExistsError "[Errno 17] File exists".
Definition enotdir : string → exn := os_error NotADirectoryError "[Errno 20] Not a directory".
Definition eisdir : string → exn := os_error IsADirectoryError "[Errno 21] Is a directory".

(** [os.listdir(d)]: the names of the entries, in an order of the system's
    choosing (here that of the map). *)
Definition listdir (d : string) (fs : gmap string node) : result (list string) :=
  match fs !! d with
  | Some Dir => inr (omap (λ kv, entry_name d kv.1) (map_to_list fs))
  | Some (File _) => inl (enotdir d)
  | None => inl (enoent d)
  end.

(** [os.unlink(p)]. *)
Definition unlink (p : string) (fs : gmap string node) : result (gmap string node) :=
  match fs !! p with
  | Some (File _) => inr (delete p fs)
  | Some Dir => inl (eisdir p)
  | None => inl (enoent p)
  end.

(** [os.makedirs(p, exist_ok=True)] where the parent of [p] exists, as it
    does for a child of the working directory. *)
Definition makedirs_exist_ok (p : string) (fs : gmap string node)
  : result (gmap string node) :=
  match fs !! p with
  | None => inr (<[p := Dir]> fs)
  | Some Dir => inr fs
  | Some (File _) => inl (eexist p)
  end.

(** What the system demands of the directory a new entry [p] goes into: it
    is there ([ENOENT] otherwise) and it is a directory ([ENOTDIR]).  The
    root and the working directory (a directory part made of slashes, or
    empty), which the map does not list, are there. *)
Definition parent_dir (p : string) (fs : gmap string node) : result unit :=
  let d := OsPath.dirname p in
  if (negb (PyStr.truthy d) || OsPath.all_slashes d)%bool then inr tt
  else match fs !! d with
       | Some Dir => inr tt
       | Some (File _) => inl (enotdir p)
       | None => inl (enoent p)
       end.

(** What [shutil.move] demands of a path [dst] that names nothing yet, to
    put the source there.  The path does not lie below the source: below a
    directory, [shutil.move] refuses to move the directory into itself
    (naming the destination it was given, [shown]); below a regular file, a
    component of [dst] is not a directory.  And the directory of [dst] is
    there: [os.rename] fails otherwise, and so does the copy that
    [shutil.move] then tries for a regular file.  (For a directory it then
    copies the tree and makes the directories on the way, which a map of
    nodes does not follow: a directory is moved as a node, and where
    [os.rename] cannot do that the model raises.) *)
Definition lands (src dst shown : string) (n : node) (fs : gmap string node) : result unit :=
  if PyStr.startswith dst (OsPath.add_sep src) then
    match n with
    | Dir =>
        inl (Exn ShutilError
               ("Cannot move a directory '" +:+ src +:+ "' into itself '" +:+ shown +:+ "'."))
    | File _ => inl (enotdir dst)
    end
  else parent_dir dst fs.

Definition landing (src dst : string) (n : node) (fs : gmap string node) : result unit :=
  lands src dst dst n fs.

(** [shutil.move(src, dst)]: into [dst] when that is a directory (unless it
    is the source itself), else a rename to [dst], which replaces a regular
    file already there; a directory does not replace a regular file. *)
Definition move (src dst : string) (fs : gmap string node)
  : result (gmap string node) :=
  match fs !! src with
  | None => inl (enoent src)
  | Some n =>
      if isdir dst fs then
        if bool_decide (src = dst) then inr fs
        else
          let real_dst := OsPath.join dst (OsPath.basename (OsPath.rstrip_slash src)) in
          if path_exists real_dst fs
          then inl (Exn ShutilError ("Destination path '" +:+ real_dst +:+ "' already exists"))
          else match lands src real_dst dst n fs with
               | inl e => inl e
               | inr _ => inr (<[real_dst := n]> (delete src fs))
               end
      else
        match n, fs !! dst with
        | Dir, Some _ => inl (eexist dst)
        | _, _ =>
            match landing src dst n fs with
            | inl e => inl e
            | inr _ => inr (<[dst := n]> (delete src fs))
            end
        end
  end.

End Os.

(** ** The driven browser *)

Inductive By : Type := By_NAME | By_CSS_SELECTOR.

Definition locator : Type := (By * string)%type.

(** The Selenium calls the scraper makes, over a browser state [B] and element
    handles [E].  Every call may raise.  [elapse ms] is what the browser does
    to itself and to the file system while the scraper sleeps [ms]
    milliseconds (a download lands in the staging directory); [now] is the
    clock behind [datetime.now()]. *)
Record Driver (B E : Type) : Type := {
  wait_presence : locator → B → result E * B;
  find_element : locator → B → result E * B;
  select_options : E → B → result (list E) * B;
  select_by_value : E → string → B → result unit * B;
  get_attribute_value : E → B → result string * B;
  get_text : E → B → result string * B;
  click : E → B → result unit * B;
  scroll_into_view : E → B → result unit * B;
  elapse : N → B → gmap string node → B * gmap string node;
  now : B → datetime
}.
Arguments wait_presence {B E}.
Arguments find_element {B E}.
Arguments select_options {B E}.
Arguments select_by_value {B E}.
Arguments get_attribute_value {B E}.
Arguments get_text {B E}.
Arguments click {B E}.
Arguments scroll_into_view {B E}.
Arguments elapse {B E}.
Arguments now {B E}.

Inductive level : Type := DEBUG | INFO | WARNING | ERROR.

Global Instance level_eq_dec : EqDecision level.
Proof. solve_decision. Defined.

(** What a run acts on: the file system, the browser, and the records handed
    to the logger, oldest first. *)
Record world (B : Type) : Type := World {
  fs : gmap string node;
  browser : B;
  logged : list (level * string)
}.
Arguments World {B}.
Arguments fs {B}.
Arguments browser {B}.
Arguments logged {B}.

(** How a loop body ends: fall to the next iteration, or [return]. *)
Inductive flow : Type := Next | Return.

(** ** [move_and_rename_file] (line 256), on the file system *)

Section FileArchiver.
Variable download_dir : string.
Variable today : datetime.

(** Line 273. *)
Definition new_name (pfx original_name : string) : string :=
  let today_date := strftime_Ymd today in
  if PyStr.truthy pfx then pfx +:+ "_" +:+ today_date +:+ "_" +:+ original_name
  else today_date +:+ "_" +:+ original_name.

(** The names the function tries: line 274, then line 279 for 1, 2, ... *)
Definition candidate (name ext : string) (k : nat) : string :=
  match k with
  | O => OsPath.join download_dir (name +:+ ext)
  | S _ => OsPath.join download_dir (name +:+ "_" +:+ pretty k +:+ ext)
  end.

(** The [while os.path.exists(new_filename)] loop, lines 277 to 280; [None]
    when [fuel] passes were not enough. *)
Fixpoint free_name (fuel : nat) (fs0 : gmap string node) (name ext : string)
    (counter : nat) (new_filename : string) : option string :=
  match fuel with
  | O => None
  | S fuel' =>
      if Os.path_exists new_filename fs0
      then free_name fuel' fs0 name ext (S counter)
             (OsPath.join download_dir (name +:+ "_" +:+ pretty counter +:+ ext))
      else Some new_filename
  end.

(** The function: its return value and the file system it leaves.  The loop
    gets more passes than the file system has entries, which is enough
    ([free_name_finds]). *)
Definition move_and_rename_file (source_file pfx : string) (fs0 : gmap string node)
  : result (option string) * gmap string node :=
  if (negb (PyStr.truthy source_file) || negb (Os.path_exists source_file fs0))%bool
  then (inr None, fs0)
  else
    let original_filename := OsPath.basename source_file in
    let name_parts := OsPath.splitext original_filename in
    let original_name := name_parts.1 in
    let original_ext := name_parts.2 in
    let name := new_name pfx original_name in
    let new_filename := OsPath.join download_dir (name +:+ original_ext) in
    let new_filename :=
      default new_filename
        (free_name (S (S (size fs0))) fs0 name original_ext 1 new_filename) in
    match Os.move source_file new_filename fs0 with
    | inl e => (inl e, fs0)
    | inr fs1 => (inr (Some new_filename), fs1)
    end.
End FileArchiver.

(** ** [ClaroInvoiceScraper] *)

(** A pass of the watcher over one listing (lines 243 to 250): [None] to keep
    waiting, or the first finished download of the expected type. *)
Definition is_incomplete (f : string) : bool :=
  (PyStr.endswith f ".crdownload" || PyStr.endswith f ".tmp")%bool.

Definition scan (file_type : string) (files : list string) : option string :=
  if existsb is_incomplete files then None
  else head (List.filter (λ f, PyStr.endswith (PyStr.lower f) file_type) files).

Section Scraper.
Context {B E : Type}.
Variable drv : Driver B E.
(** [os.getcwd()] when the scraper is built. *)
Variable cwd : string.

Definition download_dir : string := OsPath.join cwd "downloads".
Definition download_temp_dir : string := OsPath.join download_dir "tmp".

(** Computations of the scraper: they act on the world and return or raise. *)
Definition M (A : Type) : Type := world B → result A * world B.

Global Instance M_ret : MRet M := λ A v w, (inr v, w).
Global Instance M_bind : MBind M := λ A A' f m w,
  match m w with
  | (inr v, w1) => f v w1
  | (inl e, w1) => (inl e, w1)
  end.

Definition raise {A : Type} (e : exn) : M A := λ w, (inl e, w).

(** [self.logger.<level>(msg)]. *)
Definition log_to (l : level) (msg : string) (w : world B) : world B :=
  World (fs w) (browser w) (logged w ++ [(l, msg)]).
Definition log (l : level) (msg : string) : M unit := λ w, (inr tt, log_to l msg w).

(** [time.sleep], in milliseconds. *)
Definition sleep_ms (ms : N) (w : world B) : world B :=
  let '(b, f) := elapse drv ms (browser w) (fs w) in World f b (logged w).
Definition time_sleep (ms : N) : M unit := λ w, (inr tt, sleep_ms ms w).

(** A call to the driver. *)
Definition ui {A : Type} (call : B → result A * B) : M A := λ w,
  let '(r, b) := call (browser w) in (r, World (fs w) b (logged w)).

(** A call that reads or changes the file system. *)
Definition os_read {A : Type} (call : gmap string node → result A) : M A := λ w,
  (call (fs w), w).
Definition os_write (call : gmap string node → result (gmap string node)) : M unit :=
  λ w, match call (fs w) with
       | inr f => (inr tt, World f (browser w) (logged w))
       | inl e => (inl e, w)
       end.

(** [for x in xs: body(x)], where the body may [return]. *)
Fixpoint for_each {X : Type} (body : X → M flow) (xs : list X) : M flow :=
  match xs with
  | [] => mret Next
  | x :: rest =>
      f ← body x;
      match f with
      | Next => for_each body rest
      | Return => mret Return
      end
  end.

(** [[f(x) for x in xs]]. *)
Fixpoint comprehension {X Y : Type} (f : X → M Y) (xs : list X) : M (list Y) :=
  match xs with
  | [] => mret []
  | x :: rest => y ← f x; ys ← comprehension f rest; mret (y :: ys)
  end.

(** *** [clear_tmp_directory] (line 149) *)

(** One pass of the loop: the [try] of lines 154 to 159. *)
Definition clear_entry (file : string) : M flow := λ w,
  let file_path := OsPath.join download_temp_dir file in
  let attempt : M unit :=
    if Os.isfile file_path (fs w)
    then os_write (Os.unlink file_path);;
         log DEBUG ("Deleted temporary file: " +:+ file)
    else mret tt in
  match attempt w with
  | (inr _, w1) => (inr Next, w1)
  | (inl e, w1) =>
      (inr Next, log_to ERROR ("Error deleting " +:+ file_path +:+ ": " +:+ exn_str e) w1)
  end.

Definition clear_tmp_directory : M unit :=
  log DEBUG ("Clearing temporary directory: " +:+ download_temp_dir);;
  files ← os_read (Os.listdir download_temp_dir);
  for_each clear_entry files;;
  mret tt.

(** *** [__init__] (line 65): what it does to the directories, lines 73 to
    75 and 107 *)
Definition scraper_init : M unit :=
  os_write (Os.makedirs_exist_ok download_dir);;
  clear_tmp_directory.

(** *** [wait_for_download_complete] (line 232)

    [seconds] starts at 0 and grows by one on every pass that does not
    return, so the [while seconds < timeout] loop makes at most [timeout]
    passes: the recursion is on the passes left. *)
Fixpoint wait_loop (passes_left : nat) (file_type : string) : M (bool * option string) :=
  match passes_left with
  | O => mret (false, None)
  | S passes =>
      time_sleep 1000;;
      files ← os_read (Os.listdir download_temp_dir);
      match scan file_type files with
      | Some f => mret (true, Some (OsPath.join download_temp_dir f))
      | None => wait_loop passes file_type
      end
  end.

Definition wait_for_download_complete (timeout : Z) (file_type : string)
  : M (bool * option string) :=
  wait_loop (Z.to_nat timeout) file_type.

(** The world after [i] passes of the watcher, and what [os.listdir] gives on
    the [i]-th pass. *)
Definition at_poll (i : nat) (w : world B) : world B :=
  Nat.iter i (sleep_ms 1000) w.
Definition listing (i : nat) (w : world B) : result (list string) :=
  Os.listdir download_temp_dir (fs (at_poll i w)).

(** *** [move_and_rename_file] as a method: [self.download_dir] and the
    clock *)
Definition archive (source_file pfx : string) : M (option string) := λ w,
  let '(r, f) :=
    move_and_rename_file download_dir (now drv (browser w)) source_file pfx (fs w) in
  (r, World f (browser w) (logged w)).

(** *** [use_element_safely] (line 286) *)
Definition use_element_safely_body (element_locator : locator) : M unit :=
  element ← ui (wait_presence drv element_locator);
  ui (scroll_into_view drv element);;
  time_sleep 500.

Definition use_element_safely (element_locator : locator) : M (wrapped unit) :=
  retry_on_stale_element (log_to WARNING) (λ s, sleep_ms (1000 * s)) 3 1
    (use_element_safely_body element_locator).

(** *** [process_accounts] (line 298) *)

(** [d.strftime(fmt)] on a value that may be [None]. *)
Definition strftime_of (fmt : datetime → string) (d : option datetime) : M string :=
  match d with
  | Some dt => mret (fmt dt)
  | None => raise (Exn AttributeError "'NoneType' object has no attribute 'strftime'")
  end.

Definition str_of (d : option datetime) : string :=
  match d with Some dt => str_datetime dt | None => "None" end.

Definition download_button : locator :=
  (By_CSS_SELECTOR, "input[src='/webbow/images/bot_ok.gif']").

(** Lines 330 to 350: from the token to the watcher's verdict. *)
Definition request_download (account_number invoice_date_value : string)
  : M (string * (bool * option string)) :=
  dates ← (λ w, (extract_and_parse_dates invoice_date_value, w));
  let invoice_dt := dates.1 in
  let invoice_ref := dates.2 in
  log INFO ("Selecting invoice: " +:+ account_number +:+ " - " +:+ str_of invoice_dt);;
  ref ← strftime_of strftime_Ym invoice_ref;
  venc ← strftime_of strftime_Ymd invoice_dt;
  let filename_prefix :=
    "conta_" +:+ account_number +:+ "_ref_" +:+ ref +:+ "_venc_" +:+ venc in
  log INFO ("Downloading invoice: " +:+ account_number +:+ " - " +:+ str_of invoice_dt);;
  time_sleep 1000;;
  use_element_safely download_button;;
  download_btn ← ui (find_element drv download_button);
  ui (click drv download_btn);;
  time_sleep 2000;;
  verdict ← wait_for_download_complete 60 ".pdf";
  mret (filename_prefix, verdict).

(** Lines 352 to 365. *)
Definition after_download (filename_prefix : string) (verdict : bool * option string)
  : M flow :=
  let download_success := verdict.1 in
  let downloaded_file := default EmptyString verdict.2 in
  if download_success then
    log INFO ("Download completed successfully: " +:+ OsPath.basename downloaded_file);;
    final_path ← archive downloaded_file filename_prefix;
    match final_path with
    | Some p => log INFO ("File saved as: " +:+ OsPath.basename p)
    | None => log INFO "Error moving downloaded file"
    end;;
    mret Next
  else
    log INFO "Download timed out or no file found";;
    mret Return.

(** Lines 323 to 327: make the option the selection and read its token. *)
Definition select_invoice (invoice : E) : M string :=
  text ← ui (get_text drv invoice);
  log INFO ("Processing invoice: " +:+ text);;
  ui (click drv invoice);;
  ui (get_attribute_value drv invoice).

(** The body of the invoice loop, lines 323 to 365. *)
Definition invoice_body (account_number : string) (invoice : E) : M flow :=
  invoice_date_value ← select_invoice invoice;
  if PyStr.truthy invoice_date_value then
    '(filename_prefix, verdict) ← request_download account_number invoice_date_value;
    after_download filename_prefix verdict
  else mret Next.

(** Lines 309 to 319: select the account and list its invoices ([None] for
    an account whose value is empty). *)
Definition open_account (account_number : string) : M (option (list E)) :=
  select ← ui (wait_presence drv (By_NAME, "BAN"));
  ui (select_by_value drv select account_number);;
  time_sleep 1000;;
  log INFO ("Processing account: " +:+ account_number);;
  if PyStr.truthy account_number then
    use_element_safely (By_NAME, "billDueDate");;
    invoice_date_select ← ui (wait_presence drv (By_NAME, "billDueDate"));
    options ← ui (select_options drv invoice_date_select);
    mret (Some options)
  else mret None.

(** The body of the account loop, lines 306 to 365. *)
Definition account_body (account_number : string) : M flow :=
  invoices ← open_account account_number;
  match invoices with
  | Some options => for_each (invoice_body account_number) options
  | None => mret Next
  end.

(** Lines 301 to 303. *)
Definition account_list : M (list string) :=
  account_select ← ui (wait_presence drv (By_NAME, "BAN"));
  options ← ui (select_options drv account_select);
  comprehension (λ option, ui (get_attribute_value drv option)) options.

(** The [try] block and its two handlers; the method returns [None] on
    every path, so what is left is the world. *)
Definition process_accounts (w : world B) : world B :=
  match (accounts ← account_list; for_each account_body accounts) w with
  | (inr _, w1) => w1
  | (inl e, w1) =>
      if is_instance NoSuchElementException e
      then log_to ERROR "No accounts found" w1
      else log_to ERROR ("Error processing accounts: " +:+ exn_str e) w1
  end.
End Scraper.

(** ** A scripted portal

    A small browser to run the scraper against: accounts with their invoice
    options, and for each option whether the portal serves a document when the
    download button is pressed.  A served document lands in the staging
    directory once [latency] milliseconds have been slept. *)

Module Portal.

Inductive elem : Type :=
| AccountSelect
| AccountOption (value : string)
| InvoiceSelect
| InvoiceOption (text value : string)
| Button.

Record state : Type := State {
  pages : list (string * list (string * string));
  served : list string;
  document : string * string;
  staging : string;
  clock : datetime;
  latency : N;
  selected : string;
  chosen : string;
  pending : option N
}.

Definition no_such_element : exn :=
  Exn NoSuchElementException "Message: no such element".

Definition locate (loc : locator) (b : state) : result elem * state :=
  match loc with
  | (By_NAME, name) =>
      if bool_decide (name = "BAN") then (inr AccountSelect, b)
      else if bool_decide (name = "billDueDate") then (inr InvoiceSelect, b)
      else (inl no_such_element, b)
  | (By_CSS_SELECTOR, _) => (inr Button, b)
  end.

(** [WebDriverWait(...).until(EC.presence_of_element_located(loc))]: the wait
    swallows the [NoSuchElementException] of its lookups and, the element
    never showing, ends in a [TimeoutException] with an empty message. *)
Definition timed_out : exn :=
  Exn TimeoutException ("Message: " +:+ String "010" EmptyString).

Definition await (loc : locator) (b : state) : result elem * state :=
  match locate loc b with
  | (inl _, b') => (inl timed_out, b')
  | found => found
  end.

Definition options_of (e : elem) (b : state) : result (list elem) * state :=
  match e with
  | AccountSelect => (inr ((λ p, AccountOption p.1) <$> pages b), b)
  | InvoiceSelect =>
      let page := List.find (λ p, bool_decide (p.1 = selected b)) (pages b) in
      let invoices := default [] (snd <$> page) in
      (inr ((λ o, InvoiceOption o.1 o.2) <$> invoices), b)
  | _ => (inl (Exn WebDriverException "Message: not a select"), b)
  end.

Definition choose (e : elem) (v : string) (b : state) : result unit * state :=
  match e with
  | AccountSelect =>
      if bool_decide (v ∈ (fst <$> pages b))
      then (inr tt, State (pages b) (served b) (document b) (staging b) (clock b)
                      (latency b) v (chosen b) (pending b))
      else (inl no_such_element, b)
  | _ => (inl (Exn WebDriverException "Message: not a select"), b)
  end.

Definition value_of (e : elem) (b : state) : result string * state :=
  match e with
  | AccountOption v | InvoiceOption _ v => (inr v, b)
  | _ => (inr EmptyString, b)
  end.

Definition text_of (e : elem) (b : state) : result string * state :=
  match e with
  | AccountOption v => (inr v, b)
  | InvoiceOption t _ => (inr t, b)
  | _ => (inr EmptyString, b)
  end.

Definition press (e : elem) (b : state) : result unit * state :=
  match e with
  | InvoiceOption _ v =>
      (inr tt, State (pages b) (served b) (document b) (staging b) (clock b)
                 (latency b) (selected b) v (pending b))
  | Button =>
      (inr tt, State (pages b) (served b) (document b) (staging b) (clock b)
                 (latency b) (selected b) (chosen b)
                 (if bool_decide (chosen b ∈ served b) then Some (latency b)
                  else pending b))
  | _ => (inr tt, b)
  end.

Definition scroll (e : elem) (b : state) : result unit * state := (inr tt, b).

Definition tick (ms : N) (b : state) (f : gmap string node)
  : state * gmap string node :=
  match pending b with
  | Some remaining =>
      if (remaining <=? ms)%N
      then (State (pages b) (served b) (document b) (staging b) (clock b)
              (latency b) (selected b) (chosen b) None,
            <[OsPath.join (staging b) (document b).1 := File (document b).2]> f)
      else (State (pages b) (served b) (document b) (staging b) (clock b)
              (latency b) (selected b) (chosen b) (Some (remaining - ms)%N), f)
  | None => (b, f)
  end.

Definition driver : Driver state elem := {|
  wait_presence := await;
  find_element := locate;
  select_options := options_of;
  select_by_value := choose;
  get_attribute_value := value_of;
  get_text := text_of;
  click := press;
  scroll_into_view := scroll;
  elapse := tick;
  now := clock
|}.

(** The portal as the scraper finds it after login, for a scraper started in
    [cwd]. *)
Definition start (cwd : string) (accounts : list (string * list (string * string)))
    (serves : list string) (today : datetime) : state :=
  State accounts serves ("report.pdf", "%PDF") (download_temp_dir cwd) today
    1000 EmptyString EmptyString None.

End Portal.

(** ** A scripted operation for the retry wrapper

    What the i-th invocation of the wrapped call does is [script i]; the tape
    counts the invocations and keeps the warnings and the sleeps. *)

Record tape : Type := Tape {
  calls : nat;
  warnings : list string;
  slept : list N
}.

Definition scripted {A : Type} (script : nat → result A) (t : tape) : result A * tape :=
  (script (calls t), Tape (S (calls t)) (warnings t) (slept t)).

Definition tape_warning (msg : string) (t : tape) : tape :=
  Tape (calls t) (warnings t ++ [msg]) (slept t).

Definition tape_sleep (d : N) (t : tape) : tape :=
  Tape (calls t) (warnings t) (slept t ++ [d]).

Definition run_scripted {A : Type} (retries : Z) (delay : N) (script : nat → result A)
  : result (wrapped A) * tape :=
  retry_on_stale_element tape_warning tape_sleep retries delay (scripted script)
    (Tape 0 [] []).

(** The invocation raised the stale-reference failure. *)
Definition stale {A : Type} (r : result A) : Prop :=
  ∃ e, r = inl e ∧ exn_cls e = StaleElementReferenceException.

(** The outcome of an invocation as the wrapper hands it to its caller: the
    value returned, or the exception raised, unchanged. *)
Definition passed_on {St A : Type} (r : result A * St) : result (wrapped A) * St :=
  match r with
  | (inr v, s) => (inr (Returned v), s)
  | (inl e, s) => (inl e, s)
  end.

(** The tape after [k] stale attempts, the first of them attempt [a]: each left
    a warning and a sleep. *)
Definition retried (retries : Z) (delay : N) (a k : nat) (t : tape) : tape :=
  Tape (calls t + k)
    (warnings t ++ ((λ i, retry_message (Z.of_nat i) retries delay) <$> seq a k))
    (slept t ++ replicate k delay).

(** ** The specification's words *)

(** A day or a month as the token writes it: [5] or [05]. *)
Definition show_field (zero_pad : bool) (n : N) : string :=
  if ((n <? 10)%N && negb zero_pad)%bool
  then String (PyStr.digit_char n) EmptyString
  else PyStr.dec2 n.

(** A token [D/M/YYYY|M|YYYY] for a due date and a reference period. *)
Definition token (pd pm pr : bool) (due ref : datetime) : string :=
  (show_field pd (day due) +:+ "/" +:+ show_field pm (month due) +:+ "/"
     +:+ PyStr.dec4 (year due))
    +:+ "|" +:+ show_field pr (month ref) +:+ "|" +:+ PyStr.dec4 (year ref).



(** The name ends with the extension, letter case apart. *)
Definition ends_with_ignoring_case (f ext : string) : bool :=
  PyStr.endswith (PyStr.lower f) (PyStr.lower ext).

(** [f] is the first name of the listing that [P] accepts. *)
Definition first_with (P : string → bool) (files : list string) (f : string) : Prop :=
  ∃ pre post, files = pre ++ f :: post ∧ P f = true ∧ ∀ g, g ∈ pre → P g = false.

(** A download is still being written: some name carries a marker. *)
Definition in_progress (files : list string) : Prop :=
  ∃ g, g ∈ files ∧ is_incomplete g = true.

(** The watcher has nothing to return for this listing: a marker is there, or
    no name of the expected type. *)
Definition still_waiting (file_type : string) (files : list string) : Prop :=
  in_progress files ∨ ∀ g, g ∈ files → PyStr.endswith (PyStr.lower g) file_type = false.

(** The alternatives of a matcher that the next one rejects. *)
Definition dead {A B : Type} (q : matcher B) (xs : list (A * string)) : Prop :=
  Forall (λ x, q x.2 = []) xs.

(** ** Runs against the scripted portal *)

Module Demo.

Definition cwd : string := "/work".
Definition today : datetime := Datetime 2024 3 10.

Definition march : string * string := ("05/03/2024", "5/3/2024|3|2024").
Definition april : string * string := ("05/04/2024", "5/4/2024|4|2024").
Definition garbled : string * string := ("bad", "abc|1|2024").

(** The two directories, both empty. *)
Definition fresh : gmap string node :=
  {[ "/work/downloads" := Dir; "/work/downloads/tmp" := Dir ]}.

Definition start_on (accounts : list (string * list (string * string)))
    (serves : list string) : world Portal.state :=
  World fresh (Portal.start cwd accounts serves today) [].

Definition run_on (accounts : list (string * list (string * string)))
    (serves : list string) : world Portal.state :=
  process_accounts Portal.driver cwd (start_on accounts serves).

(** Account 111 with a good token and a document, account 222 with a token
    that does not decode. *)
Definition two_accounts : world Portal.state :=
  run_on [("111", [march]); ("222", [garbled])] [march.2].

(** The garbled token first: a good invoice and a second account follow it. *)
Definition garbled_first : world Portal.state :=
  run_on [("222", [garbled; march]); ("111", [march])] [march.2].

(** That run before it starts, with account 222 opened, and with the garbled
    invoice selected. *)
Definition garbled_start : world Portal.state :=
  start_on [("222", [garbled; march]); ("111", [march])] [march.2].
Definition garbled_opened : world Portal.state :=
  (open_account Portal.driver "222" garbled_start).2.
Definition garbled_selected : world Portal.state :=
  (select_invoice Portal.driver (Portal.InvoiceOption garbled.1 garbled.2) garbled_opened).2.

(** The portal serves nothing for the first invoice of account 111. *)
Definition unserved_start : world Portal.state :=
  start_on [("111", [march; april]); ("222", [march])] [april.2].

(** A staging directory with a file left by an earlier run and a directory. *)
Definition littered : world unit :=
  World (<["/work/downloads/tmp/old.pdf" := File "stale"]>
           (<["/work/downloads/tmp/keep" := Dir]> fresh)) tt [].

(** That run at three later points: account 111 opened, its first invoice
    selected, the watcher's verdict on it in. *)
Definition unserved_opened : world Portal.state :=
  (open_account Portal.driver "111" unserved_start).2.
Definition unserved_selected : world Portal.state :=
  (select_invoice Portal.driver (Portal.InvoiceOption march.1 march.2) unserved_opened).2.
Definition unserved_waited : world Portal.state :=
  (request_download Portal.driver cwd "111" march.2 unserved_selected).2.

(** A download that lands after three seconds, with the watcher about to
    start. *)
Definition slow : world Portal.state :=
  World fresh
    (Portal.State [] [] ("report.pdf", "%PDF") (download_temp_dir cwd) today 1000
       EmptyString EmptyString (Some 3000%N)) [].

(** A partial download that never finishes. *)
Definition stuck : world Portal.state :=
  World (<["/work/downloads/tmp/report.pdf.crdownload" := File "%PD"]> fresh)
    (Portal.start cwd [] [] today) [].

(** A finished [report.pdf] in the staging directory. *)
Definition landed : world Portal.state :=
  World (<["/work/downloads/tmp/report.pdf" := File "%PDF"]> fresh)
    (Portal.start cwd [] [] today) [].

(** The same file under an upper-case name. *)
Definition landed_upper : world Portal.state :=
  World (<["/work/downloads/tmp/REPORT.PDF" := File "%PDF"]> fresh)
    (Portal.start cwd [] [] today) [].

(** The archive after a first [report.pdf] went in under the prefix, with a
    second one in the staging directory. *)
Definition conta : string := "conta_123_ref_2024-03_venc_2024-03-05".
Definition first_visit : gmap string node :=
  {[ "/archive" := Dir; "/stage/report.pdf" := File "first" ]}.


End Demo.

(** ** [rename_latest_download] (line 372) *)

(** [sorted(names, key=...)] on the names with their keys: a stable sort, so
    that names of equal key keep their order. *)
Fixpoint insert_by_key (x : Z * string) (l : list (Z * string)) : list (Z * string) :=
  match l with
  | [] => [x]
  | y :: rest => if x.1 <=? y.1 then x :: l else y :: insert_by_key x rest
  end.

Definition sorted_by_key (l : list (Z * string)) : list (Z * string) :=
  foldr insert_by_key [] l.

(** [except OSError]: the classes of this development below [OSError]. *)
Definition is_os_error (e : exn) : bool :=
  match exn_cls e with
  | FileNotFoundError | FileExistsError | NotADirectoryError | IsADirectoryError
  | ShutilError => true
  | _ => false
  end.

Section LatestDownload.
Context {B E : Type}.
Variable drv : Driver B E.
Variable cwd : string.
(** [os.path.getctime] and [os.rename] are parameters: the file system of
    this development carries no times, and [os.rename] also takes directories,
    with what they hold. *)
Variable getctime : string → gmap string node → result Z.
Variable rename : string → string → gmap string node → result (gmap string node).

(** The key of every name, in the order of the list; the first exception of
    [os.path.getctime] leaves. *)
Fixpoint with_ctime (names : list string) (f : gmap string node)
  : result (list (Z * string)) :=
  match names with
  | [] => inr []
  | x :: rest =>
      match getctime (OsPath.join (download_dir cwd) x) f with
      | inl e => inl e
      | inr k =>
          match with_ctime rest f with
          | inl e => inl e
          | inr keyed => inr ((k, x) :: keyed)
          end
      end
  end.

(** Lines 385 to 393, for the name picked. *)
Definition rename_to (date_str account_number latest_file : string) : M (B:=B) unit :=
  let new_filename := date_str +:+ "_account_" +:+ account_number +:+ "_" +:+ latest_file in
  let old_path := OsPath.join (download_dir cwd) latest_file in
  let new_path := OsPath.join (download_dir cwd) new_filename in
  λ w, match os_write (rename old_path new_path) w with
       | (inr _, w1) => log INFO ("Renamed file to: " +:+ new_filename) w1
       | (inl e, w1) =>
           if is_os_error e
           then log ERROR ("Error renaming file: " +:+ exn_str e) w1
           else (inl e, w1)
       end.

Definition rename_latest_download (date_str account_number : string) : M (B:=B) unit :=
  time_sleep drv 2000;;
  names ← os_read (Os.listdir (download_dir cwd));
  keyed ← os_read (with_ctime (List.filter (λ f, PyStr.endswith f ".pdf") names));
  let files := (sorted_by_key keyed).*2 in
  match last files with
  | Some latest_file => rename_to date_str account_number latest_file
  | None => mret tt
  end.
End LatestDownload.

(** ** The session: [__init__], [setup_logging], [login], [handle_popup],
    [navigate_to_invoices], [close] and [main] *)

(** What these methods ask of Selenium beside the calls of [Driver]:
    [webdriver.Chrome] with the path of its executable and the download
    directory of its preferences, [driver.get], the lookups by class name,
    the waits with a bound other than that of [self.wait], [send_keys] (with
    what [os.getenv] gave, possibly [None]), [current_url], the two waits on
    a condition, the window handles, [switch_to.window] and [quit].  Every
    call may raise; as with [Driver], a call acts on the browser and not on
    the file system. *)
Record Session (B E : Type) : Type := {
  chrome : option string → string → B → result unit * B;
  get : string → B → result unit * B;
  find_class_name : string → B → result E * B;
  wait_presence_within : N → locator → B → result E * B;
  wait_class_name_within : N → string → B → result E * B;
  send_keys : E → option string → B → result unit * B;
  current_url : B → result string * B;
  wait_second_window : N → B → result unit * B;
  window_handles : B → result (list string) * B;
  switch_to_window : string → B → result unit * B;
  wait_url_contains : N → string → B → result unit * B;
  quit : B → result unit * B
}.
Arguments chrome {B E}.
Arguments get {B E}.
Arguments find_class_name {B E}.
Arguments wait_presence_within {B E}.
Arguments wait_class_name_within {B E}.
Arguments send_keys {B E}.
Arguments current_url {B E}.
Arguments wait_second_window {B E}.
Arguments window_handles {B E}.
Arguments switch_to_window {B E}.
Arguments wait_url_contains {B E}.
Arguments quit {B E}.

(** The calls that start, steer and end the browser. *)
Inductive call : Type :=
| ChromeStarted
| PageRequested (url : string)
| ChromeQuit.

Global Instance call_eq_dec : EqDecision call.
Proof. solve_decision. Defined.

(** The handlers of the logger.  Their levels and their formatter shape
    what is written, which is not modelled: [logged] holds the records as
    they are handed to the logger. *)
Inductive handler : Type :=
| RotatingFileHandler (filename : string) (maxBytes backupCount : N)
| StreamHandler.

Global Instance handler_eq_dec : EqDecision handler.
Proof. solve_decision. Defined.

(** The process: the world of the scraper, the handlers of its logger, what
    was printed, and the journal of the calls of [webdriver.Chrome],
    [driver.get] and [driver.quit] as they were made (whether they returned
    or raised), oldest first. *)
Record process (B : Type) : Type := Process {
  scene : world B;
  handlers : list handler;
  printed : list string;
  journal : list call
}.
Arguments Process {B}.
Arguments scene {B}.
Arguments handlers {B}.
Arguments printed {B}.
Arguments journal {B}.

(** [open(p, 'a')], as a file handler does when it is built: the file is
    created when it is not there. *)
Definition open_append (p : string) (f : gmap string node) : result (gmap string node) :=
  match f !! p with
  | None => inr (<[p := File EmptyString]> f)
  | Some (File _) => inr f
  | Some Dir => inl (Os.eisdir p)
  end.

(** [logger.removeHandler(h)]. *)
Fixpoint removeHandler (h : handler) (hs : list handler) : list handler :=
  match hs with
  | [] => []
  | x :: rest => if decide (x = h) then rest else x :: removeHandler h rest
  end.

(** [l[-1]]. *)
Definition last_item (l : list string) : result string :=
  match last l with
  | Some x => inr x
  | None => inl (Exn IndexError "list index out of range")
  end.

Section Program.
Context {B E : Type}.
Variable drv : Driver B E.
Variable ses : Session B E.
(** [os.getcwd()], the directory of [main.py], and [os.getenv]. *)
Variable cwd : string.
Variable script_dir : string.
Variable getenv : string → option string.

Definition Proc (A : Type) : Type := process B → result A * process B.

Global Instance Proc_ret : MRet Proc := λ A v p, (inr v, p).
Global Instance Proc_bind : MBind Proc := λ A A' f m p,
  match m p with
  | (inr v, p1) => f v p1
  | (inl e, p1) => (inl e, p1)
  end.

(** A computation of the scraper, run in the process. *)
Definition on_scene {A : Type} (m : world B → result A * world B) : Proc A := λ p,
  let '(r, w) := m (scene p) in (r, Process w (handlers p) (printed p) (journal p)).

(** A call to the browser, and one that goes into the journal. *)
Definition browser_call {A : Type} (op : B → result A * B) : Proc A := on_scene (ui op).

Definition journaled {A : Type} (c : call) (op : B → result A * B) : Proc A := λ p,
  browser_call op (Process (scene p) (handlers p) (printed p) (journal p ++ [c])).

Definition print (line : string) : Proc unit := λ p,
  (inr tt, Process (scene p) (handlers p) (printed p ++ [line]) (journal p)).

(** [try: body except TimeoutException: on_timeout]. *)
Definition except_timeout {A : Type} (body on_timeout : Proc A) : Proc A := λ p,
  match body p with
  | (inl e, p1) => if is_instance TimeoutException e then on_timeout p1 else (inl e, p1)
  | other => other
  end.

(** [try: body finally: cleanup]: the exception of the cleanup, if it raises,
    replaces the outcome of the body. *)
Definition try_finally {A : Type} (body : Proc A) (cleanup : Proc unit) : Proc A := λ p,
  let '(r, p1) := body p in
  match cleanup p1 with
  | (inl e, p2) => (inl e, p2)
  | (inr _, p2) => (r, p2)
  end.

(** *** [setup_logging] (line 109)

    The directory of the logs beside [main.py], the handlers the logger had
    removed one by one over a copy of their list, the file handler (which
    opens its file when it is built) and the console handler added. *)
Definition logs_dir : string := OsPath.join script_dir "logs".
Definition log_file : string := OsPath.join logs_dir "file_downloader.log".

Definition set_handlers (f : list handler → list handler) : Proc unit := λ p,
  (inr tt, Process (scene p) (f (handlers p)) (printed p) (journal p)).

Definition setup_logging : Proc unit :=
  on_scene (os_write (Os.makedirs_exist_ok logs_dir));;
  set_handlers (λ hs, foldl (λ left_ h, removeHandler h left_) hs hs);;
  on_scene (os_write (open_append log_file));;
  set_handlers (λ hs, hs ++ [RotatingFileHandler log_file (1024 * 1024) 5]);;
  set_handlers (λ hs, hs ++ [StreamHandler]).

(** *** [__init__] (line 65), as [main] calls it

    In the order of the source: the logging, [downloads] (line 75), Chrome
    with the staging directory as its download directory (line 97), three
    records, and [clear_tmp_directory] (line 107). *)
Definition ClaroInvoiceScraper : Proc unit :=
  setup_logging;;
  on_scene (os_write (Os.makedirs_exist_ok (download_dir cwd)));;
  journaled ChromeStarted (chrome ses (getenv "CHROMEDRIVER_PATH") (download_temp_dir cwd));;
  on_scene (log INFO "Initialized FileDownloader for pdf files");;
  on_scene (log DEBUG ("Using temporary directory: " +:+ download_temp_dir cwd));;
  on_scene (log DEBUG ("Using data directory: " +:+ download_dir cwd));;
  on_scene (clear_tmp_directory cwd).

(** *** [login] (line 161) *)
Definition login_url : string :=
  "https://contaonline.claro.com.br/webbow/login/initPJ_oqe.do".

(** Lines 164 to 191: the form, the new window, the welcome page. *)
Definition sign_in : Proc unit :=
  journaled (PageRequested login_url) (get ses login_url);;
  username ← browser_call (wait_presence drv (By_NAME, "userVO.loginCode"));
  password ← browser_call (find_element drv (By_NAME, "userVO.password"));
  browser_call (send_keys ses username (getenv "CLARO_USERNAME"));;
  browser_call (send_keys ses password (getenv "CLARO_PASSWORD"));;
  login_button ← browser_call (find_class_name ses "GifButtonPtr");
  browser_call (click drv login_button);;
  url ← browser_call (current_url ses);
  on_scene (log INFO ("Login sent: " +:+ url));;
  browser_call (wait_second_window ses 10);;
  handles ← browser_call (window_handles ses);
  newest ← (λ p, (last_item handles, p));
  browser_call (switch_to_window ses newest);;
  browser_call (wait_url_contains ses 10 "bemVindoPJ.do").

(** Lines 194 to 201. *)
Definition dismiss_popup : Proc unit :=
  except_timeout
    (close_btn ← browser_call (wait_class_name_within ses 5 "close-btn");
     browser_call (click drv close_btn))
    (print "No popup found or already closed").

Definition login : Proc bool :=
  except_timeout
    (sign_in;; dismiss_popup;; mret true)
    (on_scene (log ERROR "Login failed - timeout");; mret false).

(** *** [handle_popup] (line 209); its default selector is
    [(By.CSS_SELECTOR, "close-btn")] *)
Definition handle_popup (selector : locator) : Proc unit :=
  except_timeout
    (popup_close ← browser_call (wait_presence drv selector);
     browser_call (click drv popup_close))
    (on_scene (log ERROR "No popup found or already closed")).

(** *** [navigate_to_invoices] (line 217) *)
Definition invoices_url : string :=
  "https://contaonline.claro.com.br/webbow/downloadPDF/init.do".

Definition navigate_to_invoices : Proc bool :=
  except_timeout
    (journaled (PageRequested invoices_url) (get ses invoices_url);;
     browser_call (wait_presence_within ses 5 (By_NAME, "billDueDate"));;
     mret true)
    (on_scene (log ERROR "Failed to navigate to invoices page");; mret false).

(** *** [close] (line 395) *)
Definition close : Proc unit := journaled ChromeQuit (quit ses).

(** *** [main] (line 400)

    [visit] is the body of its [try], lines 404 to 406. *)
Definition visit : Proc unit :=
  logged_in ← login;
  if logged_in : bool then
    there ← navigate_to_invoices;
    if there : bool then on_scene (λ w, (inr tt, process_accounts drv cwd w))
    else mret tt
  else mret tt.

Definition main : Proc unit :=
  ClaroInvoiceScraper;;
  try_finally visit close.
End Program.

(** ** A browser that does as it is told

    A driver and a session with no page behind them: every call returns and a
    select has no options.  The session is given whether a second window
    opens, whether a popup shows, and the window handles it reports. *)
Module Kiosk.

Definition driver : Driver unit unit := {|
  wait_presence := λ _ b, (inr tt, b);
  find_element := λ _ b, (inr tt, b);
  select_options := λ _ b, (inr [], b);
  select_by_value := λ _ _ b, (inr tt, b);
  get_attribute_value := λ _ b, (inr EmptyString, b);
  get_text := λ _ b, (inr EmptyString, b);
  click := λ _ b, (inr tt, b);
  scroll_into_view := λ _ b, (inr tt, b);
  elapse := λ _ b f, (b, f);
  now := λ _, Datetime 2024 3 10
|}.

Definition timed_out : exn := Portal.timed_out.

Definition session (second_window popup : bool) (windows : list string)
  : Session unit unit := {|
  chrome := λ _ _ b, (inr tt, b);
  get := λ _ b, (inr tt, b);
  find_class_name := λ _ b, (inr tt, b);
  wait_presence_within := λ _ _ b, (inr tt, b);
  wait_class_name_within := λ _ _ b, (if popup then inr tt else inl timed_out, b);
  send_keys := λ _ _ b, (inr tt, b);
  current_url := λ b, (inr "https://contaonline.claro.com.br/webbow/login/initPJ_oqe.do", b);
  wait_second_window := λ _ b, (if second_window then inr tt else inl timed_out, b);
  window_handles := λ b, (inr windows, b);
  switch_to_window := λ _ b, (inr tt, b);
  wait_url_contains := λ _ _ b, (inr tt, b);
  quit := λ b, (inr tt, b)
|}.

Definition environ (name : string) : option string :=
  if bool_decide (name = "CLARO_USERNAME") then Some "user"
  else if bool_decide (name = "CLARO_PASSWORD") then Some "secret"
  else None.

(** A process about to start, with nothing logged, printed or journaled. *)
Definition boot (f : gmap string node) : process unit :=
  Process (World f tt []) [] [] [].

(** The program run in [/work], with [main.py] in [/app]. *)
Definition run (second_window popup : bool) (windows : list string)
    (f : gmap string node) : result unit * process unit :=
  main driver (session second_window popup windows) "/work" "/app" environ (boot f).

(** The process once the scraper is built. *)
Definition built (second_window popup : bool) (windows : list string)
    (f : gmap string node) : process unit :=
  (ClaroInvoiceScraper (session second_window popup windows) "/work" "/app" environ
     (boot f)).2.

End Kiosk.

(** ** More runs against the scripted portal *)

Module Cases.

(** An archive with an invoice of last month, and a file left in staging. *)
Definition with_archive : world unit :=
  World (<["/work/downloads/conta_1_ref_2024-02_venc_2024-02-05_2024-02-10_report.pdf"
           := File "february"]> (fs Demo.littered)) tt [].

(** The portal with a download button that is there while it is waited for
    and gone when it is looked up. *)
Definition buttonless : Driver Portal.state Portal.elem := {|
  wait_presence := Portal.await;
  find_element := λ _ b, (inl Portal.no_such_element, b);
  select_options := Portal.options_of;
  select_by_value := Portal.choose;
  get_attribute_value := Portal.value_of;
  get_text := Portal.text_of;
  click := Portal.press;
  scroll_into_view := Portal.scroll;
  elapse := Portal.tick;
  now := Portal.clock
|}.

(** One account with one invoice, which the portal serves: before the run,
    with the account opened, with the invoice selected, and with the
    watcher's verdict in. *)
Definition single : world Portal.state :=
  Demo.start_on [("111", [Demo.march])] [Demo.march.2].

(** The same account on the portal without its button. *)
Definition buttonless_opened : world Portal.state :=
  (open_account buttonless "111" single).2.
Definition buttonless_failed : world Portal.state :=
  (invoice_body buttonless Demo.cwd "111"
     (Portal.InvoiceOption Demo.march.1 Demo.march.2) buttonless_opened).2.

(** Two invoices in the archive, [a.pdf] the newer, and a rename that moves
    a node. *)
Definition shelf : world unit :=
  World {[ "/work/downloads" := Dir;
           "/work/downloads/a.pdf" := File "newer";
           "/work/downloads/b.pdf" := File "older";
           "/work/downloads/C.PDF" := File "newest" ]} tt [].

Definition ctime_of (p : string) (f : gmap string node) : result Z :=
  if bool_decide (p = "/work/downloads/a.pdf") then inr 5
  else if bool_decide (p = "/work/downloads/b.pdf") then inr 3
  else inr 9.

Definition rename_node (src dst : string) (f : gmap string node)
  : result (gmap string node) :=
  match f !! src with
  | Some n => inr (<[dst := n]> (delete src f))
  | None =>
      inl (Exn FileNotFoundError
             ("[Errno 2] No such file or directory: " +:+ PyStr.repr src +:+ " -> "
                +:+ PyStr.repr dst))
  end.

End Cases.

(** ** Words for the further properties *)

(** A calendar date. *)
Definition is_date (d : datetime) : Prop :=
  (1 ≤ year d ≤ 9999 ∧ 1 ≤ month d ≤ 12 ∧ 1 ≤ day d ≤ days_in_month (year d) (month d))%N.

(** The passes of the watcher before pass [i] all went on waiting. *)
Definition waited {B E : Type} (drv : Driver B E) (cwd file_type : string) (i : nat)
    (w : world B) : Prop :=
  ∀ j, (1 ≤ j < i)%nat →
       ∃ files, listing drv cwd j w = inr files ∧ scan file_type files = None.

(** A computation that leaves the journal as it is, and one that makes one
    more entry, whatever its outcome. *)
Definition keeps_journal {B A : Type} (m : process B → result A * process B) : Prop :=
  ∀ p, journal (m p).2 = journal p.

Definition enters {B A : Type} (c : call) (m : process B → result A * process B) : Prop :=
  ∀ p, journal (m p).2 = journal p ++ [c].

(** * Properties *)

(** ** Strings *)

Lemma append_cons c (a b : string) : String c a +:+ b = String c (a +:+ b).
Proof. reflexivity. Qed.

Lemma append_char c (a : string) : String c EmptyString +:+ a = String c a.
Proof. reflexivity. Qed.

Lemma append_nil_r (a : string) : a +:+ EmptyString = a.
Proof. induction a as [|c a IH]; [done|]. by rewrite append_cons, IH. Qed.

Lemma append_assoc (a b c : string) : (a +:+ b) +:+ c = a +:+ (b +:+ c).
Proof. induction a as [|x a IH]; [done|]. by rewrite !append_cons, IH. Qed.

Lemma rev_app_append (x y acc : string) :
  String.rev_app (x +:+ y) acc = String.rev_app y (String.rev_app x acc).
Proof.
  revert acc. induction x as [|c x IH]; intros acc; [done|].
  rewrite append_cons. simpl. apply IH.
Qed.

Lemma startswith_app (a b : string) : PyStr.startswith (a +:+ b) a = true.
Proof.
  induction a as [|c a IH]; [by destruct b|]. rewrite append_cons.
  cbn [PyStr.startswith]. by rewrite Ascii.eqb_refl.
Qed.

Lemma rev_append (a b : string) : String.rev (a +:+ b) = String.rev b +:+ String.rev a.
Proof.
  assert (∀ y acc, String.rev_app y acc = String.rev y +:+ acc) as Hacc.
  { induction y as [|c y IH]; intros acc; [done|]. unfold String.rev. simpl.
    rewrite IH, (IH (String c EmptyString)). by rewrite append_assoc. }
  unfold String.rev at 1. rewrite rev_app_append. rewrite Hacc. done.
Qed.

Lemma endswith_app (a b : string) : PyStr.endswith (a +:+ b) b = true.
Proof. unfold PyStr.endswith. rewrite rev_append. apply startswith_app. Qed.

Lemma rev_cons (c : ascii) (s : string) :
  String.rev (String c s) = String.rev s +:+ String c EmptyString.
Proof. change (String c s) with (String c EmptyString +:+ s). by rewrite rev_append. Qed.

Lemma lower_app (a b : string) : PyStr.lower (a +:+ b) = PyStr.lower a +:+ PyStr.lower b.
Proof. induction a as [|c a IH]; [done|]. simpl. by rewrite IH. Qed.

Lemma rev_lower (s : string) : String.rev (PyStr.lower s) = PyStr.lower (String.rev s).
Proof.
  induction s as [|c s IH]; [done|].
  cbn [PyStr.lower]. by rewrite !rev_cons, lower_app, IH.
Qed.

Lemma mem_app c (a b : string) :
  PyStr.mem c (a +:+ b) = (PyStr.mem c a || PyStr.mem c b)%bool.
Proof.
  induction a as [|x a IH]; [done|].
  rewrite append_cons. simpl. by destruct (Ascii.eqb x c).
Qed.

Lemma split_no_sep sep (a : string) :
  PyStr.mem sep a = false → PyStr.split sep a = [a].
Proof.
  induction a as [|x a IH]; [done|]. simpl.
  destruct (Ascii.eqb x sep); [done|]. intros H. by rewrite (IH H).
Qed.

Lemma split_app sep (a rest : string) :
  PyStr.mem sep a = false →
  PyStr.split sep (a +:+ String sep rest) = a :: PyStr.split sep rest.
Proof.
  induction a as [|x a IH].
  - intros _. change ("" +:+ String sep rest) with (String sep rest). simpl.
    by rewrite Ascii.eqb_refl.
  - rewrite append_cons. simpl. destruct (Ascii.eqb x sep); [done|].
    intros H. by rewrite (IH H).
Qed.

Lemma replace_app a b (s t : string) :
  PyStr.replace a b (s +:+ t) = PyStr.replace a b s +:+ PyStr.replace a b t.
Proof. induction s as [|x s IH]; [done|]. rewrite append_cons. simpl. by rewrite IH. Qed.

Lemma replace_absent a b (s : string) :
  PyStr.mem a s = false → PyStr.replace a b s = s.
Proof.
  induction s as [|x s IH]; [done|]. simpl.
  destruct (Ascii.eqb x a); [done|]. intros H. by rewrite (IH H).
Qed.

Lemma digit_digit_char (n : N) : ∃ k, PyStr.digit (PyStr.digit_char n) = Some k.
Proof.
  destruct n as [|p]; [by eexists|].
  do 4 (try destruct p as [p|p|]); by eexists.
Qed.

Lemma digit_char_inv (k : N) : (k < 10)%N → PyStr.digit (PyStr.digit_char k) = Some k.
Proof.
  intros H. destruct k as [|p]; [done|].
  do 4 (try destruct p as [p|p|]); try done; lia.
Qed.

Lemma digit_char_not (n : N) (c : ascii) :
  PyStr.digit c = None → Ascii.eqb (PyStr.digit_char n) c = false.
Proof.
  intros Hc. destruct (Ascii.eqb_spec (PyStr.digit_char n) c) as [Heq|]; [|done].
  destruct (digit_digit_char n) as [k Hk]. congruence.
Qed.

Lemma mem_dec2 (n : N) (c : ascii) :
  PyStr.digit c = None → PyStr.mem c (PyStr.dec2 n) = false.
Proof. intros Hc. unfold PyStr.dec2. simpl. by rewrite !digit_char_not. Qed.

Lemma mem_dec4 (n : N) (c : ascii) :
  PyStr.digit c = None → PyStr.mem c (PyStr.dec4 n) = false.
Proof. intros Hc. unfold PyStr.dec4. simpl. by rewrite !digit_char_not. Qed.

Lemma mem_show_field pad (n : N) (c : ascii) :
  PyStr.digit c = None → PyStr.mem c (show_field pad n) = false.
Proof.
  intros Hc. unfold show_field. destruct (_ && _)%bool.
  - simpl. by rewrite digit_char_not.
  - by apply mem_dec2.
Qed.

Lemma re_seq_first {A B : Type} (p : matcher A) (q : matcher B) s a r junk :
  p s = (a, r) :: junk → dead q junk →
  re_seq p q s = (λ x, ((a, x.1), x.2)) <$> q r.
Proof.
  intros Hp Hdead. unfold re_seq. rewrite Hp.
  change (((a, r) :: junk) ≫= ?f) with (f (a, r) ++ (junk ≫= f)).
  assert (∀ f : A * string → list (A * B * string),
            (∀ x, q x.2 = [] → f x = []) → junk ≫= f = []) as Hjunk.
  { clear Hp. intros f Hf. induction Hdead as [|x junk' Hx _ IH]; [done|].
    change ((x :: junk') ≫= f) with (f x ++ (junk' ≫= f)). by rewrite (Hf x Hx), IH. }
  rewrite Hjunk.
  - rewrite app_nil_r. induction (q r) as [|[b r'] l IH]; [done|].
    change (((b, r') :: l) ≫= ?f) with (f (b, r') ++ (l ≫= f)). by rewrite IH.
  - intros [a0 r0] Hx. simpl in Hx. by rewrite Hx.
Qed.

Lemma re_seq_dead {A B : Type} (p : matcher A) (q : matcher B) s :
  p s = [] → re_seq p q s = [].
Proof. intros Hp. unfold re_seq. by rewrite Hp. Qed.

Lemma N_enum (lo len : nat) (n : N) :
  (N.of_nat lo ≤ n < N.of_nat (lo + len))%N → n ∈ (N.of_nat <$> seq lo len).
Proof.
  intros H. apply list_elem_of_fmap. exists (N.to_nat n). split; [lia|].
  apply elem_of_seq. lia.
Qed.

Ltac enum H :=
  repeat (apply elem_of_cons in H; destruct H as [->|H]); [..|by apply elem_of_nil in H].

Lemma re_d_field pad (d : N) rest :
  (1 ≤ d ≤ 31)%N →
  ∃ junk, re_d (show_field pad d +:+ String "/" rest) = (d, String "/" rest) :: junk
          ∧ dead (re_lit "/") junk.
Proof.
  intros H. assert (d ∈ (N.of_nat <$> seq 1 31)) as Hd by (apply N_enum; lia).
  vm_compute in Hd. clear H.
  enum Hd; destruct pad; (eexists; split; [reflexivity|repeat constructor]).
Qed.

Lemma re_m_field pad (m : N) rest :
  (1 ≤ m ≤ 12)%N →
  ∃ junk, re_m (show_field pad m +:+ String "/" rest) = (m, String "/" rest) :: junk
          ∧ dead (re_lit "/") junk.
Proof.
  intros H. assert (m ∈ (N.of_nat <$> seq 1 12)) as Hm by (apply N_enum; lia).
  vm_compute in Hm. clear H.
  enum Hm; destruct pad; (eexists; split; [reflexivity|repeat constructor]).
Qed.

Lemma re_Y_dec4 (y : N) rest :
  (y < 10000)%N → re_Y (PyStr.dec4 y +:+ rest) = [(y, rest)].
Proof.
  intros H. unfold PyStr.dec4. rewrite !append_cons. simpl.
  rewrite !digit_char_inv.
  - do 3 f_equal.
    pose proof (N.div_mod y 10). pose proof (N.div_mod (y / 10) 10).
    pose proof (N.div_mod (y / 100) 10).
    assert (y / 100 = y / 10 / 10)%N as E1 by (by rewrite N.Div0.div_div).
    assert (y / 1000 = y / 100 / 10)%N as E2 by (by rewrite N.Div0.div_div).
    assert (y / 1000 < 10)%N.
    { apply N.Div0.div_lt_upper_bound. lia. }
    pose proof (N.mod_lt (y/100) 10). lia.
  - apply N.mod_lt; lia.
  - apply N.mod_lt; lia.
  - apply N.mod_lt; lia.
  - apply N.Div0.div_lt_upper_bound. lia.
Qed.

Lemma dead_seq {A B C : Type} (p : matcher B) (q : matcher C) (junk : list (A * string)) :
  dead p junk → dead (re_seq p q) junk.
Proof.
  intros H. eapply Forall_impl; [exact H|]. intros x Hx. by apply re_seq_dead.
Qed.

Lemma re_lit_seq {B : Type} (c : ascii) (q : matcher B) rest :
  re_seq (re_lit c) q (String c rest) = (λ x, ((tt, x.1), x.2)) <$> q rest.
Proof.
  apply re_seq_first with (junk := []); [|constructor].
  simpl. by rewrite Ascii.eqb_refl.
Qed.

Lemma month_year_match pad (m y : N) :
  (1 ≤ m ≤ 12)%N → (y < 10000)%N →
  re_seq re_m (re_seq (re_lit "/") re_Y) (show_field pad m +:+ String "/" (PyStr.dec4 y))
  = [((m, (tt, y)), EmptyString)].
Proof.
  intros Hm Hy.
  destruct (re_m_field pad m (PyStr.dec4 y) Hm) as (junk & Hre & Hdead).
  rewrite (re_seq_first _ _ _ _ _ _ Hre (dead_seq _ _ _ Hdead)).
  rewrite re_lit_seq. rewrite <- (append_nil_r (PyStr.dec4 y)).
  by rewrite re_Y_dec4.
Qed.

Lemma strptime_mY_show pad (m y : N) :
  (1 ≤ m ≤ 12)%N → (y < 10000)%N →
  strptime_mY (show_field pad m +:+ "/" +:+ PyStr.dec4 y) = make_datetime y m 1.
Proof.
  intros Hm Hy. unfold strptime_mY, full_match.
  change ("/" +:+ PyStr.dec4 y) with (String "/" (PyStr.dec4 y)).
  by rewrite month_year_match.
Qed.

Lemma strptime_dmY_show pd pm (d m y : N) :
  (1 ≤ d ≤ 31)%N → (1 ≤ m ≤ 12)%N → (y < 10000)%N →
  strptime_dmY (show_field pd d +:+ "/" +:+ show_field pm m +:+ "/" +:+ PyStr.dec4 y)
  = make_datetime y m d.
Proof.
  intros Hd Hm Hy. unfold strptime_dmY, full_match.
  change ("/" +:+ PyStr.dec4 y) with (String "/" (PyStr.dec4 y)).
  change ("/" +:+ ?x) with (String "/" x).
  destruct (re_d_field pd d (show_field pm m +:+ String "/" (PyStr.dec4 y)) Hd)
    as (junk & Hre & Hdead).
  rewrite (re_seq_first _ _ _ _ _ _ Hre (dead_seq _ _ _ Hdead)).
  rewrite re_lit_seq. by rewrite month_year_match.
Qed.

Lemma make_datetime_valid (y m d : N) :
  (1 ≤ y ≤ 9999)%N → (1 ≤ m ≤ 12)%N → (1 ≤ d ≤ days_in_month y m)%N →
  make_datetime y m d = inr (Datetime y m d).
Proof.
  intros Hy Hm Hd. unfold make_datetime.
  assert (((1 <=? y) && (y <=? 9999) && (1 <=? m) && (m <=? 12)
           && (1 <=? d) && (d <=? days_in_month y m))%N = true) as ->; [|done].
  repeat (apply andb_true_intro; split); apply N.leb_le; lia.
Qed.

Lemma days_in_month_le (y m : N) : (28 ≤ days_in_month y m ≤ 31)%N.
Proof.
  unfold days_in_month.
  destruct m as [|p]; [lia|]. do 4 (try destruct p as [p|p|]); try lia;
    destruct (is_leap y); lia.
Qed.


Lemma is_instance_true c e : exn_cls e = c → is_instance c e = true.
Proof. intros H. unfold is_instance. by apply bool_decide_eq_true. Qed.

Lemma is_instance_false c e : exn_cls e ≠ c → is_instance c e = false.
Proof. intros H. unfold is_instance. by apply bool_decide_eq_false. Qed.

(** ** [extract_and_parse_dates] *)

Lemma make_datetime_raises (y m d : N) e :
  make_datetime y m d = inl e → exn_cls e = ValueError.
Proof. unfold make_datetime. destruct (_ && _)%bool; [done|]. by intros [= <-]. Qed.

Lemma full_match_raises {A : Type} (p : matcher A) s e :
  full_match p s = inl e → exn_cls e = ValueError.
Proof.
  unfold full_match. destruct (p s) as [|[a [|c r]] l]; [|done|]; by intros [= <-].
Qed.

Lemma strptime_dmY_raises s e : strptime_dmY s = inl e → exn_cls e = ValueError.
Proof.
  unfold strptime_dmY.
  destruct (full_match _ s) as [e'|[d [u [m [u' y]]]]] eqn:E.
  - intros [= <-]. by eapply full_match_raises.
  - apply make_datetime_raises.
Qed.

Lemma strptime_mY_raises s e : strptime_mY s = inl e → exn_cls e = ValueError.
Proof.
  unfold strptime_mY.
  destruct (full_match _ s) as [e'|[m [u y]]] eqn:E.
  - intros [= <-]. by eapply full_match_raises.
  - apply make_datetime_raises.
Qed.

(** The function returns two dates or two [None]s, never one of each. *)
Lemma parse_never_partial (s : string) (a b : option datetime) :
  extract_and_parse_dates s = inr (a, b) →
  (a = None ∧ b = None) ∨ (is_Some a ∧ is_Some b).
Proof.
  unfold extract_and_parse_dates.
  destruct (parse_dates_body _) as [e|[d1 d2]].
  - destruct (is_instance ValueError e); [|done]. intros [= <- <-]. by left.
  - intros [= <- <-]. right. by split.
Qed.

(** X3. The only exception that leaves the function is the [IndexError] of
    [parts[1]] or [parts[2]], on a token of fewer than three segments whose
    first segment is a date. *)
Lemma parse_raises_only_on_short_tokens (s : string) e :
  extract_and_parse_dates s = inl e →
  e = Exn IndexError "list index out of range"
  ∧ (length (PyStr.split "|" s) < 3)%nat
  ∧ ∃ d, strptime_dmY (default EmptyString (PyStr.split "|" s !! 0%nat)) = inr d.
Proof.
  unfold extract_and_parse_dates, parse_dates_body, index.
  destruct (strptime_dmY _) as [e1|d] eqn:E1.
  { rewrite (is_instance_true _ _ (strptime_dmY_raises _ _ E1)). done. }
  destruct (PyStr.split "|" s) as [|p0 [|p1 [|p2 rest]]]; simpl.
  - intros [= <-]. split; [done|]. split; [lia|by exists d].
  - intros [= <-]. split; [done|]. split; [lia|by exists d].
  - intros [= <-]. split; [done|]. split; [lia|by exists d].
  - destruct (strptime_mY _) as [e2|d2] eqn:E2; [|done].
    by rewrite (is_instance_true _ _ (strptime_mY_raises _ _ E2)).
Qed.

(** A date alone, or a date and one more segment: the function raises. *)
Lemma short_token_raises (first_ more : string) d :
  PyStr.mem "|" first_ = false → PyStr.mem "|" more = false →
  strptime_dmY first_ = inr d →
  extract_and_parse_dates first_ = inl (Exn IndexError "list index out of range")
  ∧ extract_and_parse_dates (first_ +:+ "|" +:+ more)
    = inl (Exn IndexError "list index out of range").
Proof.
  intros Hf Hm Hd. unfold extract_and_parse_dates, parse_dates_body. split.
  - rewrite split_no_sep by done. simpl. by rewrite Hd.
  - change ("|" +:+ more) with (String "|" more).
    rewrite split_app, split_no_sep by done. simpl. by rewrite Hd.
Qed.

(** X5. Segments after the third are never read. *)
Lemma extra_segments_ignored (a b c extra : string) :
  PyStr.mem "|" a = false → PyStr.mem "|" b = false → PyStr.mem "|" c = false →
  extract_and_parse_dates (a +:+ "|" +:+ b +:+ "|" +:+ c +:+ "|" +:+ extra)
  = extract_and_parse_dates (a +:+ "|" +:+ b +:+ "|" +:+ c).
Proof.
  intros Ha Hb Hc. unfold extract_and_parse_dates.
  rewrite !append_char, !split_app by done.
  rewrite (split_no_sep "|" c) by done.
  unfold parse_dates_body. done.
Qed.

(** C9. Every token [D/M/YYYY|M|YYYY] with calendar fields in range (the
    year from 1 to 9999 on four digits, the month from 1 to 12, the day within
    the month; day and month with or without a leading zero) is decoded, and
    the due date and the reference period carry exactly the numbers the token
    spells. *)
Theorem valid_token_parses pd pm pr (y m d y' m' : N) :
  (1 ≤ y ≤ 9999)%N → (1 ≤ m ≤ 12)%N → (1 ≤ d ≤ days_in_month y m)%N →
  (1 ≤ y' ≤ 9999)%N → (1 ≤ m' ≤ 12)%N →
  extract_and_parse_dates (token pd pm pr (Datetime y m d) (Datetime y' m' 1))
  = inr (Some (Datetime y m d), Some (Datetime y' m' 1)).
Proof.
  intros Hy Hm Hd Hy' Hm'. pose proof (days_in_month_le y m).
  unfold extract_and_parse_dates, token. simpl year. simpl month. simpl day.
  change ("|" +:+ ?x) with (String "|" x).
  rewrite split_app.
  2:{ rewrite !mem_app, !mem_show_field, mem_dec4 by done. done. }
  change ("|" +:+ ?x) with (String "|" x).
  rewrite split_app by (by apply mem_show_field).
  rewrite split_no_sep by (by apply mem_dec4).
  unfold parse_dates_body. simpl.
  rewrite strptime_dmY_show by lia. rewrite make_datetime_valid by lia.
  change ("|" +:+ ?x) with (String "|" x).
  rewrite replace_app.
  change (PyStr.replace "|" "/" (String "|" ?x)) with (String "/" (PyStr.replace "|" "/" x)).
  rewrite !replace_absent by (by apply mem_show_field || by apply mem_dec4).
  change (String "/" (PyStr.dec4 y')) with ("/" +:+ PyStr.dec4 y').
  pose proof (days_in_month_le y' m').
  rewrite strptime_mY_show by lia. rewrite make_datetime_valid by lia.
  done.
Qed.

(** The token of the specification's example: [5/3/2024|3|2024] gives the due
    date 2024-03-05 and the reference period 2024-03. *)
Lemma valid_token_parses_example :
  token false false false (Datetime 2024 3 5) (Datetime 2024 3 1) = "5/3/2024|3|2024"
  ∧ extract_and_parse_dates "5/3/2024|3|2024"
    = inr (Some (Datetime 2024 3 5), Some (Datetime 2024 3 1)).
Proof.
  split; [reflexivity|].
  apply (valid_token_parses false false false 2024 3 5 2024 3); vm_compute; by intuition.
Defined.

(** C2. On the token [1/1/2024|2] the function does not return the failure
    pair: the date parses, [parts[2]] raises [IndexError], and the handler
    only catches [ValueError].  The two other tokens of the claim do give the
    failure pair. *)
Theorem short_token_escapes_handler :
  extract_and_parse_dates "1/1/2024|2" = inl (Exn IndexError "list index out of range")
  ∧ extract_and_parse_dates "31/2/2024|2|2024" = inr (None, None)
  ∧ extract_and_parse_dates "abc|1|2024" = inr (None, None).
Proof. repeat split; reflexivity. Qed.

(** ** [retry_on_stale_element] *)

Lemma range_nonpos (n : Z) : n ≤ 0 → range n = [].
Proof. intros H. unfold range. by replace (Z.to_nat n) with 0%nat by lia. Qed.

Lemma range_last (n : Z) : 0 < n → last (range n) = Some (n - 1).
Proof.
  intros H. unfold range. destruct (Z.to_nat n) as [|m] eqn:E; [lia|].
  rewrite seq_S, fmap_app, list_fmap_singleton, last_snoc. f_equal. lia.
Qed.

Section RetryFacts.
Context {St A : Type}.
Variable warning : string → St → St.
Variable sleep : N → St → St.
Variable func : St → result A * St.

(** When the attempts end with [retries - 1], the loop ends in an
    invocation of [func] and passes its outcome on. *)
Lemma retry_loop_passes_on (retries : Z) (delay : N) (attempts : list Z) (s : St) :
  last attempts = Some (retries - 1) →
  ∃ s0, retry_loop warning sleep retries delay func attempts s = passed_on (func s0).
Proof.
  revert s. induction attempts as [|a rest IH]; intros s Hlast; [done|].
  simpl. destruct (func s) as [[e|v] s1] eqn:Hf.
  - destruct (is_instance StaleElementReferenceException e) eqn:He.
    + destruct (a =? retries - 1) eqn:Ha.
      * exists s. by rewrite Hf.
      * destruct rest as [|b rest].
        { simpl in Hlast. apply Z.eqb_neq in Ha. congruence. }
        apply IH. by rewrite last_cons_cons in Hlast.
    + exists s. by rewrite Hf.
  - exists s. by rewrite Hf.
Qed.
End RetryFacts.

(** C10. With an attempt count of zero (or below: [range] is empty) the
    wrapper ends in the [return None] after its loop, and the state is the one
    it was called in, whatever the wrapped operation does: the operation is not
    invoked.  With a positive count it never gets there: what it gives back is
    what some invocation of the operation returned or raised. *)
Theorem zero_attempts_fall_through {St A : Type} (warning : string → St → St)
    (sleep : N → St → St) (func : St → result A * St) (retries : Z) (delay : N) (s : St) :
  (retries ≤ 0 →
     retry_on_stale_element warning sleep retries delay func s = (inr FellThrough, s))
  ∧ (0 < retries →
     ∃ s0, retry_on_stale_element warning sleep retries delay func s = passed_on (func s0)).
Proof.
  split; intros H; unfold retry_on_stale_element.
  - by rewrite range_nonpos.
  - apply retry_loop_passes_on. by apply range_last.
Qed.

(** With no attempt the scripted operation stays at zero calls; with three,
    the value of the operation comes back. *)
Lemma zero_attempts_fall_through_witness :
  run_scripted 0 1 (λ _, inr 7%nat) = (inr FellThrough, Tape 0 [] [])
  ∧ ∃ t, run_scripted 3 1 (λ _, inr 7%nat) = passed_on (scripted (λ _, inr 7%nat) t).
Proof.
  split.
  - apply (proj1 (zero_attempts_fall_through tape_warning tape_sleep
                    (scripted (λ _, inr 7%nat)) 0 1 (Tape 0 [] []))). lia.
  - apply (proj2 (zero_attempts_fall_through tape_warning tape_sleep
                    (scripted (λ _, inr 7%nat)) 3 1 (Tape 0 [] []))). lia.
Defined.

Lemma retry_loop_stale_prefix {A : Type} (script : nat → result A) (retries : Z)
    (delay : N) (k a len : nat) (t : tape) :
  calls t = a →
  (∀ i, (a ≤ i < a + k)%nat → stale (script i)) →
  (Z.of_nat (a + k) < retries) →
  retry_loop tape_warning tape_sleep retries delay (scripted script)
    (Z.of_nat <$> seq a (k + len)) t
  = retry_loop tape_warning tape_sleep retries delay (scripted script)
      (Z.of_nat <$> seq (a + k) len) (retried retries delay a k t).
Proof.
  revert a t. induction k as [|k IH]; intros a t Ha Hstale Hlt.
  - simpl. rewrite Nat.add_0_r. f_equal. destruct t. unfold retried. simpl.
    by rewrite Nat.add_0_r, !app_nil_r.
  - simpl. unfold scripted at 1. rewrite Ha.
    destruct (Hstale a ltac:(lia)) as (e & -> & He).
    rewrite (is_instance_true _ _ He).
    destruct (Z.of_nat a =? retries - 1) eqn:Hlast; [apply Z.eqb_eq in Hlast; lia|].
    rewrite IH.
    + replace (S a + k)%nat with (a + S k)%nat by lia. f_equal.
      unfold retried, tape_sleep, tape_warning. simpl. f_equal.
      * lia.
      * by rewrite <- app_assoc.
      * by rewrite <- app_assoc.
    + simpl. lia.
    + intros i Hi. apply Hstale. lia.
    + lia.
Qed.

(** C5. For an operation scripted by invocation: stale [k < retries] times and
    then a value [v], the wrapper returns [v] after [k + 1] invocations; stale
    on every one of the [retries] attempts, the failure of the last attempt
    leaves the wrapper as it was raised, after [retries] invocations; any other
    failure on the first attempt leaves at once, after one invocation, with no
    warning and no sleep. *)
Theorem retry_guard_contract {A : Type} (script : nat → result A) (retries : Z) (delay : N) :
  (∀ (k : nat) (v : A),
      (∀ i, (i < k)%nat → stale (script i)) → script k = inr v → Z.of_nat k < retries →
      run_scripted retries delay script
      = (inr (Returned v), retried retries delay 0 k (Tape 1 [] [])))
  ∧ (0 < retries →
     (∀ i, Z.of_nat i < retries → stale (script i)) →
     run_scripted retries delay script
     = (passed_on (script (Z.to_nat (retries - 1)),
                   retried retries delay 0 (Z.to_nat (retries - 1)) (Tape 1 [] []))))
  ∧ (∀ e, 0 < retries → script 0%nat = inl e →
          exn_cls e ≠ StaleElementReferenceException →
          run_scripted retries delay script = (inl e, Tape 1 [] [])).
Proof.
  unfold run_scripted, retry_on_stale_element, range. split; [|split].
  - intros k v Hstale Hok Hk.
    replace (Z.to_nat retries) with (k + S (Z.to_nat retries - S k))%nat by lia.
    rewrite (retry_loop_stale_prefix script retries delay k 0) by (simpl; auto with lia).
    simpl. unfold scripted. simpl. by rewrite Hok.
  - intros Hpos Hstale. set (k := Z.to_nat (retries - 1)).
    replace (Z.to_nat retries) with (k + 1)%nat by lia.
    rewrite (retry_loop_stale_prefix script retries delay k 0) by (simpl; auto with lia).
    simpl. unfold scripted. simpl.
    destruct (Hstale k ltac:(lia)) as (e & -> & He).
    rewrite (is_instance_true _ _ He).
    replace (Z.of_nat k =? retries - 1) with true by (symmetry; apply Z.eqb_eq; lia).
    done.
  - intros e Hpos Hraise Hother.
    destruct (Z.to_nat retries) as [|n] eqn:E; [lia|].
    simpl. unfold scripted. simpl. rewrite Hraise.
    by rewrite (is_instance_false _ _ Hother).
Qed.

(** Three attempts: two stale ones and a value; three stale ones; a timeout. *)
Lemma retry_guard_contract_witness :
  let gone := Exn StaleElementReferenceException "Message: stale element reference" in
  let late := Exn TimeoutException "Message: timeout" in
  (run_scripted 3 1 (λ i, if (i <? 2)%nat then inl gone else inr 7%nat)).1
  = inr (Returned 7%nat)
  ∧ calls (run_scripted 3 1 (λ i, if (i <? 2)%nat then inl gone else inr 7%nat)).2 = 3%nat
  ∧ (run_scripted 3 1 (λ _, inl gone : result nat)).1 = inl gone
  ∧ calls (run_scripted 3 1 (λ _, inl gone : result nat)).2 = 3%nat
  ∧ run_scripted 3 1 (λ _, inl late : result nat) = (inl late, Tape 1 [] []).
Proof.
  intros gone late.
  pose proof (retry_guard_contract (λ i, if (i <? 2)%nat then inl gone else inr 7%nat) 3 1)
    as (Hfirst & _ & _).
  pose proof (retry_guard_contract (λ _, inl gone : result nat) 3 1) as (_ & Hall & _).
  pose proof (retry_guard_contract (λ _, inl late : result nat) 3 1) as (_ & _ & Hother).
  rewrite (Hfirst 2%nat 7%nat).
  - rewrite Hall.
    + rewrite (Hother late); [by repeat split|lia|done|done].
    + lia.
    + intros i _. by exists gone.
  - intros i Hi. exists gone. by destruct i as [|[|i]]; [..|lia].
  - done.
  - lia.
Defined.

(** ** [move_and_rename_file] *)

Lemma length_append (a b : string) :
  String.length (a +:+ b) = (String.length a + String.length b)%nat.
Proof. induction a as [|x a IH]; [done|]. rewrite append_cons. simpl. by rewrite IH. Qed.

Lemma append_inj_r (a b c : string) : a +:+ c = b +:+ c → a = b.
Proof.
  revert b. induction a as [|x a IH]; intros [|y b] H; [done|..].
  - apply (f_equal String.length) in H. rewrite !length_append in H. simpl in H. lia.
  - apply (f_equal String.length) in H. rewrite !length_append in H. simpl in H. lia.
  - rewrite !append_cons in H. injection H as -> H. f_equal. by apply IH.
Qed.

Lemma startswith_char c a (s : string) :
  PyStr.startswith (String c s) (String a EmptyString) = Ascii.eqb a c.
Proof. cbn [PyStr.startswith]. by destruct (Ascii.eqb a c), s. Qed.

Lemma join_app (d p r : string) :
  PyStr.truthy p = true → OsPath.join d (p +:+ r) = OsPath.join d p +:+ r.
Proof.
  destruct p as [|c p]; [done|]. intros _. unfold OsPath.join.
  rewrite append_cons, !startswith_char. destruct (Ascii.eqb "/" c); [done|].
  destruct (_ || _)%bool; by rewrite ?append_assoc.
Qed.

Lemma path_exists_true p (fs : gmap string node) :
  Os.path_exists p fs = true ↔ is_Some (fs !! p).
Proof. unfold Os.path_exists. apply bool_decide_eq_true. Qed.

Lemma path_exists_false p (fs : gmap string node) :
  Os.path_exists p fs = false ↔ fs !! p = None.
Proof.
  unfold Os.path_exists. rewrite bool_decide_eq_false. by rewrite eq_None_not_Some.
Qed.

Section ArchiverFacts.
Variable download_dir : string.
Variable name ext : string.

Lemma candidate_suffixed (k : nat) :
  candidate download_dir name ext (S k)
  = OsPath.join download_dir (name +:+ "_") +:+ (pretty (S k) +:+ ext).
Proof.
  unfold candidate. rewrite <- join_app.
  - by rewrite append_assoc.
  - by destruct name.
Qed.

Lemma candidate_inj (j k : nat) :
  candidate download_dir name ext (S j) = candidate download_dir name ext (S k) → j = k.
Proof.
  rewrite !candidate_suffixed. intros H.
  apply (inj (String.app _)) in H. apply append_inj_r in H.
  apply (inj pretty) in H. lia.
Qed.

(** More numbered names than entries: one of them is free. *)
Lemma candidate_free (fs : gmap string node) :
  ∃ j, (1 ≤ j ≤ S (size fs))%nat ∧ fs !! candidate download_dir name ext j = None.
Proof.
  destruct (decide (Forall (λ j, is_Some (fs !! candidate download_dir name ext j))
                      (seq 1 (S (size fs))))) as [Hall|Hsome].
  - exfalso.
    assert (NoDup (candidate download_dir name ext <$> seq 1 (S (size fs)))) as Hnd.
    { apply NoDup_fmap_2_strong; [|apply NoDup_seq].
      intros [|j] [|k] Hj Hk H; try (apply elem_of_seq in Hj, Hk; lia).
      f_equal. by apply candidate_inj. }
    assert (list_to_set (candidate download_dir name ext <$> seq 1 (S (size fs))) ⊆ dom fs)
      as Hsub.
    { intros p Hp. apply elem_of_list_to_set, list_elem_of_fmap in Hp as (j & -> & Hj).
      apply elem_of_dom. by eapply Forall_forall in Hall. }
    apply subseteq_size in Hsub.
    rewrite size_list_to_set, length_fmap, length_seq, size_dom in Hsub by done. lia.
  - apply not_Forall_Exists in Hsome; [|apply _].
    apply Exists_exists in Hsome as (j & Hj & Hfree).
    exists j. apply elem_of_seq in Hj. split; [lia|].
    by apply eq_None_not_Some.
Qed.

(** The loop stops at the first free name, if its fuel reaches one. *)
Lemma free_name_first (fs : gmap string node) (fuel c : nat) :
  (∃ j, (c ≤ j < c + fuel)%nat ∧ fs !! candidate download_dir name ext j = None) →
  ∃ k, free_name download_dir fuel fs name ext (S c) (candidate download_dir name ext c)
       = Some (candidate download_dir name ext k)
       ∧ (c ≤ k < c + fuel)%nat ∧ fs !! candidate download_dir name ext k = None
       ∧ ∀ j, (c ≤ j < k)%nat → is_Some (fs !! candidate download_dir name ext j).
Proof.
  revert c. induction fuel as [|fuel IH]; intros c (j & Hj & Hfree); [lia|].
  simpl. destruct (Os.path_exists (candidate download_dir name ext c) fs) eqn:Hc.
  - apply path_exists_true in Hc.
    destruct (decide (j = c)) as [->|Hne].
    { rewrite Hfree in Hc. by destruct Hc. }
    destruct (IH (S c)) as (k & Hk & Hrange & Hkfree & Hbelow).
    { exists j. split; [lia|done]. }
    exists k. split; [exact Hk|]. split; [lia|]. split; [done|].
    intros i Hi. destruct (decide (i = c)) as [->|]; [done|]. apply Hbelow. lia.
  - apply path_exists_false in Hc. exists c. split; [done|]. split; [lia|].
    split; [done|]. intros i Hi. lia.
Qed.

Lemma free_name_finds (fs : gmap string node) :
  ∃ k, free_name download_dir (S (S (size fs))) fs name ext 1
         (candidate download_dir name ext 0)
       = Some (candidate download_dir name ext k)
       ∧ fs !! candidate download_dir name ext k = None
       ∧ ∀ j, (j < k)%nat → is_Some (fs !! candidate download_dir name ext j).
Proof.
  destruct (candidate_free fs) as (j & Hj & Hfree).
  destruct (free_name_first fs (S (S (size fs))) 0) as (k & Hk & _ & Hkfree & Hbelow).
  { exists j. split; [lia|done]. }
  exists k. split; [done|]. split; [done|]. intros i Hi. apply Hbelow. lia.
Qed.
End ArchiverFacts.

Lemma head_basename (p : string) : OsPath.head p +:+ OsPath.basename p = p.
Proof.
  induction p as [|c p IH]; [done|]. simpl.
  destruct (PyStr.mem "/" p).
  - by rewrite append_cons, IH.
  - by destruct (Ascii.eqb c "/") eqn:E; [apply Ascii.eqb_eq in E as ->|].
Qed.

Lemma rsplit_dot_join (s pre ext : string) :
  OsPath.rsplit_dot s = Some (pre, ext) → pre +:+ ext = s.
Proof.
  revert pre. induction s as [|c s IH]; intros pre; [done|]. simpl.
  destruct (OsPath.rsplit_dot s) as [[pre' ext']|].
  - intros [= <- <-]. by rewrite append_cons, (IH pre').
  - destruct (Ascii.eqb c "."); [|done]. by intros [= <- <-].
Qed.

(** [splitext] cuts its argument in two. *)
Lemma splitext_join (p : string) :
  (OsPath.splitext p).1 +:+ (OsPath.splitext p).2 = p.
Proof.
  unfold OsPath.splitext.
  destruct (OsPath.rsplit_dot (OsPath.basename p)) as [[pre ext]|] eqn:E;
    [|apply append_nil_r].
  destruct (OsPath.all_dots pre); [apply append_nil_r|]. simpl.
  by rewrite append_assoc, (rsplit_dot_join _ _ _ E), head_basename.
Qed.




Section MoveFacts.
Variable download_dir : string.
Variable today : datetime.

(** What [move_and_rename_file] does when the source is there: it hands the
    source and the first free candidate to [shutil.move], which moves the
    one to the other or raises. *)
Lemma move_and_rename_file_outcome source pfx (fs : gmap string node) n :
  source ≠ EmptyString → fs !! source = Some n →
  let name := new_name today pfx (OsPath.splitext (OsPath.basename source)).1 in
  let ext := (OsPath.splitext (OsPath.basename source)).2 in
  ∃ k, move_and_rename_file download_dir today source pfx fs
       = match Os.landing source (candidate download_dir name ext k) n fs with
         | inl e => (inl e, fs)
         | inr _ =>
             (inr (Some (candidate download_dir name ext k)),
              <[candidate download_dir name ext k := n]> (delete source fs))
         end
       ∧ fs !! candidate download_dir name ext k = None
       ∧ ∀ j, (j < k)%nat → is_Some (fs !! candidate download_dir name ext j).
Proof.
  intros Hne Hsrc name ext. unfold move_and_rename_file.
  assert (PyStr.truthy source = true) as -> by (by destruct source).
  assert (Os.path_exists source fs = true) as -> by (by apply path_exists_true).
  simpl negb. simpl orb. cbv iota.
  destruct (free_name_finds download_dir name ext fs) as (k & Hk & Hfree & Hbelow).
  exists k. fold name ext.
  change (OsPath.join download_dir (name +:+ ext)) with (candidate download_dir name ext 0).
  rewrite Hk. simpl default. unfold Os.move. rewrite Hsrc.
  unfold Os.isdir. rewrite Hfree.
  split; [|done]. by destruct n, (Os.landing _ _ _ _).
Qed.

Lemma move_and_rename_file_absent source pfx (fs : gmap string node) :
  fs !! source = None →
  move_and_rename_file download_dir today source pfx fs = (inr None, fs).
Proof.
  intros H. unfold move_and_rename_file.
  assert (Os.path_exists source fs = false) as -> by (by apply path_exists_false).
  by rewrite orb_true_r.
Qed.

End MoveFacts.





(** ** [wait_for_download_complete] *)

Lemma scan_in_progress file_type files : in_progress files → scan file_type files = None.
Proof.
  intros (g & Hg & Hm). unfold scan.
  assert (existsb is_incomplete files = true) as ->; [|done].
  apply existsb_exists. exists g. split; [by apply list_elem_of_In|done].
Qed.

Lemma filter_none (P : string → bool) (l : list string) :
  (∀ g, g ∈ l → P g = false) → List.filter P l = [].
Proof.
  induction l as [|x l IH]; intros H; [done|]. simpl.
  rewrite (H x) by apply list_elem_of_here. apply IH.
  intros g Hg. apply H. by apply list_elem_of_further.
Qed.

Lemma scan_still_waiting file_type files :
  still_waiting file_type files → scan file_type files = None.
Proof.
  intros [H|H]; [by apply scan_in_progress|]. unfold scan.
  destruct (existsb is_incomplete files); [done|]. by rewrite filter_none.
Qed.

Lemma scan_first file_type files f :
  ¬ in_progress files →
  first_with (λ g, PyStr.endswith (PyStr.lower g) file_type) files f →
  scan file_type files = Some f.
Proof.
  intros Hno (pre & post & -> & Hf & Hpre). unfold scan.
  destruct (existsb is_incomplete (pre ++ f :: post)) eqn:E.
  - exfalso. apply Hno. apply existsb_exists in E as (g & Hg & Hm).
    exists g. split; [by apply list_elem_of_In|done].
  - rewrite List.filter_app, filter_none by done. simpl. by rewrite Hf.
Qed.

Section WatcherFacts.
Context {B E : Type}.
Variable drv : Driver B E.
Variable cwd : string.

Lemma at_poll_S (i : nat) (w : world B) :
  at_poll drv (S i) w = at_poll drv i (sleep_ms drv 1000 w).
Proof. unfold at_poll. apply Nat.iter_succ_r. Qed.

Lemma wait_loop_step (n : nat) (file_type : string) (w : world B) :
  wait_loop drv cwd (S n) file_type w
  = match Os.listdir (download_temp_dir cwd) (fs (sleep_ms drv 1000 w)) with
    | inl e => (inl e, sleep_ms drv 1000 w)
    | inr files =>
        match scan file_type files with
        | Some f =>
            (inr (true, Some (OsPath.join (download_temp_dir cwd) f)), sleep_ms drv 1000 w)
        | None => wait_loop drv cwd n file_type (sleep_ms drv 1000 w)
        end
    end.
Proof.
  simpl. unfold mbind, M_bind, time_sleep, os_read. simpl.
  destruct (Os.listdir _ _) as [e|files]; [done|].
  by destruct (scan file_type files).
Qed.

Lemma wait_loop_found (n i : nat) (file_type : string) (w : world B) files f :
  (1 ≤ i ≤ n)%nat →
  (∀ j, (1 ≤ j < i)%nat →
        ∃ files_j, listing drv cwd j w = inr files_j ∧ scan file_type files_j = None) →
  listing drv cwd i w = inr files → scan file_type files = Some f →
  wait_loop drv cwd n file_type w
  = (inr (true, Some (OsPath.join (download_temp_dir cwd) f)), at_poll drv i w).
Proof.
  revert i w. induction n as [|n IH]; intros i w Hi Hbefore Hat Hscan; [lia|].
  rewrite wait_loop_step. destruct (decide (i = 1%nat)) as [->|Hne].
  - unfold listing, at_poll in Hat. simpl in Hat. by rewrite Hat, Hscan.
  - destruct (Hbefore 1%nat ltac:(lia)) as (files1 & H1 & Hs1).
    unfold listing, at_poll in H1. simpl in H1. rewrite H1, Hs1.
    destruct i as [|i]; [lia|]. rewrite at_poll_S. apply IH.
    + lia.
    + intros j Hj. destruct (Hbefore (S j) ltac:(lia)) as (fj & Hl & Hs).
      exists fj. split; [|done]. unfold listing in *. by rewrite <- at_poll_S.
    + unfold listing in *. by rewrite <- at_poll_S.
    + done.
Qed.

Lemma wait_loop_timeout (n : nat) (file_type : string) (w : world B) :
  (∀ j, (1 ≤ j ≤ n)%nat →
        ∃ files_j, listing drv cwd j w = inr files_j ∧ scan file_type files_j = None) →
  wait_loop drv cwd n file_type w = (inr (false, None), at_poll drv n w).
Proof.
  revert w. induction n as [|n IH]; intros w Hall; [done|].
  rewrite wait_loop_step.
  destruct (Hall 1%nat ltac:(lia)) as (files1 & H1 & Hs1).
  unfold listing, at_poll in H1. simpl in H1. rewrite H1, Hs1.
  rewrite at_poll_S. apply IH. intros j Hj.
  destruct (Hall (S j) ltac:(lia)) as (fj & Hl & Hs).
  exists fj. split; [|done]. unfold listing in *. by rewrite <- at_poll_S.
Qed.
End WatcherFacts.

(** X23. The watcher as the code has it.  It sleeps a second before every
    listing.  If on pass [i], within the bound, the listing carries no marker
    and [f] is its first name whose lower-cased form ends with [file_type], and
    every earlier pass saw a marker or no such name, the result is
    [(True, staging/f)] after [i] sleeps.  If every pass up to the bound saw a
    marker or no such name, the result is [(False, None)] after [timeout]
    sleeps.  The comparison lower-cases the name only: it is the comparison
    that ignores case when [file_type] is itself in lower case. *)
Theorem watcher_contract {B E : Type} (drv : Driver B E) (cwd : string)
    (timeout : Z) (file_type : string) (w : world B) :
  (∀ (i : nat) files f,
      (1 ≤ i)%nat → (Z.of_nat i ≤ timeout)%Z →
      (∀ j, (1 ≤ j < i)%nat →
            ∃ files_j, listing drv cwd j w = inr files_j ∧ still_waiting file_type files_j) →
      listing drv cwd i w = inr files →
      ¬ in_progress files →
      first_with (λ g, PyStr.endswith (PyStr.lower g) file_type) files f →
      wait_for_download_complete drv cwd timeout file_type w
      = (inr (true, Some (OsPath.join (download_temp_dir cwd) f)), at_poll drv i w))
  ∧ ((∀ j, (1 ≤ j)%nat → (Z.of_nat j ≤ timeout)%Z →
           ∃ files_j, listing drv cwd j w = inr files_j ∧ still_waiting file_type files_j) →
     wait_for_download_complete drv cwd timeout file_type w
     = (inr (false, None), at_poll drv (Z.to_nat timeout) w))
  ∧ (PyStr.lower file_type = file_type →
     ∀ g, PyStr.endswith (PyStr.lower g) file_type = ends_with_ignoring_case g file_type).
Proof.
  unfold wait_for_download_complete. split; [|split].
  - intros i files f Hi Hle Hbefore Hat Hno Hfirst.
    apply (wait_loop_found drv cwd _ i _ _ files); [lia| |done|by apply scan_first].
    intros j Hj. destruct (Hbefore j Hj) as (fj & Hl & Hw).
    exists fj. split; [done|by apply scan_still_waiting].
  - intros Hall. apply wait_loop_timeout. intros j Hj.
    destruct (Hall j ltac:(lia) ltac:(lia)) as (fj & Hl & Hw).
    exists fj. split; [done|by apply scan_still_waiting].
  - intros Hlow g. unfold ends_with_ignoring_case. by rewrite Hlow.
Qed.

(** [report.pdf] landing after three seconds, bound 10; and a marker that stays
    for the whole bound. *)
Lemma watcher_contract_witness :
  wait_for_download_complete Portal.driver Demo.cwd 10 ".pdf" Demo.slow
  = (inr (true, Some "/work/downloads/tmp/report.pdf"),
     at_poll Portal.driver 3 Demo.slow)
  ∧ wait_for_download_complete Portal.driver Demo.cwd 10 ".pdf" Demo.stuck
    = (inr (false, None), at_poll Portal.driver 10 Demo.stuck).
Proof.
  split.
  - apply (proj1 (watcher_contract Portal.driver Demo.cwd 10 ".pdf" Demo.slow)
             3%nat ["report.pdf"] "report.pdf").
    + lia.
    + lia.
    + intros j Hj. exists []. split.
      * assert (j = 1 ∨ j = 2)%nat as [-> | ->] by lia; vm_compute; reflexivity.
      * right. intros g Hg. by apply elem_of_nil in Hg.
    + vm_compute. reflexivity.
    + intros (g & Hg & Hm). apply list_elem_of_singleton in Hg as ->. vm_compute in Hm. done.
    + exists [], []. split; [done|]. split; [vm_compute; reflexivity|].
      intros g Hg. by apply elem_of_nil in Hg.
  - apply (proj1 (proj2 (watcher_contract Portal.driver Demo.cwd 10 ".pdf" Demo.stuck))).
    intros j Hj Hle. exists ["report.pdf.crdownload"]. split.
    + assert (j ∈ seq 1 10) as Hin by (apply elem_of_seq; lia).
      vm_compute in Hin.
      repeat (apply elem_of_cons in Hin; destruct Hin as [->|Hin];
              [vm_compute; reflexivity|]).
      by apply elem_of_nil in Hin.
    + left. exists "report.pdf.crdownload". split; [apply list_elem_of_here|].
      vm_compute. reflexivity.
Defined.

(** Lower-casing leaves no [F] in a name. *)
Lemma lower_char_is_not_F (c : ascii) : Ascii.eqb "F" (PyStr.lower_char c) = false.
Proof. destruct c as [[] [] [] [] [] [] [] []]; vm_compute; reflexivity. Qed.

Lemma upper_case_extension_matches_nothing (g : string) :
  PyStr.endswith (PyStr.lower g) ".PDF" = false.
Proof.
  unfold PyStr.endswith. rewrite rev_lower.
  destruct (String.rev g) as [|c r]; [done|].
  change (String.rev ".PDF") with "FDP.". cbn [PyStr.lower PyStr.startswith].
  by rewrite lower_char_is_not_F.
Qed.

(** C6. The watcher lower-cases the name it tests and not the extension it
    tests it against (line 248), so the match does not ignore case: an
    extension with an upper-case letter in it matches no name at all.  With
    [.PDF] expected, no listing gives a file; with a finished [report.pdf] in
    the staging directory and no marker, a name that ends with [.PDF] when
    case is ignored, the watcher gives [(False, None)]; and so it does with a
    finished [REPORT.PDF], which ends with [.PDF] as it is written. *)
Theorem watcher_upper_case_extension :
  (∀ files, scan ".PDF" files = None)
  ∧ (wait_for_download_complete Portal.driver Demo.cwd 10 ".PDF" Demo.landed).1
    = inr (false, None)
  ∧ listing Portal.driver Demo.cwd 1 Demo.landed = inr ["report.pdf"]
  ∧ is_incomplete "report.pdf" = false
  ∧ ends_with_ignoring_case "report.pdf" ".PDF" = true
  ∧ (wait_for_download_complete Portal.driver Demo.cwd 10 ".PDF" Demo.landed_upper).1
    = inr (false, None)
  ∧ listing Portal.driver Demo.cwd 1 Demo.landed_upper = inr ["REPORT.PDF"]
  ∧ is_incomplete "REPORT.PDF" = false
  ∧ PyStr.endswith "REPORT.PDF" ".PDF" = true.
Proof.
  split.
  - intros files. unfold scan. destruct (existsb is_incomplete files); [done|].
    rewrite filter_none; [done|]. intros g _. apply upper_case_extension_matches_nothing.
  - repeat split; vm_compute; reflexivity.
Qed.

(** ** [__init__] and [clear_tmp_directory] *)

Lemma join_longer (d : string) (c : ascii) (n : string) :
  Ascii.eqb "/" c = false →
  (String.length d < String.length (OsPath.join d (String c n)))%nat.
Proof.
  intros Hc. unfold OsPath.join.
  assert (PyStr.startswith (String c n) "/" = false) as ->.
  { cbn [PyStr.startswith]. by rewrite Hc. }
  destruct (_ || _)%bool; rewrite !length_append; simpl; lia.
Qed.

Lemma staging_is_not_archive (cwd : string) : download_temp_dir cwd ≠ download_dir cwd.
Proof.
  intros H. apply (f_equal String.length) in H. unfold download_temp_dir in H.
  pose proof (join_longer (download_dir cwd) "t" "mp" eq_refl). lia.
Qed.

(** C3. On a first run, with no [downloads] directory yet, [__init__] makes
    [downloads] and then raises [FileNotFoundError] from the [os.listdir] of
    [clear_tmp_directory]: nothing has made [downloads/tmp]. *)
Theorem init_raises_on_first_run :
  let out := scraper_init Demo.cwd (World (∅ : gmap string node) tt []) in
  out.1 = inl (Exn FileNotFoundError
                 "[Errno 2] No such file or directory: '/work/downloads/tmp'")
  ∧ fs out.2 !! "/work/downloads" = Some Dir
  ∧ fs out.2 !! "/work/downloads/tmp" = None
  ∧ download_dir Demo.cwd = "/work/downloads"
  ∧ download_temp_dir Demo.cwd = "/work/downloads/tmp".
Proof. repeat split; vm_compute; reflexivity. Qed.

(** ** [process_accounts] *)

Section LoopFacts.
Context {B X : Type}.
Variable body : X → world B → result flow * world B.

Lemma for_each_app_next (xs ys : list X) (w w' : world B) :
  for_each body xs w = (inr Next, w') →
  for_each body (xs ++ ys) w = for_each body ys w'.
Proof.
  revert w. induction xs as [|x xs IH]; intros w H.
  - simpl in H. by injection H as <-.
  - simpl in *. unfold mbind, M_bind in *.
    destruct (body x w) as [[e|[|]] w1]; try done. by apply IH.
Qed.

Lemma for_each_return (x : X) (ys : list X) (w w' : world B) :
  body x w = (inr Return, w') → for_each body (x :: ys) w = (inr Return, w').
Proof. intros H. simpl. unfold mbind, M_bind. by rewrite H. Qed.

Lemma for_each_raise (x : X) (ys : list X) (w w' : world B) e :
  body x w = (inl e, w') → for_each body (x :: ys) w = (inl e, w').
Proof. intros H. simpl. unfold mbind, M_bind. by rewrite H. Qed.
End LoopFacts.

Section OrchestratorFacts.
Context {B E : Type}.
Variable drv : Driver B E.
Variable cwd : string.

(** How the run ends once the body of the invoice loop has ended for one
    invoice, with the accounts and invoices before it done. *)
Lemma run_reaches (w w0 w1 w2 w3 : world B)
    (before : list string) (account : string) (after : list string)
    (done_ : list E) (invoice : E) (left_ : list E) :
  account_list drv w = (inr (before ++ account :: after), w0) →
  for_each (account_body drv cwd) before w0 = (inr Next, w1) →
  open_account drv account w1 = (inr (Some (done_ ++ invoice :: left_)), w2) →
  for_each (invoice_body drv cwd account) done_ w2 = (inr Next, w3) →
  (accounts ← account_list drv; for_each (account_body drv cwd) accounts) w
  = match invoice_body drv cwd account invoice w3 with
    | (inr Next, w4) =>
        match for_each (invoice_body drv cwd account) left_ w4 with
        | (inr Next, w5) => for_each (account_body drv cwd) after w5
        | other => other
        end
    | other => other
    end.
Proof.
  intros Hlist Hbefore Hopen Hdone.
  unfold mbind at 1. unfold M_bind at 1. rewrite Hlist.
  rewrite (for_each_app_next _ _ _ _ _ Hbefore).
  cbn [for_each]. unfold mbind at 1. unfold M_bind at 1.
  unfold account_body at 1. unfold mbind at 1. unfold M_bind at 1. rewrite Hopen.
  rewrite (for_each_app_next _ _ _ _ _ Hdone).
  cbn [for_each]. unfold mbind at 1. unfold M_bind at 1.
  destruct (invoice_body drv cwd account invoice w3) as [[e|[|]] w4]; [done| |done].
  destruct (for_each (invoice_body drv cwd account) left_ w4) as [[e|[|]] w5]; done.
Qed.
End OrchestratorFacts.

Section RunFacts.
Context {B E : Type}.
Variable drv : Driver B E.
Variable cwd : string.

(** The body of the invoice loop on a verdict of failure: one log record, and
    [return]. *)
Lemma invoice_body_on_failure (account : string) (invoice : E) (w3 w4 w5 : world B)
    (value pfx : string) (path : option string) :
  select_invoice drv invoice w3 = (inr value, w4) →
  PyStr.truthy value = true →
  request_download drv cwd account value w4 = (inr (pfx, (false, path)), w5) →
  invoice_body drv cwd account invoice w3
  = (inr Return, log_to INFO "Download timed out or no file found" w5).
Proof.
  intros Hsel Htrue Hreq. unfold invoice_body, mbind, M_bind.
  rewrite Hsel, Htrue. unfold mbind, M_bind. rewrite Hreq. done.
Qed.

(** The body of the invoice loop on a token that does not decode: the format
    of the file-name prefix raises [AttributeError] on [None], or the
    [IndexError] of the parser passes through. *)
Lemma invoice_body_on_undecodable (account : string) (invoice : E) (w3 w4 : world B)
    (value : string) :
  select_invoice drv invoice w3 = (inr value, w4) →
  PyStr.truthy value = true →
  (extract_and_parse_dates value = inr (None, None) →
   invoice_body drv cwd account invoice w3
   = (inl (Exn AttributeError "'NoneType' object has no attribute 'strftime'"),
      log_to INFO ("Selecting invoice: " +:+ account +:+ " - None") w4))
  ∧ (∀ e, extract_and_parse_dates value = inl e →
          invoice_body drv cwd account invoice w3 = (inl e, w4)).
Proof.
  intros Hsel Htrue. split.
  - intros Hparse. unfold invoice_body, mbind, M_bind.
    rewrite Hsel, Htrue. unfold request_download, mbind, M_bind. rewrite Hparse. done.
  - intros e Hparse. unfold invoice_body, mbind, M_bind.
    rewrite Hsel, Htrue. unfold request_download, mbind, M_bind. rewrite Hparse. done.
Qed.

(** X2. A token that does not decode ends the whole run in the handler of
    [process_accounts]: the invoices and accounts after it are not visited. *)
Lemma undecodable_token_ends_run (w w0 w1 w2 w3 w4 : world B)
    (before : list string) (account : string) (after : list string)
    (done_ : list E) (invoice : E) (left_ : list E) (value : string) :
  account_list drv w = (inr (before ++ account :: after), w0) →
  for_each (account_body drv cwd) before w0 = (inr Next, w1) →
  open_account drv account w1 = (inr (Some (done_ ++ invoice :: left_)), w2) →
  for_each (invoice_body drv cwd account) done_ w2 = (inr Next, w3) →
  select_invoice drv invoice w3 = (inr value, w4) →
  PyStr.truthy value = true →
  extract_and_parse_dates value = inr (None, None) →
  process_accounts drv cwd w
  = log_to ERROR "Error processing accounts: 'NoneType' object has no attribute 'strftime'"
      (log_to INFO ("Selecting invoice: " +:+ account +:+ " - None") w4).
Proof.
  intros Hlist Hbefore Hopen Hdone Hsel Htrue Hparse. unfold process_accounts.
  rewrite (run_reaches drv cwd w w0 w1 w2 w3 before account after done_ invoice left_)
    by done.
  destruct (invoice_body_on_undecodable account invoice w3 w4 value Hsel Htrue) as [Hnone _].
  by rewrite (Hnone Hparse).
Qed.
End RunFacts.

(** C8. When the watcher's verdict on an invoice is failure, with the accounts
    and the invoices before it done, the run is over after one log record:
    the world [process_accounts] leaves is the world the watcher left plus
    that record, whatever invoices of the account and whatever accounts were
    still to come. *)
Theorem download_failure_aborts_run {B E : Type} (drv : Driver B E) (cwd : string)
    (w w0 w1 w2 w3 w4 w5 : world B)
    (before : list string) (account : string) (after : list string)
    (done_ : list E) (invoice : E) (left_ : list E)
    (value pfx : string) (path : option string) :
  account_list drv w = (inr (before ++ account :: after), w0) →
  for_each (account_body drv cwd) before w0 = (inr Next, w1) →
  open_account drv account w1 = (inr (Some (done_ ++ invoice :: left_)), w2) →
  for_each (invoice_body drv cwd account) done_ w2 = (inr Next, w3) →
  select_invoice drv invoice w3 = (inr value, w4) →
  PyStr.truthy value = true →
  request_download drv cwd account value w4 = (inr (pfx, (false, path)), w5) →
  process_accounts drv cwd w = log_to INFO "Download timed out or no file found" w5.
Proof.
  intros Hlist Hbefore Hopen Hdone Hsel Htrue Hreq. unfold process_accounts.
  rewrite (run_reaches drv cwd w w0 w1 w2 w3 before account after done_ invoice left_)
    by done.
  by rewrite (invoice_body_on_failure drv cwd account invoice w3 w4 w5 value pfx path).
Qed.

(** The portal serves nothing for the first invoice of account 111: its second
    invoice and account 222 are never looked at. *)
Lemma download_failure_aborts_run_witness :
  logged (process_accounts Portal.driver Demo.cwd Demo.unserved_start)
  = [(INFO, "Processing account: 111");
     (INFO, "Processing invoice: 05/03/2024");
     (INFO, "Selecting invoice: 111 - 2024-03-05 00:00:00");
     (INFO, "Downloading invoice: 111 - 2024-03-05 00:00:00");
     (INFO, "Download timed out or no file found")].
Proof.
  rewrite (download_failure_aborts_run Portal.driver Demo.cwd
             Demo.unserved_start Demo.unserved_start Demo.unserved_start
             Demo.unserved_opened Demo.unserved_opened Demo.unserved_selected
             Demo.unserved_waited
             [] "111" ["222"]
             [] (Portal.InvoiceOption Demo.march.1 Demo.march.2)
             [Portal.InvoiceOption Demo.april.1 Demo.april.2]
             Demo.march.2 "conta_111_ref_2024-03_venc_2024-03-05" None);
    vm_compute; reflexivity.
Defined.

(** C1. A token that does not decode is not skipped: [None.strftime] raises,
    the handler of [process_accounts] logs the error, and the run is over.
    With the garbled token first, the good invoice after it and the account
    after that are never visited and nothing is archived.  In the scenario of
    the specification (account 111 good, then account 222 garbled) one file is
    archived, and the run ends on the error record, not on a skip. *)
Theorem undecodable_token_aborts_run :
  logged Demo.garbled_first
  = [(INFO, "Processing account: 222");
     (INFO, "Processing invoice: bad");
     (INFO, "Selecting invoice: 222 - None");
     (ERROR, "Error processing accounts: 'NoneType' object has no attribute 'strftime'")]
  ∧ fs Demo.garbled_first = Demo.fresh
  ∧ logged Demo.two_accounts
    = [(INFO, "Processing account: 111");
       (INFO, "Processing invoice: 05/03/2024");
       (INFO, "Selecting invoice: 111 - 2024-03-05 00:00:00");
       (INFO, "Downloading invoice: 111 - 2024-03-05 00:00:00");
       (INFO, "Download completed successfully: report.pdf");
       (INFO, "File saved as: conta_111_ref_2024-03_venc_2024-03-05_2024-03-10_report.pdf");
       (INFO, "Processing account: 222");
       (INFO, "Processing invoice: bad");
       (INFO, "Selecting invoice: 222 - None");
       (ERROR, "Error processing accounts: 'NoneType' object has no attribute 'strftime'")]
  ∧ fs Demo.two_accounts
    = <["/work/downloads/conta_111_ref_2024-03_venc_2024-03-05_2024-03-10_report.pdf"
        := File "%PDF"]> Demo.fresh.
Proof. repeat split; vm_compute; reflexivity. Qed.

(** ** Start-up where the staging directory is there *)

Lemma endswith_last (x : string) (c a : ascii) :
  PyStr.endswith (x +:+ String c EmptyString) (String a EmptyString) = Ascii.eqb a c.
Proof.
  unfold PyStr.endswith, String.rev. rewrite rev_app_append. simpl String.rev_app.
  apply startswith_char.
Qed.

Lemma staging_shape (cwd : string) :
  ∃ x, download_temp_dir cwd = x +:+ "p".
Proof.
  unfold download_temp_dir, OsPath.join.
  rewrite (startswith_char "t" "/" "mp"). simpl.
  destruct (_ || _)%bool.
  - exists (download_dir cwd +:+ "tm"). by rewrite append_assoc.
  - exists (download_dir cwd +:+ "/tm"). by rewrite !append_assoc.
Qed.

Lemma staging_entry (cwd n : string) :
  PyStr.truthy n = true → PyStr.mem "/" n = false →
  OsPath.join (download_temp_dir cwd) n = download_temp_dir cwd +:+ "/" +:+ n
  ∧ OsPath.join (download_temp_dir cwd) EmptyString = download_temp_dir cwd +:+ "/".
Proof.
  intros Hn Hslash. destruct (staging_shape cwd) as [x Hx].
  assert (PyStr.endswith (download_temp_dir cwd) "/" = false) as Hend.
  { rewrite Hx. by rewrite endswith_last. }
  assert (PyStr.truthy (download_temp_dir cwd) = true) as Htrue.
  { rewrite Hx. by destruct x. }
  unfold OsPath.join. rewrite Hend, Htrue. simpl negb. simpl orb.
  destruct n as [|c n]; [done|]. rewrite startswith_char.
  simpl in Hslash. rewrite Ascii.eqb_sym. destruct (Ascii.eqb c "/"); [done|]. done.
Qed.

Lemma strip_prefix_append (p n : string) : OsPath.strip_prefix p (p +:+ n) = Some n.
Proof.
  induction p as [|c p IH]; [done|]. rewrite append_cons. simpl.
  by rewrite Ascii.eqb_refl.
Qed.

Lemma entry_name_staging (cwd n : string) :
  PyStr.truthy n = true → PyStr.mem "/" n = false →
  Os.entry_name (download_temp_dir cwd) (OsPath.join (download_temp_dir cwd) n) = Some n.
Proof.
  intros Hn Hslash. destruct (staging_entry cwd n Hn Hslash) as [-> Hdir].
  unfold Os.entry_name. rewrite Hdir.
  rewrite <- append_assoc, strip_prefix_append. by rewrite Hn, Hslash.
Qed.


Section ClearFacts.
Context {B : Type}.
Variable cwd : string.

Lemma clear_entry_step (file : string) (w : world B) :
  ∃ w', clear_entry cwd file w = (inr Next, w')
        ∧ browser w' = browser w
        ∧ fs w' = (if Os.isfile (OsPath.join (download_temp_dir cwd) file) (fs w)
                   then delete (OsPath.join (download_temp_dir cwd) file) (fs w)
                   else fs w).
Proof.
  unfold clear_entry, Os.isfile.
  destruct (fs w !! OsPath.join (download_temp_dir cwd) file) as [[c|]|] eqn:E.
  - unfold mbind, M_bind, os_write, Os.unlink, log. rewrite E. simpl. eauto.
  - simpl. eauto.
  - simpl. eauto.
Qed.

End ClearFacts.


(** ** Witnesses of the general lemmas *)

(** The garbled token of account 222, first in the run. *)
Lemma undecodable_token_ends_run_witness :
  process_accounts Portal.driver Demo.cwd Demo.garbled_start
  = log_to ERROR "Error processing accounts: 'NoneType' object has no attribute 'strftime'"
      (log_to INFO "Selecting invoice: 222 - None" Demo.garbled_selected).
Proof.
  apply (undecodable_token_ends_run Portal.driver Demo.cwd
           Demo.garbled_start Demo.garbled_start Demo.garbled_start
           Demo.garbled_opened Demo.garbled_opened Demo.garbled_selected
           [] "222" ["111"]
           [] (Portal.InvoiceOption Demo.garbled.1 Demo.garbled.2)
           [Portal.InvoiceOption Demo.march.1 Demo.march.2]
           Demo.garbled.2);
    vm_compute; reflexivity.
Defined.

(** The short token of the specification's example. *)
Lemma parse_raises_only_on_short_tokens_witness :
  Exn IndexError "list index out of range" = Exn IndexError "list index out of range"
  ∧ (length (PyStr.split "|" "1/1/2024|2") < 3)%nat
  ∧ ∃ d, strptime_dmY (default EmptyString (PyStr.split "|" "1/1/2024|2" !! 0%nat)) = inr d.
Proof.
  apply (parse_raises_only_on_short_tokens "1/1/2024|2"
           (Exn IndexError "list index out of range")).
  reflexivity.
Defined.

(** A fourth segment after a good token. *)
Lemma extra_segments_ignored_witness :
  extract_and_parse_dates "1/1/2024|2|2024|x" = extract_and_parse_dates "1/1/2024|2|2024".
Proof. apply (extra_segments_ignored "1/1/2024" "2" "2024" "x"); reflexivity. Defined.

(** * Further properties *)

(** ** The retry wrapper: its work is bounded *)

Lemma retry_loop_tape {A : Type} (script : nat → result A) (retries : Z) (delay : N)
    (len a : nat) (t : tape) :
  calls t = a → Z.of_nat (a + S len) = retries →
  ∃ k, (k ≤ len)%nat
       ∧ (retry_loop tape_warning tape_sleep retries delay (scripted script)
            (Z.of_nat <$> seq a (S len)) t).2
         = retried retries delay a k (Tape (S (calls t)) (warnings t) (slept t)).
Proof.
  revert a t. induction len as [|len IH]; intros a t Ha Hlen.
  - exists 0%nat. split; [lia|]. cbn [seq fmap list_fmap retry_loop]. unfold scripted at 1.
    unfold retried. simpl. rewrite Nat.add_0_r, !app_nil_r.
    destruct (script (calls t)) as [e|v]; [|done].
    destruct (is_instance _ e); [|done].
    replace (Z.of_nat a =? retries - 1) with true by (symmetry; apply Z.eqb_eq; lia).
    done.
  - change (seq a (S (S len))) with (a :: seq (S a) (S len)).
    rewrite fmap_cons. cbn [retry_loop]. unfold scripted at 1.
    destruct (script (calls t)) as [e|v].
    + destruct (is_instance _ e).
      * destruct (Z.of_nat a =? retries - 1) eqn:Hlast; [apply Z.eqb_eq in Hlast; lia|].
        destruct (IH (S a)
                    (tape_sleep delay
                       (tape_warning (retry_message (Z.of_nat a) retries delay)
                          (Tape (S (calls t)) (warnings t) (slept t)))))
          as (k & Hk & Htape).
        { simpl. lia. }
        { lia. }
        exists (S k). split; [lia|].
        rewrite Htape. unfold retried, tape_sleep, tape_warning. simpl. f_equal.
        -- lia.
        -- by rewrite <- app_assoc.
        -- by rewrite <- app_assoc.
      * exists 0%nat. split; [lia|]. unfold retried. simpl.
        by rewrite Nat.add_0_r, !app_nil_r.
    + exists 0%nat. split; [lia|]. unfold retried. simpl.
      by rewrite Nat.add_0_r, !app_nil_r.
Qed.

(** X6. The work of the wrapper is bounded, whatever the wrapped operation
    does: with [retries <= 0] it is not invoked at all; with [retries > 0] it
    is invoked [k + 1] times for some [k < retries], and the wrapper has then
    logged exactly [k] warnings, for the attempts 1 to [k] in order, and
    slept exactly [k] times, each time for [delay]: never after the last
    invocation. *)
Theorem retry_work_is_bounded {A : Type} (script : nat → result A) (retries : Z) (delay : N) :
  (retries ≤ 0 → (run_scripted retries delay script).2 = Tape 0 [] [])
  ∧ (0 < retries →
     ∃ k : nat, Z.of_nat k < retries
       ∧ (run_scripted retries delay script).2 = retried retries delay 0 k (Tape 1 [] [])).
Proof.
  unfold run_scripted, retry_on_stale_element. split; intros H.
  - by rewrite range_nonpos.
  - unfold range. destruct (Z.to_nat retries) as [|len] eqn:E; [lia|].
    destruct (retry_loop_tape script retries delay len 0 (Tape 0 [] [])) as (k & Hk & Ht).
    + done.
    + lia.
    + exists k. split; [lia|]. exact Ht.
Qed.

Lemma retry_work_is_bounded_witness :
  let gone := Exn StaleElementReferenceException "Message: stale element reference" in
  (run_scripted 0 1 (λ _, inl gone : result nat)).2 = Tape 0 [] []
  ∧ ∃ k : nat, Z.of_nat k < 3
      ∧ (run_scripted 3 1 (λ _, inl gone : result nat)).2 = retried 3 1 0 k (Tape 1 [] []).
Proof.
  intros gone. split.
  - apply (proj1 (retry_work_is_bounded (λ _, inl gone : result nat) 0 1)). lia.
  - apply (proj2 (retry_work_is_bounded (λ _, inl gone : result nat) 3 1)). lia.
Defined.

(** ** [use_element_safely] *)

(** X7. [use_element_safely] is decorated with three attempts, so it never
    gives back the [None] of the decorator: its outcome is that of a run of
    its body.  A failure of the presence wait other than a stale reference
    (a timeout, say) leaves at once, with no warning and no sleep; when the
    wait and the scroll succeed at once, it returns after the one sleep of
    half a second. *)
Theorem use_element_safely_outcome {B E : Type} (drv : Driver B E) (loc : locator)
    (w : world B) :
  (∃ w0, use_element_safely drv loc w = passed_on (use_element_safely_body drv loc w0))
  ∧ (∀ e b, wait_presence drv loc (browser w) = (inl e, b) →
            exn_cls e ≠ StaleElementReferenceException →
            use_element_safely drv loc w = (inl e, World (fs w) b (logged w)))
  ∧ (∀ element b b', wait_presence drv loc (browser w) = (inr element, b) →
            scroll_into_view drv element b = (inr tt, b') →
            use_element_safely drv loc w
            = (inr (Returned tt), sleep_ms drv 500 (World (fs w) b' (logged w)))).
Proof.
  split; [|split].
  - apply retry_loop_passes_on. by apply range_last.
  - intros e b Hwait Hother. unfold use_element_safely, retry_on_stale_element.
    change (range 3) with [0; 1; 2]. cbn [retry_loop].
    unfold use_element_safely_body at 1, mbind, M_bind, ui. rewrite Hwait.
    by rewrite (is_instance_false _ _ Hother).
  - intros element b b' Hwait Hscroll. unfold use_element_safely, retry_on_stale_element.
    change (range 3) with [0; 1; 2]. cbn [retry_loop].
    unfold use_element_safely_body at 1, mbind, M_bind, ui, time_sleep. rewrite Hwait.
    simpl. by rewrite Hscroll.
Qed.

(** ** The watcher: what a verdict says *)

Lemma scan_some file_type files f :
  scan file_type files = Some f →
  f ∈ files ∧ PyStr.endswith (PyStr.lower f) file_type = true
  ∧ ∀ g, g ∈ files → is_incomplete g = false.
Proof.
  unfold scan. destruct (existsb is_incomplete files) eqn:Hex; [done|]. intros Hhead.
  assert (f ∈ List.filter (λ g, PyStr.endswith (PyStr.lower g) file_type) files) as Hin.
  { destruct (List.filter _ files) as [|x l]; [done|]. injection Hhead as ->.
    apply list_elem_of_here. }
  apply list_elem_of_In, filter_In in Hin as [Hin Hf].
  split; [by apply list_elem_of_In|]. split; [done|].
  intros g Hg. destruct (is_incomplete g) eqn:Hg'; [|done].
  assert (existsb is_incomplete files = true); [|congruence].
  apply existsb_exists. exists g. split; [by apply list_elem_of_In|done].
Qed.

Lemma scan_none file_type files :
  scan file_type files = None → still_waiting file_type files.
Proof.
  unfold scan. destruct (existsb is_incomplete files) eqn:Hex.
  - intros _. left. apply existsb_exists in Hex as (g & Hg & Hm).
    exists g. split; [by apply list_elem_of_In|done].
  - intros Hhead. right. intros g Hg.
    destruct (PyStr.endswith (PyStr.lower g) file_type) eqn:Hend; [|done].
    assert (g ∈ List.filter (λ g, PyStr.endswith (PyStr.lower g) file_type) files) as Hin.
    { apply list_elem_of_In, filter_In. split; [by apply list_elem_of_In|done]. }
    destruct (List.filter _ files); [by apply elem_of_nil in Hin|done].
Qed.

Section WatcherSound.
Context {B E : Type}.
Variable drv : Driver B E.
Variable cwd : string.

Lemma waited_S file_type i w files :
  listing drv cwd 1 w = inr files → scan file_type files = None →
  waited drv cwd file_type i (sleep_ms drv 1000 w) → waited drv cwd file_type (S i) w.
Proof.
  intros H1 Hs Hw j Hj. destruct (decide (j = 1%nat)) as [->|Hne]; [by exists files|].
  destruct j as [|j]; [lia|]. destruct (Hw j ltac:(lia)) as (fj & Hl & Hsj).
  exists fj. split; [|done]. unfold listing in *. by rewrite at_poll_S.
Qed.

Lemma wait_loop_sound (n : nat) (file_type : string) (w : world B) :
  ∃ i, (i ≤ n)%nat ∧ (wait_loop drv cwd n file_type w).2 = at_poll drv i w
       ∧ waited drv cwd file_type i w
       ∧ match (wait_loop drv cwd n file_type w).1 with
         | inr (true, Some p) =>
             ∃ files f, (1 ≤ i)%nat ∧ listing drv cwd i w = inr files
                        ∧ scan file_type files = Some f
                        ∧ p = OsPath.join (download_temp_dir cwd) f
         | inr (false, None) => i = n ∧ waited drv cwd file_type (S n) w
         | inr _ => False
         | inl e => (1 ≤ i)%nat ∧ listing drv cwd i w = inl e
         end.
Proof.
  revert w. induction n as [|n IH]; intros w.
  - exists 0%nat. simpl. split; [done|]. split; [done|]. split; [intros j Hj; lia|].
    split; [done|]. intros j Hj; lia.
  - rewrite wait_loop_step.
    destruct (Os.listdir (download_temp_dir cwd) (fs (sleep_ms drv 1000 w)))
      as [e|files] eqn:Hlist.
    + exists 1%nat. simpl. split; [lia|]. split; [done|]. split; [intros j Hj; lia|].
      split; [lia|done].
    + destruct (scan file_type files) as [f|] eqn:Hscan.
      * exists 1%nat. simpl. split; [lia|]. split; [done|]. split; [intros j Hj; lia|].
        exists files, f. split; [lia|]. done.
      * destruct (IH (sleep_ms drv 1000 w)) as (i & Hi & Hw' & Hwaited & Hres).
        exists (S i). split; [lia|]. split; [by rewrite at_poll_S|].
        split; [by eapply waited_S|].
        destruct (wait_loop drv cwd n file_type (sleep_ms drv 1000 w)) as [[e|[[|] [p|]]] w'];
          simpl in *; try done.
        -- destruct Hres as [Hi1 Hl]. split; [lia|]. unfold listing in *.
           by rewrite at_poll_S.
        -- destruct Hres as (fi & f & Hi1 & Hl & Hs & ->). exists fi, f.
           split; [lia|]. split; [|done]. unfold listing in *. by rewrite at_poll_S.
        -- destruct Hres as [-> Hlast]. split; [done|]. by eapply waited_S.
Qed.
End WatcherSound.

Lemma head_filter_first (P : string → bool) (files : list string) (f : string) :
  head (List.filter P files) = Some f → first_with P files f.
Proof.
  induction files as [|x l IH]; [done|]. simpl. destruct (P x) eqn:Hx.
  - intros [= ->]. exists [], l. split; [done|]. split; [done|].
    intros g Hg. by apply elem_of_nil in Hg.
  - intros H. destruct (IH H) as (pre & post & -> & Hf & Hpre).
    exists (x :: pre), post. split; [done|]. split; [done|].
    intros g Hg. apply elem_of_cons in Hg as [->|Hg]; [done|]. by apply Hpre.
Qed.

Lemma scan_some_first file_type files f :
  scan file_type files = Some f →
  ¬ in_progress files
  ∧ first_with (λ g, PyStr.endswith (PyStr.lower g) file_type) files f.
Proof.
  intros H. split.
  - intros (g & Hg & Hm). destruct (scan_some _ _ _ H) as (_ & _ & Hnone).
    rewrite (Hnone g Hg) in Hm. done.
  - unfold scan in H. destruct (existsb is_incomplete files); [done|].
    by apply head_filter_first.
Qed.

(** X8. Whatever the browser does, a verdict of the watcher says what it
    saw.  It made [i] passes, at most [timeout], one sleep of a second before
    each, and every pass before the last saw a marker or no name of the type.
    Success comes with a path: that of the first name of the type in the
    listing of pass [i], a listing free of markers, inside the staging
    directory.  Failure comes with no path, after all [timeout] passes, the
    last as fruitless as the others.  There is no other verdict, and the only
    exception is the one [os.listdir] raised on pass [i]. *)
Theorem watcher_verdict_sound {B E : Type} (drv : Driver B E) (cwd : string)
    (timeout : Z) (file_type : string) (w : world B) :
  let out := wait_for_download_complete drv cwd timeout file_type w in
  ∃ i : nat,
    (i ≤ Z.to_nat timeout)%nat
    ∧ out.2 = at_poll drv i w
    ∧ (∀ j, (1 ≤ j < i)%nat →
            ∃ files, listing drv cwd j w = inr files ∧ still_waiting file_type files)
    ∧ match out.1 with
      | inr (true, Some p) =>
          ∃ files f,
            (1 ≤ i)%nat ∧ listing drv cwd i w = inr files
            ∧ ¬ in_progress files
            ∧ first_with (λ g, PyStr.endswith (PyStr.lower g) file_type) files f
            ∧ p = OsPath.join (download_temp_dir cwd) f
      | inr (false, None) =>
          i = Z.to_nat timeout
          ∧ ∀ j, (1 ≤ j ≤ i)%nat →
                 ∃ files, listing drv cwd j w = inr files ∧ still_waiting file_type files
      | inr _ => False
      | inl e => (1 ≤ i)%nat ∧ listing drv cwd i w = inl e
      end.
Proof.
  intros out. subst out. unfold wait_for_download_complete.
  destruct (wait_loop_sound drv cwd (Z.to_nat timeout) file_type w)
    as (i & Hi & Hw & Hwaited & Hres).
  exists i. split; [done|]. split; [done|]. split.
  { intros j Hj. destruct (Hwaited j Hj) as (files & Hl & Hs).
    exists files. split; [done|]. by apply scan_none. }
  destruct (wait_loop drv cwd (Z.to_nat timeout) file_type w) as [[e|[[|] [p|]]] w'];
    simpl in *; try done.
  - destruct Hres as (files & f & Hi1 & Hl & Hs & ->).
    destruct (scan_some_first _ _ _ Hs) as [Hno Hfirst].
    exists files, f. done.
  - destruct Hres as [-> Hall]. split; [done|]. intros j Hj.
    destruct (Hall j ltac:(lia)) as (files & Hl & Hs).
    exists files. split; [done|]. by apply scan_none.
Qed.

(** ** The archive: extension, content, count *)

Lemma join_suffix (d x : string) : ∃ pre, OsPath.join d x = pre +:+ x.
Proof.
  unfold OsPath.join. destruct (PyStr.startswith x "/"); [by exists EmptyString|].
  destruct (_ || _)%bool; [by exists d|]. exists (d +:+ "/"). by rewrite append_assoc.
Qed.


(** ** Where [shutil.move] can put a file *)

Lemma startswith_nil (s : string) : PyStr.startswith s EmptyString = true.
Proof. by destruct s. Qed.

Lemma startswith_prefix (s p : string) :
  PyStr.startswith s p = true → ∃ t, s = p +:+ t.
Proof.
  revert s. induction p as [|a p IH]; intros s H; [by exists s|].
  destruct s as [|b s]; [done|]. simpl in H.
  destruct (Ascii.eqb a b) eqn:E; [|done]. apply Ascii.eqb_eq in E as ->.
  destruct (IH s H) as [t ->]. by exists t.
Qed.

Lemma rev_involutive (s : string) : String.rev (String.rev s) = s.
Proof. induction s as [|c s IH]; [done|]. by rewrite rev_cons, rev_append, IH. Qed.

Lemma endswith_sep (p : string) : PyStr.endswith p "/" = true → ∃ q, p = q +:+ "/".
Proof.
  unfold PyStr.endswith. intros H. apply startswith_prefix in H as [t Ht].
  exists (String.rev t). rewrite <- (rev_involutive p), Ht.
  change (String.rev "/" +:+ t) with (String "/" t). by rewrite rev_cons.
Qed.

Lemma add_sep_shape (p : string) : ∃ q, OsPath.add_sep p = q +:+ "/".
Proof.
  unfold OsPath.add_sep. destruct (PyStr.endswith p "/") eqn:E; [by apply endswith_sep|].
  by exists p.
Qed.

(** What has no slash in it is below no directory, and put at the end of a
    path it does not take the path below one. *)
Lemma startswith_dir_noslash (s q : string) :
  PyStr.mem "/" s = false → PyStr.startswith s (q +:+ "/") = false.
Proof.
  revert s. induction q as [|a q IH]; intros s Hs.
  - destruct s as [|b s]; [done|]. change (EmptyString +:+ "/") with "/".
    cbn [PyStr.startswith PyStr.mem] in *.
    destruct (Ascii.eqb "/" b) eqn:E; [|done].
    apply Ascii.eqb_eq in E as <-. by rewrite Ascii.eqb_refl in Hs.
  - rewrite append_cons. destruct s as [|b s]; [done|]. cbn [PyStr.startswith].
    destruct (Ascii.eqb a b); [|done]. apply IH. cbn [PyStr.mem] in Hs.
    by destruct (Ascii.eqb b "/").
Qed.

Lemma startswith_app_noslash (j s q : string) :
  PyStr.mem "/" s = false →
  PyStr.startswith (j +:+ s) (q +:+ "/") = PyStr.startswith j (q +:+ "/").
Proof.
  intros Hs. revert q. induction j as [|b j IH]; intros q.
  - change (EmptyString +:+ s) with s. rewrite startswith_dir_noslash by done.
    by destruct q.
  - rewrite append_cons. destruct q as [|a q].
    + change (EmptyString +:+ "/") with "/". cbn [PyStr.startswith].
      by rewrite !startswith_nil.
    + rewrite append_cons. cbn [PyStr.startswith]. destruct (Ascii.eqb a b); [apply IH|done].
Qed.

Lemma head_noslash (s : string) : PyStr.mem "/" s = false → OsPath.head s = EmptyString.
Proof.
  destruct s as [|c s]; [done|]. simpl.
  destruct (Ascii.eqb c "/"); [done|]. by intros ->.
Qed.

Lemma head_app_noslash (j s : string) :
  PyStr.mem "/" s = false → OsPath.head (j +:+ s) = OsPath.head j.
Proof.
  intros Hs. induction j as [|c j IH]; [by apply head_noslash|].
  rewrite append_cons. cbn [OsPath.head]. by rewrite mem_app, Hs, orb_false_r, IH.
Qed.

Lemma dirname_app_noslash (j s : string) :
  PyStr.mem "/" s = false → OsPath.dirname (j +:+ s) = OsPath.dirname j.
Proof. intros Hs. unfold OsPath.dirname. by rewrite head_app_noslash. Qed.

(** The head of a path is empty or ends with the last slash of the path. *)
Lemma head_shape (p : string) :
  if PyStr.mem "/" p then ∃ h, OsPath.head p = h +:+ "/" else OsPath.head p = EmptyString.
Proof.
  induction p as [|c p IH]; [done|]. cbn [OsPath.head PyStr.mem].
  destruct (Ascii.eqb c "/") eqn:E; destruct (PyStr.mem "/" p).
  - destruct IH as [h ->]. by exists (String c h).
  - by exists EmptyString.
  - destruct IH as [h ->]. by exists (String c h).
  - done.
Qed.

Lemma rstrip_slash_sep (s : string) :
  OsPath.rstrip_slash (s +:+ "/") = OsPath.rstrip_slash s.
Proof.
  induction s as [|c s IH]; [done|]. rewrite append_cons.
  cbn [OsPath.rstrip_slash]. by rewrite IH.
Qed.

Lemma rstrip_slash_split (s : string) :
  ∃ t, s = OsPath.rstrip_slash s +:+ t ∧ OsPath.all_slashes t = true.
Proof.
  induction s as [|c s (t & Hs & Ht)]; [by exists EmptyString|].
  cbn [OsPath.rstrip_slash]. destruct (OsPath.rstrip_slash s) as [|c' r].
  - simpl in Hs. destruct (Ascii.eqb c "/") eqn:Ec.
    + exists (String c s). split; [done|]. simpl. by rewrite Ec, Hs.
    + exists s. split; [done|]. by rewrite Hs.
  - exists t. split; [|done]. rewrite append_cons. by f_equal.
Qed.

Lemma slashes_sep (t : string) : OsPath.all_slashes t = true → t +:+ "/" = String "/" t.
Proof.
  induction t as [|c t IH]; [done|]. cbn [OsPath.all_slashes]. rewrite append_cons.
  destruct (Ascii.eqb c "/") eqn:E; [|done].
  apply Ascii.eqb_eq in E as ->. intros H. by rewrite IH.
Qed.

Lemma startswith_add_sep (r rest : string) :
  PyStr.startswith (r +:+ "/" +:+ rest) (OsPath.add_sep r) = true.
Proof.
  unfold OsPath.add_sep. destruct (PyStr.endswith r "/"); [apply startswith_app|].
  rewrite <- append_assoc. apply startswith_app.
Qed.

(** A path with a directory part lies below its directory. *)
Lemma below_dirname (p : string) :
  PyStr.truthy (OsPath.head p) = true →
  PyStr.startswith p (OsPath.add_sep (OsPath.dirname p)) = true.
Proof.
  intros Hh. unfold OsPath.dirname. rewrite Hh.
  pose proof (head_shape p) as Hshape.
  destruct (PyStr.mem "/" p); [|by rewrite Hshape in Hh].
  destruct Hshape as [h0 Hh0]. rewrite Hh0.
  destruct (OsPath.all_slashes (h0 +:+ "/")) eqn:Hall; simpl.
  - unfold OsPath.add_sep. rewrite endswith_app.
    rewrite <- (head_basename p) at 1. rewrite Hh0. apply startswith_app.
  - rewrite rstrip_slash_sep.
    destruct (rstrip_slash_split h0) as (t & Hsplit & Ht).
    set (r := OsPath.rstrip_slash h0) in *.
    assert (p = r +:+ "/" +:+ (t +:+ OsPath.basename p)) as Hp.
    { rewrite <- (head_basename p) at 1. rewrite Hh0, Hsplit.
      rewrite !append_assoc. f_equal. rewrite <- append_assoc, (slashes_sep t Ht). done. }
    rewrite Hp at 1. apply startswith_add_sep.
Qed.

(** When [Os.landing] lets a path through. *)
Lemma landing_returns (src dst : string) (n : node) (fs : gmap string node) :
  Os.landing src dst n fs = inr tt →
  PyStr.startswith dst (OsPath.add_sep src) = false ∧ Os.parent_dir dst fs = inr tt.
Proof.
  unfold Os.landing, Os.lands. destruct (PyStr.startswith _ _); [by destruct n|]. done.
Qed.

(** Two names in the same directory: where the one can go, the other can,
    as long as the directory stays. *)
Lemma landing_beside (src j s s' : string) (n n' : node) (fs fs' : gmap string node) :
  PyStr.mem "/" s = false → PyStr.mem "/" s' = false →
  Os.landing src (j +:+ s) n fs = inr tt →
  (fs !! OsPath.dirname (j +:+ s) = Some Dir → fs' !! OsPath.dirname (j +:+ s) = Some Dir) →
  Os.landing src (j +:+ s') n' fs' = inr tt.
Proof.
  intros Hs Hs' Hland Hdir. apply landing_returns in Hland as [Hout Hpar].
  destruct (add_sep_shape src) as [q Hq].
  rewrite Hq, startswith_app_noslash in Hout by done.
  unfold Os.landing, Os.lands. rewrite Hq, startswith_app_noslash, Hout by done.
  unfold Os.parent_dir in *. rewrite dirname_app_noslash in * by done.
  destruct (negb _ || _)%bool; [done|].
  destruct (fs !! OsPath.dirname j) as [[c|]|]; try done. by rewrite Hdir.
Qed.

(** The new name is the original name after a stem that is not empty. *)
Lemma new_name_shape today pfx :
  ∃ x, PyStr.truthy x = true ∧ ∀ base, new_name today pfx base = x +:+ base.
Proof.
  unfold new_name. destruct pfx as [|c pfx]; cbn [PyStr.truthy].
  - exists (strftime_Ymd today +:+ "_"). split; [by destruct (strftime_Ymd today)|].
    intros base. by rewrite append_assoc.
  - exists (String c pfx +:+ "_" +:+ strftime_Ymd today +:+ "_"). split; [done|].
    intros base. by rewrite !append_assoc.
Qed.

Lemma pretty_N_char_noslash (x : N) : Ascii.eqb (pretty_N_char x) "/" = false.
Proof. unfold pretty_N_char. by repeat case_match. Qed.

Lemma pretty_N_go_noslash (x : N) (s : string) :
  PyStr.mem "/" s = false → PyStr.mem "/" (pretty_N_go x s) = false.
Proof.
  revert s. induction (N.lt_wf_0 x) as [x _ IH]; intros s Hs.
  assert (x = 0 ∨ 0 < x)%N as [->|Hx] by lia.
  - by rewrite pretty_N_go_0.
  - rewrite pretty_N_go_step by done. apply IH; [by apply N.div_lt|].
    simpl. by rewrite pretty_N_char_noslash.
Qed.

Lemma pretty_N_noslash (x : N) : PyStr.mem "/" (pretty x) = false.
Proof.
  unfold pretty, pretty_N. destruct (decide _); [done|]. by apply pretty_N_go_noslash.
Qed.

Lemma pretty_nat_noslash (k : nat) : PyStr.mem "/" (pretty k) = false.
Proof. apply pretty_N_noslash. Qed.

Lemma basename_noslash (p : string) : PyStr.mem "/" (OsPath.basename p) = false.
Proof.
  induction p as [|c p IH]; [done|]. cbn [OsPath.basename].
  destruct (PyStr.mem "/" p) eqn:Hm; [done|].
  destruct (Ascii.eqb c "/") eqn:E; [done|]. simpl. by rewrite E.
Qed.

Lemma splitext_noslash (p : string) :
  PyStr.mem "/" p = false →
  PyStr.mem "/" (OsPath.splitext p).1 = false ∧ PyStr.mem "/" (OsPath.splitext p).2 = false.
Proof.
  intros H. rewrite <- (splitext_join p), mem_app in H. by apply orb_false_elim in H.
Qed.

(** The candidates are one path with endings that have no slash in them, so
    they all lie in one directory. *)
Lemma candidate_shape d today pfx source :
  let name := new_name today pfx (OsPath.splitext (OsPath.basename source)).1 in
  let ext := (OsPath.splitext (OsPath.basename source)).2 in
  ∃ j, ∀ k, ∃ s, candidate d name ext k = j +:+ s ∧ PyStr.mem "/" s = false.
Proof.
  intros name ext. destruct (new_name_shape today pfx) as (x & Hx & Hname).
  destruct (splitext_noslash (OsPath.basename source) (basename_noslash source)) as [Hb He].
  exists (OsPath.join d x).
  intros [|k]; unfold candidate, name; rewrite Hname, append_assoc, join_app by done.
  - eexists. split; [done|]. by rewrite mem_app, Hb.
  - eexists. split; [done|]. by rewrite !mem_app, Hb, pretty_nat_noslash.
Qed.














Lemma move_and_rename_file_some d today source pfx (fs fs' : gmap string node) p :
  move_and_rename_file d today source pfx fs = (inr (Some p), fs') →
  source ≠ EmptyString ∧ ∃ n, fs !! source = Some n.
Proof.
  unfold move_and_rename_file. destruct source as [|c s]; [done|]. simpl negb. simpl orb.
  destruct (Os.path_exists (String c s) fs) eqn:Hex; [|done]. intros _.
  split; [done|]. apply path_exists_true in Hex as [n Hn]. by exists n.
Qed.


(** ** Two downloads of the same name *)

(** X10. Two downloads of the same name, archived one after the other under
    the same prefix on the same day: the second goes to another path than the
    first, and afterwards both are in the archive, each with its content. *)
Theorem archive_twice_keeps_both download_dir today source pfx
    (fs fs1 : gmap string node) (first second : node) (p1 : string) :
  fs !! source = Some first →
  move_and_rename_file download_dir today source pfx fs = (inr (Some p1), fs1) →
  ∃ p2 fs2,
    move_and_rename_file download_dir today source pfx (<[source := second]> fs1)
    = (inr (Some p2), fs2)
    ∧ p2 ≠ p1
    ∧ fs2 !! p1 = Some first
    ∧ fs2 !! p2 = Some second.
Proof.
  intros Hsrc Hrun.
  destruct (move_and_rename_file_some _ _ _ _ _ _ _ Hrun) as (Hne & _).
  destruct (move_and_rename_file_outcome download_dir today source pfx fs first Hne Hsrc)
    as (k & Hout & Hfree & _).
  rewrite Hout in Hrun.
  destruct (candidate_shape download_dir today pfx source) as (j & Hshape).
  set (name := new_name today pfx (OsPath.splitext (OsPath.basename source)).1) in *.
  set (ext := (OsPath.splitext (OsPath.basename source)).2) in *.
  destruct (Os.landing source (candidate download_dir name ext k) first fs) as [e|[]] eqn:Hland;
    [done|].
  injection Hrun as <- <-.
  set (fs1 := <[candidate download_dir name ext k := first]> (delete source fs)).
  assert (candidate download_dir name ext k ≠ source) as Hdiff by congruence.
  destruct (move_and_rename_file_outcome download_dir today source pfx
              (<[source := second]> fs1) second Hne) as (k2 & Hout2 & Hfree2 & _).
  { apply lookup_insert_eq. }
  fold name ext in Hout2, Hfree2.
  assert (candidate download_dir name ext k2 ≠ candidate download_dir name ext k) as Hk.
  { intros Heq. rewrite Heq in Hfree2. rewrite lookup_insert_ne in Hfree2 by done.
    unfold fs1 in Hfree2. by rewrite lookup_insert_eq in Hfree2. }
  assert (Os.landing source (candidate download_dir name ext k2) second
            (<[source := second]> fs1) = inr tt) as Hland2.
  { destruct (Hshape k) as (s & Hs & Hslash). destruct (Hshape k2) as (s2 & Hs2 & Hslash2).
    rewrite Hs2. rewrite Hs in Hland, Hfree.
    apply (landing_beside source j s s2 first second fs); [done..|].
    intros Hdir.
    assert (OsPath.dirname (j +:+ s) ≠ j +:+ s) as Hd1 by congruence.
    assert (OsPath.dirname (j +:+ s) ≠ source) as Hd2.
    { intros Heq. apply landing_returns in Hland as [Hnotin _].
      destruct (PyStr.truthy (OsPath.head (j +:+ s))) eqn:Hhead.
      - apply below_dirname in Hhead. rewrite Heq in Hhead. congruence.
      - unfold OsPath.dirname in Heq. rewrite Hhead in Heq. simpl in Heq.
        destruct (OsPath.head (j +:+ s)); [by subst source|done]. }
    rewrite lookup_insert_ne by done. unfold fs1. rewrite Hs.
    rewrite lookup_insert_ne by done. by rewrite lookup_delete_ne. }
  rewrite Hland2 in Hout2.
  eexists _, _. split; [exact Hout2|]. split; [done|]. split.
  - rewrite lookup_insert_ne by done. rewrite lookup_delete_ne by done.
    rewrite lookup_insert_ne by done. apply lookup_insert_eq.
  - apply lookup_insert_eq.
Qed.

(** ** After a verdict of success *)

Section AfterDownload.
Context {B E : Type}.
Variable drv : Driver B E.
Variable cwd : string.

(** X11. Lines 352 to 361 on a verdict of success; the browser is not
    touched.  Where the file is not there, the file system is as it was, the
    second record is [Error moving downloaded file] and the loop goes on.
    Where it is there, the name picked is the first free candidate.  If
    [shutil.move] can put the file there ([Os.landing]), the loop goes on to
    the next invoice, the file is gone from its place (the next pass of the
    watcher cannot take it for the next invoice), it sits at the name picked,
    and the two records are logged.  If it cannot, line 356 raises, in no
    [try] of the loop body: for a regular file, the exception of
    [shutil.move] is the outcome, the file system is as it was and only the
    first record is logged. *)
Theorem downloaded_file_leaves_staging (pfx path : string) (w : world B) :
  path ≠ EmptyString →
  let out := after_download drv cwd pfx (true, Some path) w in
  let name := new_name (now drv (browser w)) pfx (OsPath.splitext (OsPath.basename path)).1 in
  let ext := (OsPath.splitext (OsPath.basename path)).2 in
  browser out.2 = browser w
  ∧ match fs w !! path with
    | Some n =>
        ∃ k : nat,
          let dest := candidate (download_dir cwd) name ext k in
          fs w !! dest = None
          ∧ (∀ j, (j < k)%nat → is_Some (fs w !! candidate (download_dir cwd) name ext j))
          ∧ match Os.landing path dest n (fs w) with
            | inr _ =>
                out.1 = inr Next
                ∧ fs out.2 !! path = None
                ∧ fs out.2 !! dest = Some n
                ∧ logged out.2
                  = logged w
                      ++ [(INFO, "Download completed successfully: " +:+ OsPath.basename path);
                          (INFO, "File saved as: " +:+ OsPath.basename dest)]
            | inl e =>
                n ≠ Dir →
                out.1 = inl e
                ∧ fs out.2 = fs w
                ∧ logged out.2
                  = logged w
                      ++ [(INFO, "Download completed successfully: " +:+ OsPath.basename path)]
            end
    | None =>
        out.1 = inr Next
        ∧ fs out.2 = fs w
        ∧ logged out.2
          = logged w ++ [(INFO, "Download completed successfully: " +:+ OsPath.basename path);
                         (INFO, "Error moving downloaded file")]
    end.
Proof.
  intros Hne out name ext. subst out. unfold after_download. simpl fst. simpl snd.
  simpl default. unfold mbind, M_bind, log, archive. simpl.
  destruct (fs w !! path) as [n|] eqn:Hsrc.
  - destruct (move_and_rename_file_outcome (download_dir cwd) (now drv (browser w)) path pfx
                (fs w) n Hne Hsrc) as (k & Hout & Hfree & Hbelow).
    fold name ext in Hout, Hfree, Hbelow. rewrite Hout.
    destruct (Os.landing path (candidate (download_dir cwd) name ext k) n (fs w))
      as [e|u] eqn:Hland.
    + simpl. split; [done|]. exists k. simpl. rewrite Hland. done.
    + simpl. split; [done|]. exists k. simpl. rewrite Hland.
      assert (candidate (download_dir cwd) name ext k ≠ path) as Hdiff by congruence.
      split; [done|]. split; [done|]. split; [done|]. split.
      { rewrite lookup_insert_ne by done. apply lookup_delete_eq. }
      split; [apply lookup_insert_eq|]. by rewrite <- app_assoc.
  - rewrite move_and_rename_file_absent by done. simpl. split; [done|]. split; [done|].
    split; [done|]. by rewrite <- app_assoc.
Qed.
End AfterDownload.

(** ** The parser gives calendar dates *)

Lemma make_datetime_is_date (y m d : N) dt : make_datetime y m d = inr dt → is_date dt ∧ dt = Datetime y m d.
Proof.
  unfold make_datetime. destruct (_ && _)%bool eqn:E; [|done]. intros [= <-].
  repeat (apply andb_true_iff in E as [E ?]).
  unfold is_date. simpl. split; [|done]. repeat split; by apply N.leb_le.
Qed.

(** X12. What [extract_and_parse_dates] returns is [(None, None)] or two
    dates of the calendar (year 1 to 9999, month 1 to 12, a day of that
    month), the second on the first of its month, and the latter only for a
    token of three segments or more. *)
Theorem parsed_dates_are_calendar_dates (s : string) (d1 d2 : option datetime) :
  extract_and_parse_dates s = inr (d1, d2) →
  (d1 = None ∧ d2 = None)
  ∨ ∃ due ref, d1 = Some due ∧ d2 = Some ref ∧ is_date due ∧ is_date ref ∧ day ref = 1%N
               ∧ (3 ≤ length (PyStr.split "|" s))%nat.
Proof.
  unfold extract_and_parse_dates.
  destruct (parse_dates_body (PyStr.split "|" s)) as [e|[due ref]] eqn:Hbody.
  - destruct (is_instance ValueError e); [|done]. intros [= <- <-]. by left.
  - intros [= <- <-]. right. exists due, ref. split; [done|]. split; [done|].
    unfold parse_dates_body in Hbody.
    destruct (strptime_dmY _) as [e|first_date] eqn:H1; [done|].
    unfold index in Hbody.
    destruct (PyStr.split "|" s !! 1%nat) as [p1|] eqn:Hp1; [|done].
    destruct (PyStr.split "|" s !! 2%nat) as [p2|] eqn:Hp2; [|done].
    destruct (strptime_mY _) as [e|second_date] eqn:H2; [done|].
    injection Hbody as -> ->.
    unfold strptime_dmY in H1. destruct (full_match _ _) as [e|(d, (u, (m, (u', y))))]; [done|].
    apply make_datetime_is_date in H1 as [Hdue _].
    unfold strptime_mY in H2. destruct (full_match _ _) as [e|(m', (u'', y'))]; [done|].
    apply make_datetime_is_date in H2 as [Href ->].
    split; [done|]. split; [done|]. split; [done|].
    apply lookup_lt_Some in Hp2. lia.
Qed.


(** ** Start-up deletes nothing outside the staging directory *)

Lemma listdir_names (d : string) (f : gmap string node) files n :
  Os.listdir d f = inr files → n ∈ files →
  PyStr.truthy n = true ∧ PyStr.mem "/" n = false.
Proof.
  unfold Os.listdir. destruct (f !! d) as [[c|]|]; [done| |done].
  intros [= <-] Hn. apply list_elem_of_omap in Hn as (kv & _ & Hname).
  unfold Os.entry_name in Hname. destruct (OsPath.strip_prefix _ _) as [m|]; [|done].
  destruct (PyStr.truthy m && negb (PyStr.mem "/" m))%bool eqn:E; [|done].
  injection Hname as <-. apply andb_true_iff in E as [Ht Hs].
  split; [done|]. by apply negb_true_iff.
Qed.

Section ClearFrame.
Context {B : Type}.
Variable cwd : string.

Lemma clear_loop_frame (files : list string) (w : world B) :
  (∀ n, n ∈ files → PyStr.truthy n = true ∧ PyStr.mem "/" n = false) →
  browser (for_each (clear_entry cwd) files w).2 = browser w
  ∧ ∀ p, Os.entry_name (download_temp_dir cwd) p = None →
         fs (for_each (clear_entry cwd) files w).2 !! p = fs w !! p.
Proof.
  revert w. induction files as [|file files IH]; intros w Hnames; [done|].
  destruct (clear_entry_step cwd file w) as (w1 & Hstep & Hb & Hfs).
  assert (for_each (clear_entry cwd) (file :: files) w
          = for_each (clear_entry cwd) files w1) as ->.
  { cbn [for_each]. unfold mbind, M_bind. by rewrite Hstep. }
  destruct (IH w1) as [Hb1 Hfs1].
  { intros n Hn. apply Hnames. by apply list_elem_of_further. }
  split; [congruence|]. intros p Hp. rewrite (Hfs1 p Hp), Hfs.
  destruct (Os.isfile _ _); [|done]. apply lookup_delete_ne. intros <-.
  destruct (Hnames file (list_elem_of_here _ _)) as [Ht Hs].
  by rewrite (entry_name_staging cwd file Ht Hs) in Hp.
Qed.

Lemma clear_tmp_directory_frame (w : world B) :
  browser (clear_tmp_directory cwd w).2 = browser w
  ∧ ∀ p, Os.entry_name (download_temp_dir cwd) p = None →
         fs (clear_tmp_directory cwd w).2 !! p = fs w !! p.
Proof.
  unfold clear_tmp_directory, mbind, M_bind, os_read, log.
  set (w1 := log_to DEBUG _ w).
  destruct (Os.listdir (download_temp_dir cwd) (fs w1)) as [e|files] eqn:Hlist; [done|].
  destruct (clear_loop_frame files w1) as [Hb Hfs].
  { intros n Hn. by eapply listdir_names. }
  destruct (for_each (clear_entry cwd) files w1) as [[e|fl] w2]; simpl in *; done.
Qed.
End ClearFrame.

(** X13. Whether [__init__] returns or raises, it does not touch the browser,
    and every entry of the file system that is not directly in the staging
    directory is afterwards where and what it was: the archived invoices, the
    two directories, and what lies in sub-directories of the staging
    directory. *)
Theorem init_spares_what_is_outside_staging {B : Type} (cwd : string) (w : world B) :
  browser (scraper_init cwd w).2 = browser w
  ∧ ∀ p x, fs w !! p = Some x →
           Os.entry_name (download_temp_dir cwd) p = None →
           fs (scraper_init cwd w).2 !! p = Some x.
Proof.
  unfold scraper_init, mbind, M_bind, os_write, Os.makedirs_exist_ok.
  destruct (fs w !! download_dir cwd) as [[c|]|] eqn:E.
  - done.
  - destruct (clear_tmp_directory_frame cwd (World (fs w) (browser w) (logged w)))
      as [Hb Hfs].
    destruct (clear_tmp_directory cwd (World (fs w) (browser w) (logged w))) as [[e|u] w'];
      simpl in *; (split; [done|]); intros p x Hp Hout; by rewrite (Hfs p Hout).
  - destruct (clear_tmp_directory_frame cwd
                (World (<[download_dir cwd := Dir]> (fs w)) (browser w) (logged w)))
      as [Hb Hfs].
    destruct (clear_tmp_directory cwd
                (World (<[download_dir cwd := Dir]> (fs w)) (browser w) (logged w)))
      as [[e|u] w'];
      simpl in *; (split; [done|]); intros p x Hp Hout; rewrite (Hfs p Hout);
      (rewrite lookup_insert_ne; [done|congruence]).
Qed.

(** ** Any exception ends the run *)

Section Failures.
Context {B E : Type}.
Variable drv : Driver B E.
Variable cwd : string.

(** X14. An exception raised while an invoice is processed, at any position
    of the run, ends the run with one [ERROR] record and the invoices and
    accounts after it unvisited.  The record is chosen by the class of the
    exception alone: a [NoSuchElementException] is logged as
    [No accounts found], also when accounts were found and it is the download
    button of an invoice that is missing. *)
Theorem exception_ends_run (w w0 w1 w2 w3 w4 : world B)
    (before : list string) (account : string) (after : list string)
    (done_ : list E) (invoice : E) (left_ : list E) (e : exn) :
  account_list drv w = (inr (before ++ account :: after), w0) →
  for_each (account_body drv cwd) before w0 = (inr Next, w1) →
  open_account drv account w1 = (inr (Some (done_ ++ invoice :: left_)), w2) →
  for_each (invoice_body drv cwd account) done_ w2 = (inr Next, w3) →
  invoice_body drv cwd account invoice w3 = (inl e, w4) →
  process_accounts drv cwd w
  = log_to ERROR
      (if bool_decide (exn_cls e = NoSuchElementException) then "No accounts found"
       else "Error processing accounts: " +:+ exn_str e) w4.
Proof.
  intros Hlist Hbefore Hopen Hdone Hbody. unfold process_accounts.
  rewrite (run_reaches drv cwd w w0 w1 w2 w3 before account after done_ invoice left_)
    by done.
  rewrite Hbody. unfold is_instance. by destruct (bool_decide _).
Qed.
End Failures.

Section InvoiceName.
Context {B E : Type}.
Variable drv : Driver B E.
Variable cwd : string.



End InvoiceName.

(** ** [setup_logging] *)

Lemma remove_all_handlers (hs : list handler) :
  foldl (λ left_ h, removeHandler h left_) hs hs = [].
Proof.
  induction hs as [|h hs IH]; [done|]. simpl. by rewrite decide_True.
Qed.

Lemma suffix_same_length (a b x y : string) :
  String.length x = String.length y → a +:+ x = b +:+ y → x = y.
Proof.
  intros Hlen. revert b. induction a as [|c a IH]; intros [|c' b] H.
  - done.
  - apply (f_equal String.length) in H. rewrite !length_append in H. simpl in H. lia.
  - apply (f_equal String.length) in H. rewrite !length_append in H. simpl in H. lia.
  - rewrite !append_cons in H. injection H as _ H. by apply (IH b).
Qed.

(** Two joined paths whose last components end differently are different. *)
Lemma join_apart (d d' x y : string) (s t : string) :
  String.length s = String.length t → s ≠ t →
  OsPath.join d (x +:+ s) ≠ OsPath.join d' (y +:+ t).
Proof.
  intros Hlen Hne Heq.
  destruct (join_suffix d (x +:+ s)) as [pre Hpre].
  destruct (join_suffix d' (y +:+ t)) as [pre' Hpre'].
  rewrite Hpre, Hpre', <- !append_assoc in Heq.
  by apply suffix_same_length in Heq.
Qed.

Section ProgramFacts.
Context {B E : Type}.
Variable drv : Driver B E.
Variable ses : Session B E.
Variable cwd : string.
Variable script_dir : string.
Variable getenv : string → option string.

Lemma log_file_is_not_logs_dir : log_file script_dir ≠ logs_dir script_dir.
Proof.
  intros H. apply (f_equal String.length) in H. unfold log_file in H.
  pose proof (join_longer (logs_dir script_dir) "f" "ile_downloader.log" eq_refl). lia.
Qed.

Lemma logs_apart :
  download_dir cwd ≠ logs_dir script_dir ∧ download_dir cwd ≠ log_file script_dir
  ∧ download_temp_dir cwd ≠ logs_dir script_dir
  ∧ download_temp_dir cwd ≠ log_file script_dir.
Proof.
  unfold download_temp_dir, download_dir, log_file, logs_dir. repeat split.
  - apply (join_apart _ _ "downl" EmptyString "oads" "logs"); done.
  - apply (join_apart _ _ "download" "file_downloader.lo" "s" "g"); done.
  - apply (join_apart _ _ "tm" "log" "p" "s"); done.
  - apply (join_apart _ _ "tm" "file_downloader.lo" "p" "g"); done.
Qed.

Lemma setup_logging_returns (p : process B) :
  (∀ c, fs (scene p) !! logs_dir script_dir ≠ Some (File c)) →
  fs (scene p) !! log_file script_dir ≠ Some Dir →
  ∃ f, setup_logging script_dir p
       = (inr tt,
          Process (World f (browser (scene p)) (logged (scene p)))
            [RotatingFileHandler (log_file script_dir) (1024 * 1024) 5; StreamHandler]
            (printed p) (journal p))
       ∧ f !! logs_dir script_dir = Some Dir
       ∧ (∃ c, f !! log_file script_dir = Some (File c))
       ∧ ∀ q, q ≠ logs_dir script_dir → q ≠ log_file script_dir →
              f !! q = fs (scene p) !! q.
Proof.
  intros Hdir Hfile. pose proof log_file_is_not_logs_dir as Hne.
  unfold setup_logging, mbind, Proc_bind, on_scene, os_write, set_handlers,
    Os.makedirs_exist_ok, open_append.
  destruct (fs (scene p) !! logs_dir script_dir) as [[c|]|] eqn:Hd.
  - by destruct (Hdir c).
  - simpl. destruct (fs (scene p) !! log_file script_dir) as [[c|]|] eqn:Hf.
    + simpl. rewrite remove_all_handlers.
      eexists. split; [done|]. split; [done|]. split; [by eauto|]. done.
    + done.
    + simpl. rewrite remove_all_handlers. eexists. split; [done|]. split.
      { rewrite lookup_insert_ne by done. done. }
      split; [exists EmptyString; apply lookup_insert_eq|].
      intros q _ Hq. by rewrite lookup_insert_ne.
  - simpl. rewrite lookup_insert_ne by done.
    destruct (fs (scene p) !! log_file script_dir) as [[c|]|] eqn:Hf.
    + simpl. rewrite remove_all_handlers.
      eexists. split; [done|]. split; [apply lookup_insert_eq|]. split.
      { exists c. by rewrite lookup_insert_ne. }
      intros q Hq _. by rewrite lookup_insert_ne.
    + done.
    + simpl. rewrite remove_all_handlers. eexists. split; [done|]. split.
      { rewrite lookup_insert_ne by done. apply lookup_insert_eq. }
      split; [exists EmptyString; apply lookup_insert_eq|].
      intros q Hq Hq'. by rewrite !lookup_insert_ne.
Qed.

(** X16. [setup_logging]: where [logs] is not a regular file and the log file
    is not a directory, it returns with exactly the two handlers, whatever
    handlers the logger had; [logs] is a directory, the log file is there, and
    no other path has changed.  Where a regular file sits in the place of
    [logs], [os.makedirs] raises [FileExistsError] on that path and nothing
    has changed. *)
Theorem setup_logging_resets_the_handlers (p : process B) :
  ((∀ c, fs (scene p) !! logs_dir script_dir ≠ Some (File c)) →
   fs (scene p) !! log_file script_dir ≠ Some Dir →
   let p' := (setup_logging script_dir p).2 in
   (setup_logging script_dir p).1 = inr tt
   ∧ handlers p'
     = [RotatingFileHandler (log_file script_dir) (1024 * 1024) 5; StreamHandler]
   ∧ fs (scene p') !! logs_dir script_dir = Some Dir
   ∧ (∃ c, fs (scene p') !! log_file script_dir = Some (File c))
   ∧ (∀ q, q ≠ logs_dir script_dir → q ≠ log_file script_dir →
           fs (scene p') !! q = fs (scene p) !! q))
  ∧ (∀ c, fs (scene p) !! logs_dir script_dir = Some (File c) →
          (setup_logging script_dir p).1 = inl (Os.eexist (logs_dir script_dir))
          ∧ (setup_logging script_dir p).2
            = Process (scene p) (handlers p) (printed p) (journal p)).
Proof.
  split.
  - intros Hdir Hfile p'. subst p'.
    destruct (setup_logging_returns p Hdir Hfile) as (f & -> & H1 & H2 & H3). done.
  - intros c Hc. unfold setup_logging, mbind, Proc_bind, on_scene, os_write,
      Os.makedirs_exist_ok. by rewrite Hc.
Qed.

(** ** [__init__] in full, and [main] on a first run *)

(** [__init__] up to its last line: the logging is set up, [downloads] is
    made, Chrome is started and three records are logged. *)
Lemma construction_reaches_clear (p : process B) (b : B) :
  (∀ c, fs (scene p) !! download_dir cwd ≠ Some (File c)) →
  (∀ c, fs (scene p) !! logs_dir script_dir ≠ Some (File c)) →
  fs (scene p) !! log_file script_dir ≠ Some Dir →
  chrome ses (getenv "CHROMEDRIVER_PATH") (download_temp_dir cwd) (browser (scene p))
  = (inr tt, b) →
  ∃ f,
    ClaroInvoiceScraper ses cwd script_dir getenv p
    = on_scene (clear_tmp_directory cwd)
        (Process
           (World f b
              (logged (scene p)
                 ++ [(INFO, "Initialized FileDownloader for pdf files");
                     (DEBUG, "Using temporary directory: " +:+ download_temp_dir cwd);
                     (DEBUG, "Using data directory: " +:+ download_dir cwd)]))
           [RotatingFileHandler (log_file script_dir) (1024 * 1024) 5; StreamHandler]
           (printed p) (journal p ++ [ChromeStarted]))
    ∧ f !! download_dir cwd = Some Dir
    ∧ f !! logs_dir script_dir = Some Dir
    ∧ (∃ c, f !! log_file script_dir = Some (File c))
    ∧ (∀ q, q ≠ download_dir cwd → q ≠ logs_dir script_dir → q ≠ log_file script_dir →
            f !! q = fs (scene p) !! q).
Proof.
  intros Harch Hlogs Hlog Hchrome.
  destruct logs_apart as (Ha1 & Ha2 & _ & _).
  destruct (setup_logging_returns p Hlogs Hlog) as (f & Hsetup & Hf1 & Hf2 & Hsame).
  unfold ClaroInvoiceScraper. unfold mbind at 1. unfold Proc_bind at 1. rewrite Hsetup.
  unfold mbind, Proc_bind, on_scene, journaled, browser_call, on_scene, ui, os_write, log,
    Os.makedirs_exist_ok.
  simpl. rewrite (Hsame _ Ha1 Ha2).
  destruct (fs (scene p) !! download_dir cwd) as [[c|]|] eqn:Hd.
  - by destruct (Harch c).
  - simpl. rewrite Hchrome. simpl. exists f. unfold log_to. simpl.
    rewrite <- !app_assoc. simpl.
    split; [done|]. split; [by rewrite (Hsame _ Ha1 Ha2)|]. split; [done|]. split; [done|].
    intros q _ Hq1 Hq2. by apply Hsame.
  - simpl. rewrite Hchrome. simpl. exists (<[download_dir cwd := Dir]> f).
    unfold log_to. simpl. rewrite <- !app_assoc. simpl.
    split; [done|]. split; [apply lookup_insert_eq|].
    split; [by rewrite lookup_insert_ne|]. split.
    { destruct Hf2 as [c Hc]. exists c. by rewrite lookup_insert_ne. }
    intros q Hq Hq1 Hq2. rewrite lookup_insert_ne by done. by apply Hsame.
Qed.

Lemma clear_without_staging (w : world B) :
  fs w !! download_temp_dir cwd = None →
  clear_tmp_directory cwd w
  = (inl (Os.enoent (download_temp_dir cwd)),
     log_to DEBUG ("Clearing temporary directory: " +:+ download_temp_dir cwd) w).
Proof.
  intros Htmp. unfold clear_tmp_directory, mbind, M_bind, os_read, log, Os.listdir.
  simpl. by rewrite Htmp.
Qed.

(** X4. Nothing in [__init__] makes the staging directory.  Where it is
    missing (no regular file sits in the place of [downloads] or of [logs],
    no directory in the place of the log file, and Chrome starts),
    [__init__] raises the [FileNotFoundError] of [os.listdir] on the staging
    directory, from [clear_tmp_directory], its last line: by then the logging
    is set up, [downloads] is there, Chrome is started and four records are
    logged; the staging directory is still missing. *)
Theorem init_without_staging (p : process B) (b : B) :
  fs (scene p) !! download_temp_dir cwd = None →
  (∀ c, fs (scene p) !! download_dir cwd ≠ Some (File c)) →
  (∀ c, fs (scene p) !! logs_dir script_dir ≠ Some (File c)) →
  fs (scene p) !! log_file script_dir ≠ Some Dir →
  chrome ses (getenv "CHROMEDRIVER_PATH") (download_temp_dir cwd) (browser (scene p))
  = (inr tt, b) →
  let out := ClaroInvoiceScraper ses cwd script_dir getenv p in
  out.1 = inl (Os.enoent (download_temp_dir cwd))
  ∧ journal out.2 = journal p ++ [ChromeStarted]
  ∧ browser (scene out.2) = b
  ∧ handlers out.2
    = [RotatingFileHandler (log_file script_dir) (1024 * 1024) 5; StreamHandler]
  ∧ logged (scene out.2)
    = logged (scene p)
        ++ [(INFO, "Initialized FileDownloader for pdf files");
            (DEBUG, "Using temporary directory: " +:+ download_temp_dir cwd);
            (DEBUG, "Using data directory: " +:+ download_dir cwd);
            (DEBUG, "Clearing temporary directory: " +:+ download_temp_dir cwd)]
  ∧ fs (scene out.2) !! download_dir cwd = Some Dir
  ∧ fs (scene out.2) !! logs_dir script_dir = Some Dir
  ∧ fs (scene out.2) !! download_temp_dir cwd = None.
Proof.
  intros Htmp Harch Hlogs Hlog Hchrome out. subst out.
  destruct logs_apart as (_ & _ & Ht1 & Ht2).
  pose proof (staging_is_not_archive cwd) as Hne.
  destruct (construction_reaches_clear p b Harch Hlogs Hlog Hchrome)
    as (f & -> & Hf0 & Hf1 & _ & Hsame).
  unfold on_scene. rewrite clear_without_staging by (simpl; by rewrite Hsame).
  simpl. rewrite <- app_assoc. simpl.
  repeat split; try done. by rewrite Hsame.
Qed.


(** X17. On a first run, with no staging directory, [main] starts Chrome and
    then fails in the constructor with [FileNotFoundError]: the [try] of
    [main] is never entered, so no page is requested and [quit] is never
    called; the browser is left as [webdriver.Chrome] left it. *)
Theorem first_run_leaves_chrome_running (p : process B) (b : B) :
  fs (scene p) !! download_temp_dir cwd = None →
  (∀ c, fs (scene p) !! download_dir cwd ≠ Some (File c)) →
  (∀ c, fs (scene p) !! logs_dir script_dir ≠ Some (File c)) →
  fs (scene p) !! log_file script_dir ≠ Some Dir →
  chrome ses (getenv "CHROMEDRIVER_PATH") (download_temp_dir cwd) (browser (scene p))
  = (inr tt, b) →
  let out := main drv ses cwd script_dir getenv p in
  out.1 = inl (Os.enoent (download_temp_dir cwd))
  ∧ journal out.2 = journal p ++ [ChromeStarted]
  ∧ browser (scene out.2) = b.
Proof.
  intros Htmp Harch Hlogs Hlog Hchrome out. subst out.
  destruct logs_apart as (_ & _ & Ht1 & Ht2).
  pose proof (staging_is_not_archive cwd) as Hne.
  destruct (construction_reaches_clear p b Harch Hlogs Hlog Hchrome)
    as (f & Hrun & _ & _ & _ & Hsame).
  unfold main, mbind, Proc_bind. rewrite Hrun.
  unfold on_scene. rewrite clear_without_staging by (simpl; by rewrite Hsame). done.
Qed.
End ProgramFacts.

Section Lifecycle.
Context {B E : Type}.
Variable drv : Driver B E.
Variable ses : Session B E.
Variable cwd : string.
Variable script_dir : string.
Variable getenv : string → option string.

Lemma keeps_ret {A : Type} (v : A) : keeps_journal (mret v : @Proc B A).
Proof. done. Qed.

Lemma keeps_on_scene {A : Type} (m : world B → result A * world B) :
  keeps_journal (on_scene m).
Proof. intros p. unfold on_scene. by destruct (m (scene p)). Qed.

Lemma keeps_browser_call {A : Type} (op : B → result A * B) :
  keeps_journal (browser_call op).
Proof. apply keeps_on_scene. Qed.

Lemma keeps_print line : keeps_journal (print (B:=B) line).
Proof. done. Qed.

Lemma keeps_set_handlers f : keeps_journal (set_handlers (B:=B) f).
Proof. done. Qed.

Lemma keeps_bind {A A' : Type} (m : @Proc B A) (f : A → @Proc B A') :
  keeps_journal m → (∀ x, keeps_journal (f x)) → keeps_journal (m ≫= f).
Proof.
  intros Hm Hf p. unfold mbind, Proc_bind. specialize (Hm p).
  destruct (m p) as [[e|v] p1]; [done|]. simpl in Hm. by rewrite Hf.
Qed.

Lemma keeps_except {A : Type} (body handler : @Proc B A) :
  keeps_journal body → keeps_journal handler →
  keeps_journal (except_timeout body handler).
Proof.
  intros Hb Hh p. unfold except_timeout. specialize (Hb p).
  destruct (body p) as [[e|v] p1]; [|done]. simpl in Hb.
  destruct (is_instance _ e); [|done]. by rewrite Hh.
Qed.

Lemma enters_journaled {A : Type} (c : call) (op : B → result A * B) :
  enters c (journaled c op).
Proof.
  intros p. unfold journaled.
  by rewrite (keeps_browser_call op (Process (scene p) (handlers p) (printed p) (journal p ++ [c]))).
Qed.

Lemma enters_bind {A A' : Type} (c : call) (m : @Proc B A) (f : A → @Proc B A') :
  enters c m → (∀ x, keeps_journal (f x)) → enters c (m ≫= f).
Proof.
  intros Hm Hf p. unfold mbind, Proc_bind. specialize (Hm p).
  destruct (m p) as [[e|v] p1]; [done|]. simpl in Hm. by rewrite Hf.
Qed.

Lemma enters_except {A : Type} (c : call) (body handler : @Proc B A) :
  enters c body → keeps_journal handler → enters c (except_timeout body handler).
Proof.
  intros Hb Hh p. unfold except_timeout. specialize (Hb p).
  destruct (body p) as [[e|v] p1]; [|done]. simpl in Hb.
  destruct (is_instance _ e); [|done]. by rewrite Hh.
Qed.

Ltac quiet :=
  repeat first
    [ apply keeps_ret | apply keeps_on_scene | apply keeps_browser_call
    | apply keeps_print | apply keeps_set_handlers
    | apply keeps_except | apply keeps_bind; [|intros ?] | done ].

Lemma keeps_setup_logging : keeps_journal (setup_logging (B:=B) script_dir).
Proof. unfold setup_logging. quiet. Qed.

Lemma keeps_dismiss_popup : keeps_journal (dismiss_popup drv ses).
Proof. unfold dismiss_popup. quiet. Qed.

Lemma enters_login : enters (PageRequested login_url) (login drv ses getenv).
Proof.
  unfold login. apply enters_except; [|quiet].
  apply enters_bind; [|intros; apply keeps_bind; [apply keeps_dismiss_popup|quiet]].
  unfold sign_in. apply enters_bind; [apply enters_journaled|]. intros _. quiet.
Qed.

Lemma enters_navigate :
  enters (PageRequested invoices_url) (navigate_to_invoices (B:=B) ses).
Proof.
  unfold navigate_to_invoices. apply enters_except; [|quiet].
  apply enters_bind; [apply enters_journaled|]. intros _. quiet.
Qed.

Lemma bind_returns {A A' : Type} (m : @Proc B A) (f : A → @Proc B A') p v p' :
  (m ≫= f) p = (inr v, p') → ∃ x p1, m p = (inr x, p1) ∧ f x p1 = (inr v, p').
Proof.
  unfold mbind, Proc_bind. destruct (m p) as [[e|x] p1]; [done|]. intros H. by exists x, p1.
Qed.

Lemma construction_journal (p p1 : process B) :
  ClaroInvoiceScraper ses cwd script_dir getenv p = (inr tt, p1) →
  journal p1 = journal p ++ [ChromeStarted].
Proof.
  unfold ClaroInvoiceScraper. intros H.
  apply bind_returns in H as (x0 & q0 & H0 & H).
  apply bind_returns in H as (x1 & q1 & H1 & H).
  apply bind_returns in H as (x2 & q2 & H2 & H).
  assert (keeps_journal
            (on_scene (log INFO "Initialized FileDownloader for pdf files");;
             on_scene (log DEBUG ("Using temporary directory: " +:+ download_temp_dir cwd));;
             on_scene (log DEBUG ("Using data directory: " +:+ download_dir cwd));;
             on_scene (B:=B) (clear_tmp_directory cwd))) as Hrest by quiet.
  specialize (Hrest q2). rewrite H in Hrest. simpl in Hrest. rewrite Hrest.
  pose proof (enters_journaled ChromeStarted
                (chrome ses (getenv "CHROMEDRIVER_PATH") (download_temp_dir cwd)) q1) as HJ.
  rewrite H2 in HJ. simpl in HJ. rewrite HJ.
  pose proof (keeps_on_scene (os_write (Os.makedirs_exist_ok (download_dir cwd))) q0) as HM.
  rewrite H1 in HM. simpl in HM. rewrite HM.
  pose proof (keeps_setup_logging p) as HS. rewrite H0 in HS. simpl in HS. by rewrite HS.
Qed.

Lemma visit_journal (p : process B) :
  (journal (visit drv ses cwd getenv p).2 = journal p ++ [PageRequested login_url]
   ∧ (login drv ses getenv p).1 ≠ inr true)
  ∨ (journal (visit drv ses cwd getenv p).2
     = journal p ++ [PageRequested login_url; PageRequested invoices_url]
     ∧ (login drv ses getenv p).1 = inr true).
Proof.
  unfold visit, mbind, Proc_bind. pose proof (enters_login p) as HL.
  destruct (login drv ses getenv p) as [[e|[|]] p1]; simpl in HL.
  - left. by split.
  - right. split; [|done]. pose proof (enters_navigate p1) as HN.
    destruct (navigate_to_invoices ses p1) as [[e|[|]] p2]; simpl in HN.
    + simpl. rewrite HN, HL. by rewrite <- app_assoc.
    + rewrite (keeps_on_scene (λ w, (inr tt, process_accounts drv cwd w)) p2).
      rewrite HN, HL. by rewrite <- app_assoc.
    + simpl. rewrite HN, HL. by rewrite <- app_assoc.
  - left. by split.
Qed.

(** X18. Once the scraper is built, whatever the pages do and whether the
    steps return or raise, [main] requests the login page, requests the
    invoices page only after [login] returned [True], and calls [quit] exactly
    once, as its last call: the journal of a run is one of two. *)
Theorem browser_is_quit_exactly_once (p p1 : process B) :
  ClaroInvoiceScraper ses cwd script_dir getenv p = (inr tt, p1) →
  let out := main drv ses cwd script_dir getenv p in
  (journal out.2 = journal p ++ [ChromeStarted; PageRequested login_url; ChromeQuit]
   ∧ (login drv ses getenv p1).1 ≠ inr true)
  ∨ (journal out.2
     = journal p ++ [ChromeStarted; PageRequested login_url; PageRequested invoices_url;
                     ChromeQuit]
     ∧ (login drv ses getenv p1).1 = inr true).
Proof.
  intros Hbuilt out. subst out. pose proof (construction_journal p p1 Hbuilt) as HC.
  assert (main drv ses cwd script_dir getenv p
          = try_finally (visit drv ses cwd getenv) (close ses) p1) as ->.
  { unfold main, mbind, Proc_bind. by rewrite Hbuilt. }
  unfold try_finally.
  destruct (visit_journal p1) as [[HV Hl]|[HV Hl]];
    destruct (visit drv ses cwd getenv p1) as [r p2]; simpl in HV;
    pose proof (enters_journaled ChromeQuit (quit ses) p2) as HQ;
    unfold close; destruct (journaled ChromeQuit (quit ses) p2) as [[e|u] p3];
    simpl in HQ; simpl; rewrite HQ, HV, HC, <- !app_assoc.
  all: [> left | left | right | right ]; done.
Qed.

(** ** Timeouts *)

Lemma except_timeout_contains {A : Type} (body handler : @Proc B A) (p : process B) e :
  (∀ q e', (handler q).1 ≠ inl e') →
  (except_timeout body handler p).1 = inl e → exn_cls e ≠ TimeoutException.
Proof.
  intros Hh. unfold except_timeout. destruct (body p) as [[e'|v] p1] eqn:Hb; [|done].
  destruct (is_instance TimeoutException e') eqn:Hi.
  - intros H. by destruct (Hh p1 e).
  - simpl. intros [= <-]. unfold is_instance in Hi. by apply bool_decide_eq_false in Hi.
Qed.

(** X19. No [TimeoutException] leaves [login], [navigate_to_invoices] or
    [handle_popup]: an exception that leaves one of them is of another
    class. *)
Theorem timeouts_never_escape (selector : locator) (p : process B) (e : exn) :
  (login drv ses getenv p).1 = inl e
  ∨ (navigate_to_invoices ses p).1 = inl e
  ∨ (handle_popup drv selector p).1 = inl e →
  exn_cls e ≠ TimeoutException.
Proof.
  intros [H|[H|H]]; revert H; apply except_timeout_contains; intros q e'; done.
Qed.

(** X20. A popup that does not show within its five seconds does not fail
    the login: once the welcome page is reached, [login] prints its line and
    returns [True]. *)
Theorem missing_popup_does_not_fail_login (p p1 : process B) (e : exn) (b : B) :
  sign_in drv ses getenv p = (inr tt, p1) →
  wait_class_name_within ses 5 "close-btn" (browser (scene p1)) = (inl e, b) →
  exn_cls e = TimeoutException →
  login drv ses getenv p
  = (inr true,
     Process (World (fs (scene p1)) b (logged (scene p1))) (handlers p1)
       (printed p1 ++ ["No popup found or already closed"]) (journal p1)).
Proof.
  intros Hin Hwait He. unfold login, except_timeout at 1.
  unfold mbind at 1. unfold Proc_bind at 1. rewrite Hin.
  unfold mbind at 1. unfold Proc_bind at 1.
  unfold dismiss_popup, except_timeout, mbind, Proc_bind, browser_call, on_scene, ui.
  rewrite Hwait. by rewrite (is_instance_true _ _ He).
Qed.

(** X21. A failure while signing in, seen from [main] (with a [quit] that
    returns).  A timeout is logged as [Login failed - timeout] and [main]
    returns normally; any other exception leaves [main] as it was raised,
    with nothing logged.  Either way the invoices page is not requested, the
    file system is not touched, and the browser is quit. *)
Theorem login_failure_in_main (p p1 p2 : process B) (e : exn) (b : B) :
  ClaroInvoiceScraper ses cwd script_dir getenv p = (inr tt, p1) →
  sign_in drv ses getenv p1 = (inl e, p2) →
  quit ses (browser (scene p2)) = (inr tt, b) →
  let out := main drv ses cwd script_dir getenv p in
  (exn_cls e = TimeoutException →
   out = (inr tt,
          Process (World (fs (scene p2)) b
                     (logged (scene p2) ++ [(ERROR, "Login failed - timeout")]))
            (handlers p2) (printed p2) (journal p2 ++ [ChromeQuit])))
  ∧ (exn_cls e ≠ TimeoutException →
     out = (inl e,
            Process (World (fs (scene p2)) b (logged (scene p2)))
              (handlers p2) (printed p2) (journal p2 ++ [ChromeQuit]))).
Proof.
  intros Hbuilt Hin Hquit out. subst out.
  assert (main drv ses cwd script_dir getenv p
          = try_finally (visit drv ses cwd getenv) (close ses) p1) as ->.
  { unfold main, mbind, Proc_bind. by rewrite Hbuilt. }
  split; intros He;
    unfold try_finally, visit, login, except_timeout, mbind, Proc_bind; rewrite Hin.
  - rewrite (is_instance_true _ _ He).
    unfold on_scene, log, close, journaled, browser_call, on_scene, ui.
    simpl. by rewrite Hquit.
  - rewrite (is_instance_false _ _ He).
    unfold close, journaled, browser_call, on_scene, ui. simpl. by rewrite Hquit.
Qed.
End Lifecycle.

(** ** [rename_latest_download] *)

Lemma insert_by_key_elem x z l : z ∈ insert_by_key x l ↔ z = x ∨ z ∈ l.
Proof.
  induction l as [|y l IH]; simpl.
  - rewrite list_elem_of_singleton. split; [by left|]. intros [H|H]; [done|].
    by apply elem_of_nil in H.
  - destruct (x.1 <=? y.1).
    + by rewrite elem_of_cons.
    + rewrite !elem_of_cons, IH. tauto.
Qed.

Lemma last_insert_below x y (l : list (Z * string)) :
  last l = Some y → x.1 ≤ y.1 → last (insert_by_key x l) = Some y.
Proof.
  induction l as [|z l IH]; [done|]. intros Hlast Hle. simpl.
  destruct (x.1 <=? z.1) eqn:Hx.
  - by rewrite last_cons_cons.
  - destruct l as [|z' l].
    + simpl in Hlast. injection Hlast as ->. apply Z.leb_gt in Hx. lia.
    + rewrite last_cons_cons in Hlast. specialize (IH Hlast Hle).
      simpl in *. destruct (x.1 <=? z'.1); by rewrite last_cons_cons.
Qed.

Lemma insert_above x (l : list (Z * string)) :
  (∀ z, z ∈ l → z.1 < x.1) → insert_by_key x l = l ++ [x].
Proof.
  induction l as [|z l IH]; [done|]. intros Hall. simpl.
  destruct (x.1 <=? z.1) eqn:Hx.
  - apply Z.leb_le in Hx. specialize (Hall z (list_elem_of_here _ _)). lia.
  - rewrite IH; [done|]. intros z' Hz'. apply Hall. by apply list_elem_of_further.
Qed.

(** The last of the sorted list is the last of the entries of greatest key. *)
Lemma last_sorted (l : list (Z * string)) :
  match last (sorted_by_key l) with
  | None => l = []
  | Some y =>
      ∃ pre post, l = pre ++ y :: post
                  ∧ (∀ z, z ∈ pre → z.1 ≤ y.1) ∧ (∀ z, z ∈ post → z.1 < y.1)
  end.
Proof.
  induction l as [|x l IH]; [done|]. simpl.
  assert (∀ z, z ∈ sorted_by_key l ↔ z ∈ l) as Hsame.
  { clear. induction l as [|x l IH]; intros z; [done|]. simpl.
    rewrite insert_by_key_elem, elem_of_cons, IH. done. }
  destruct (last (sorted_by_key l)) as [y|] eqn:Hlast.
  - destruct IH as (pre & post & Hl & Hpre & Hpost).
    assert (∀ z, z ∈ l → z.1 ≤ y.1) as Hmax.
    { intros z Hz. rewrite Hl in Hz. apply elem_of_app in Hz as [Hz|Hz]; [by apply Hpre|].
      apply elem_of_cons in Hz as [->|Hz]; [lia|]. specialize (Hpost z Hz). lia. }
    destruct (decide (x.1 ≤ y.1)) as [Hle|Hgt].
    + rewrite (last_insert_below x y _ Hlast Hle).
      exists (x :: pre), post. split; [by rewrite Hl|]. split; [|done].
      intros z Hz. apply elem_of_cons in Hz as [->|Hz]; [done|]. by apply Hpre.
    + rewrite insert_above.
      * rewrite last_snoc. exists [], l. split; [done|]. split.
        { intros z Hz. by apply elem_of_nil in Hz. }
        intros z Hz. specialize (Hmax z Hz). lia.
      * intros z Hz. apply Hsame in Hz. specialize (Hmax z Hz). lia.
  - subst l. simpl. exists [], []. split; [done|]. split; intros z Hz; by apply elem_of_nil in Hz.
Qed.

Section LatestFacts.
Context {B E : Type}.
Variable drv : Driver B E.
Variable cwd : string.
Variable getctime : string → gmap string node → result Z.
Variable rename : string → string → gmap string node → result (gmap string node).

Lemma with_ctime_names names f keyed :
  with_ctime cwd getctime names f = inr keyed → keyed.*2 = names.
Proof.
  revert keyed. induction names as [|x names IH]; intros keyed; simpl.
  - by intros [= <-].
  - destruct (getctime _ f) as [e|k]; [done|].
    destruct (with_ctime cwd getctime names f) as [e|rest]; [done|].
    intros [= <-]. rewrite fmap_cons. simpl. f_equal. by apply IH.
Qed.

(** X22. [rename_latest_download], once the listing and the creation times
    are in: with no name ending in [.pdf] (in lower case: the test does not
    fold case) it does nothing beyond its sleep of two seconds; otherwise the
    file it renames is the last, in the order of the listing, of the [.pdf]
    names of greatest creation time, and no exception of a class below
    [OSError] leaves the renaming. *)
Theorem latest_download_is_the_newest_pdf (date_str account_number : string)
    (w : world B) (names : list string) (keyed : list (Z * string)) :
  Os.listdir (download_dir cwd) (fs (sleep_ms drv 2000 w)) = inr names →
  with_ctime cwd getctime (List.filter (λ f, PyStr.endswith f ".pdf") names)
    (fs (sleep_ms drv 2000 w)) = inr keyed →
  keyed.*2 = List.filter (λ f, PyStr.endswith f ".pdf") names
  ∧ (keyed = [] →
     rename_latest_download drv cwd getctime rename date_str account_number w
     = (inr tt, sleep_ms drv 2000 w))
  ∧ (keyed ≠ [] →
     ∃ pre k latest post,
       keyed = pre ++ (k, latest) :: post
       ∧ (∀ z, z ∈ pre → z.1 ≤ k) ∧ (∀ z, z ∈ post → z.1 < k)
       ∧ latest ∈ names ∧ PyStr.endswith latest ".pdf" = true
       ∧ rename_latest_download drv cwd getctime rename date_str account_number w
         = rename_to cwd rename date_str account_number latest (sleep_ms drv 2000 w))
  ∧ (∀ latest (w' : world B) e,
       (rename_to cwd rename date_str account_number latest w').1 = inl e →
       is_os_error e = false).
Proof.
  intros Hlist Hkeys. pose proof (with_ctime_names _ _ _ Hkeys) as Hnames.
  split; [done|].
  assert (rename_latest_download drv cwd getctime rename date_str account_number w
          = match last (sorted_by_key keyed).*2 with
            | Some latest_file =>
                rename_to cwd rename date_str account_number latest_file
                  (sleep_ms drv 2000 w)
            | None => (inr tt, sleep_ms drv 2000 w)
            end) as Hrun.
  { unfold rename_latest_download, mbind, M_bind, time_sleep, os_read.
    rewrite Hlist, Hkeys. by destruct (last _). }
  split; [|split].
  - intros ->. by rewrite Hrun.
  - intros Hne. pose proof (last_sorted keyed) as Hlast.
    rewrite Hrun, fmap_last.
    destruct (last (sorted_by_key keyed)) as [[k latest]|]; [|done].
    destruct Hlast as (pre & post & Hk & Hpre & Hpost). simpl.
    exists pre, k, latest, post. split; [done|]. split; [done|]. split; [done|].
    assert (latest ∈ List.filter (λ f, PyStr.endswith f ".pdf") names) as Hin.
    { rewrite <- Hnames, Hk, fmap_app, fmap_cons. apply elem_of_app. right.
      apply list_elem_of_here. }
    apply list_elem_of_In, filter_In in Hin as [Hin Hpdf].
    split; [by apply list_elem_of_In|]. done.
  - intros latest w' e. unfold rename_to, os_write, log.
    destruct (rename _ _ (fs w')) as [e'|f]; [|done].
    destruct (is_os_error e') eqn:He; [done|]. simpl. by intros [= <-].
Qed.
End LatestFacts.

(** ** Witnesses of the further properties *)

Lemma outcome_eq {A S : Type} (x : A * S) (a : A) : x.1 = a → x = (a, x.2).
Proof. destruct x. simpl. by intros ->. Qed.

Lemma use_element_safely_outcome_witness :
  use_element_safely Portal.driver (By_NAME, "absent") Demo.landed
  = (inl Portal.timed_out, Demo.landed)
  ∧ use_element_safely Kiosk.driver (By_NAME, "BAN") (World ∅ tt [])
    = (inr (Returned tt), World ∅ tt []).
Proof.
  split.
  - apply (proj1 (proj2 (use_element_safely_outcome Portal.driver (By_NAME, "absent")
                           Demo.landed))); [reflexivity|done].
  - apply (proj2 (proj2 (use_element_safely_outcome Kiosk.driver (By_NAME, "BAN")
                           (World ∅ tt []))) tt tt tt); reflexivity.
Defined.


Lemma archive_twice_keeps_both_witness :
  ∃ p2 fs2,
    move_and_rename_file "/archive" Demo.today "/stage/report.pdf" Demo.conta
      (<["/stage/report.pdf" := File "second"]>
         (move_and_rename_file "/archive" Demo.today "/stage/report.pdf" Demo.conta
            Demo.first_visit).2)
    = (inr (Some p2), fs2)
    ∧ p2 ≠ "/archive/conta_123_ref_2024-03_venc_2024-03-05_2024-03-10_report.pdf"
    ∧ fs2 !! "/archive/conta_123_ref_2024-03_venc_2024-03-05_2024-03-10_report.pdf"
      = Some (File "first")
    ∧ fs2 !! p2 = Some (File "second").
Proof.
  apply (archive_twice_keeps_both "/archive" Demo.today "/stage/report.pdf" Demo.conta
           Demo.first_visit).
  - vm_compute. reflexivity.
  - apply outcome_eq. vm_compute. reflexivity.
Defined.

(** A finished [report.pdf] with the prefix of an invoice, and with a
    prefix that has a slash in it. *)
Lemma downloaded_file_leaves_staging_witness :
  let out := after_download Portal.driver Demo.cwd Demo.conta
               (true, Some "/work/downloads/tmp/report.pdf") Demo.landed in
  let out' := after_download Portal.driver Demo.cwd "a/b"
                (true, Some "/work/downloads/tmp/report.pdf") Demo.landed in
  (out.1 = inr Next ∧ fs out.2 !! "/work/downloads/tmp/report.pdf" = None)
  ∧ out'.1
    = inl (Exn FileNotFoundError
             ("[Errno 2] No such file or directory: "
                +:+ "'/work/downloads/a/b_2024-03-10_report.pdf'"))
  ∧ fs out'.2 = fs Demo.landed.
Proof.
  intros out out'. split.
  - pose proof (downloaded_file_leaves_staging Portal.driver Demo.cwd Demo.conta
                  "/work/downloads/tmp/report.pdf" Demo.landed) as H.
    destruct H as (_ & H); [done|].
    change (fs Demo.landed !! "/work/downloads/tmp/report.pdf")
      with (Some (File "%PDF")) in H.
    destruct H as (k & _ & Hbelow & H).
    destruct k as [|k];
      [|destruct (Hbelow 0%nat ltac:(lia)) as [x Hx]; vm_compute in Hx; discriminate].
    revert H. destruct (Os.landing _ _ _ _) as [e|u] eqn:Hland;
      [vm_compute in Hland; discriminate|].
    intros (H1 & H2 & _). split; [exact H1|exact H2].
  - pose proof (downloaded_file_leaves_staging Portal.driver Demo.cwd "a/b"
                  "/work/downloads/tmp/report.pdf" Demo.landed) as H.
    destruct H as (_ & H); [done|].
    change (fs Demo.landed !! "/work/downloads/tmp/report.pdf")
      with (Some (File "%PDF")) in H.
    destruct H as (k & _ & Hbelow & H).
    destruct k as [|k];
      [|destruct (Hbelow 0%nat ltac:(lia)) as [x Hx]; vm_compute in Hx; discriminate].
    revert H. destruct (Os.landing _ _ _ _) as [e|u] eqn:Hland;
      [|vm_compute in Hland; discriminate].
    vm_compute in Hland. injection Hland as <-.
    intros H. destruct H as (H1 & H2 & _); [done|]. split; [exact H1|exact H2].
Defined.

Lemma parsed_dates_are_calendar_dates_witness :
  (Some (Datetime 2024 3 5) = None ∧ Some (Datetime 2024 3 1) = None)
  ∨ ∃ due ref, Some (Datetime 2024 3 5) = Some due ∧ Some (Datetime 2024 3 1) = Some ref
      ∧ is_date due ∧ is_date ref ∧ day ref = 1%N
      ∧ (3 ≤ length (PyStr.split "|" "5/3/2024|3|2024"))%nat.
Proof.
  apply (parsed_dates_are_calendar_dates "5/3/2024|3|2024"). reflexivity.
Defined.

Lemma exception_ends_run_witness :
  process_accounts Cases.buttonless Demo.cwd Cases.single
  = log_to ERROR "No accounts found" Cases.buttonless_failed.
Proof.
  apply (exception_ends_run Cases.buttonless Demo.cwd
           Cases.single Cases.single Cases.single Cases.buttonless_opened
           Cases.buttonless_opened Cases.buttonless_failed
           [] "111" [] [] (Portal.InvoiceOption Demo.march.1 Demo.march.2) []
           Portal.no_such_element);
    vm_compute; reflexivity.
Defined.


Lemma setup_logging_resets_the_handlers_witness :
  handlers (setup_logging "/app" (Process (World ∅ tt []) [StreamHandler; StreamHandler] [] [])).2
  = [RotatingFileHandler "/app/logs/file_downloader.log" (1024 * 1024) 5; StreamHandler].
Proof.
  apply (proj1 (setup_logging_resets_the_handlers "/app"
                  (Process (World ∅ tt []) [StreamHandler; StreamHandler] [] []))).
  - intros c. vm_compute. discriminate.
  - vm_compute. discriminate.
Defined.


Lemma init_without_staging_witness :
  let out := ClaroInvoiceScraper (Kiosk.session true true []) "/work" "/app" Kiosk.environ
               (Kiosk.boot ∅) in
  out.1 = inl (Exn FileNotFoundError
                 "[Errno 2] No such file or directory: '/work/downloads/tmp'")
  ∧ journal out.2 = [ChromeStarted]
  ∧ fs (scene out.2) !! "/work/downloads" = Some Dir.
Proof.
  intros out.
  destruct (init_without_staging (Kiosk.session true true []) "/work" "/app" Kiosk.environ
              (Kiosk.boot ∅) tt)
    as (Hout & Hj & _ & _ & _ & Hdir & _ & _).
  - vm_compute. reflexivity.
  - intros c. vm_compute. discriminate.
  - intros c. vm_compute. discriminate.
  - vm_compute. discriminate.
  - reflexivity.
  - split; [exact Hout|]. split; [exact Hj|exact Hdir].
Defined.

Lemma first_run_leaves_chrome_running_witness :
  (Kiosk.run true true ["login"; "welcome"] ∅).1
  = inl (Exn FileNotFoundError
           "[Errno 2] No such file or directory: '/work/downloads/tmp'")
  ∧ journal (Kiosk.run true true ["login"; "welcome"] ∅).2 = [ChromeStarted].
Proof.
  destruct (first_run_leaves_chrome_running Kiosk.driver
              (Kiosk.session true true ["login"; "welcome"]) "/work" "/app" Kiosk.environ
              (Kiosk.boot ∅) tt) as (Hout & Hj & _).
  - vm_compute. reflexivity.
  - intros c. vm_compute. discriminate.
  - intros c. vm_compute. discriminate.
  - vm_compute. discriminate.
  - reflexivity.
  - split; [exact Hout|exact Hj].
Defined.

Lemma browser_is_quit_exactly_once_witness :
  journal (Kiosk.run true true ["login"; "welcome"] Demo.fresh).2
  = [ChromeStarted; PageRequested login_url; PageRequested invoices_url; ChromeQuit].
Proof.
  destruct (browser_is_quit_exactly_once Kiosk.driver
              (Kiosk.session true true ["login"; "welcome"]) "/work" "/app" Kiosk.environ
              (Kiosk.boot Demo.fresh)
              (Kiosk.built true true ["login"; "welcome"] Demo.fresh))
    as [[_ Hl]|[Hj _]].
  - vm_compute. reflexivity.
  - exfalso. apply Hl. vm_compute. reflexivity.
  - exact Hj.
Defined.

Lemma timeouts_never_escape_witness :
  exn_cls (Exn IndexError "list index out of range") ≠ TimeoutException.
Proof.
  apply (timeouts_never_escape Kiosk.driver (Kiosk.session true true []) Kiosk.environ
           (By_CSS_SELECTOR, "close-btn") (Kiosk.boot Demo.fresh)).
  left. vm_compute. reflexivity.
Defined.

Lemma missing_popup_does_not_fail_login_witness :
  (login Kiosk.driver (Kiosk.session true false ["login"; "welcome"]) Kiosk.environ
     (Kiosk.boot Demo.fresh)).1 = inr true
  ∧ printed (login Kiosk.driver (Kiosk.session true false ["login"; "welcome"]) Kiosk.environ
               (Kiosk.boot Demo.fresh)).2
    = ["No popup found or already closed"].
Proof.
  rewrite (missing_popup_does_not_fail_login Kiosk.driver
             (Kiosk.session true false ["login"; "welcome"]) Kiosk.environ
             (Kiosk.boot Demo.fresh)
             (sign_in Kiosk.driver (Kiosk.session true false ["login"; "welcome"])
                Kiosk.environ (Kiosk.boot Demo.fresh)).2
             Kiosk.timed_out tt).
  - split; vm_compute; reflexivity.
  - vm_compute. reflexivity.
  - reflexivity.
  - reflexivity.
Defined.

Lemma login_failure_in_main_witness :
  (Kiosk.run false true ["login"] Demo.fresh).1 = inr tt
  ∧ last (logged (scene (Kiosk.run false true ["login"] Demo.fresh).2))
    = Some (ERROR, "Login failed - timeout")
  ∧ (Kiosk.run true true [] Demo.fresh).1 = inl (Exn IndexError "list index out of range").
Proof.
  pose proof (proj1 (login_failure_in_main Kiosk.driver
                (Kiosk.session false true ["login"]) "/work" "/app" Kiosk.environ
                (Kiosk.boot Demo.fresh) (Kiosk.built false true ["login"] Demo.fresh)
                (sign_in Kiosk.driver (Kiosk.session false true ["login"]) Kiosk.environ
                   (Kiosk.built false true ["login"] Demo.fresh)).2
                Kiosk.timed_out tt
                ltac:(vm_compute; reflexivity) ltac:(vm_compute; reflexivity)
                ltac:(reflexivity)) ltac:(reflexivity)) as Hquiet.
  pose proof (proj2 (login_failure_in_main Kiosk.driver
                (Kiosk.session true true []) "/work" "/app" Kiosk.environ
                (Kiosk.boot Demo.fresh) (Kiosk.built true true [] Demo.fresh)
                (sign_in Kiosk.driver (Kiosk.session true true []) Kiosk.environ
                   (Kiosk.built true true [] Demo.fresh)).2
                (Exn IndexError "list index out of range") tt
                ltac:(vm_compute; reflexivity) ltac:(vm_compute; reflexivity)
                ltac:(reflexivity)) ltac:(done)) as Hcrash.
  unfold Kiosk.run. rewrite Hquiet, Hcrash. repeat split.
Defined.

Lemma init_spares_what_is_outside_staging_witness :
  fs (scraper_init Demo.cwd Cases.with_archive).2
    !! "/work/downloads/conta_1_ref_2024-02_venc_2024-02-05_2024-02-10_report.pdf"
  = Some (File "february").
Proof.
  apply (proj2 (init_spares_what_is_outside_staging Demo.cwd Cases.with_archive)).
  - vm_compute. reflexivity.
  - vm_compute. reflexivity.
Defined.

(** Three files in [downloads]: [a.pdf] is newer than [b.pdf], and [C.PDF],
    the newest, does not count. *)
Lemma latest_download_is_the_newest_pdf_witness :
  rename_latest_download Kiosk.driver "/work" Cases.ctime_of Cases.rename_node
    "2024-03-05" "111" Cases.shelf
  = rename_to "/work" Cases.rename_node "2024-03-05" "111" "a.pdf" Cases.shelf.
Proof.
  destruct (latest_download_is_the_newest_pdf Kiosk.driver "/work" Cases.ctime_of
              Cases.rename_node "2024-03-05" "111" Cases.shelf
              ["C.PDF"; "a.pdf"; "b.pdf"] [(5, "a.pdf"); (3, "b.pdf")])
    as (_ & _ & Hpick & _).
  - vm_compute. reflexivity.
  - vm_compute. reflexivity.
  - destruct Hpick as (pre & k & latest & post & Hk & Hpre & Hpost & _ & _ & Hrun); [done|].
    rewrite Hrun. destruct pre as [|x [|x' pre]].
    + by injection Hk as <- <- <-.
    + injection Hk as <- <- <- <-. specialize (Hpre (5, "a.pdf") (list_elem_of_here _ _)).
      simpl in Hpre. lia.
    + injection Hk as _ _ Hk. by destruct pre.
Defined.
